(** * astrorapid: the prediction remapper of [Classify]

    A shallow embedding of [astrorapid/classify.py]: the constructor
    [Classify.__init__], [Classify.process_light_curves] and
    [Classify.get_predictions], together with the numpy operations they
    call ([argmax], boolean-mask selection, [sort], [interp], slicing).

    Floating-point numbers are idealised as exact rationals extended with
    a NaN value; infinities and rounding are not modelled. *)

From Stdlib Require Import QArith Qabs Lqa Lia List Sorted Permutation.
From stdpp Require Import gmap strings list fin_maps.

Local Open Scope string_scope.
Local Open Scope list_scope.

(** ** Numbers *)

(** A float is a rational or NaN. *)
Inductive fl : Type :=
| Fin (q : Q)
| NaN.

Definition isnan (x : fl) : bool :=
  match x with NaN => true | Fin _ => false end.

Definition is_finite (x : fl) : Prop :=
  match x with NaN => False | Fin _ => True end.

(** Comparisons follow IEEE 754: every comparison with NaN is false. *)
Definition flt (a b : fl) : bool :=
  match a, b with
  | Fin x, Fin y => negb (Qle_bool y x)
  | _, _ => false
  end.

Definition fle (a b : fl) : bool :=
  match a, b with
  | Fin x, Fin y => Qle_bool x y
  | _, _ => false
  end.

Definition feqb (a b : fl) : bool :=
  match a, b with
  | Fin x, Fin y => Qeq_bool x y
  | _, _ => false
  end.

Definition fadd (a b : fl) : fl :=
  match a, b with
  | Fin x, Fin y => Fin (x + y)
  | _, _ => NaN
  end.

Definition fsub (a b : fl) : fl :=
  match a, b with
  | Fin x, Fin y => Fin (x - y)
  | _, _ => NaN
  end.

Definition fmul (a b : fl) : fl :=
  match a, b with
  | Fin x, Fin y => Fin (x * y)
  | _, _ => NaN
  end.

(** Division by zero has no finite result; without infinities in the
    model it is NaN. *)
Definition fdiv (a b : fl) : fl :=
  match a, b with
  | Fin x, Fin y => if Qeq_bool y 0 then NaN else Fin (x / y)
  | _, _ => NaN
  end.

(** [sum(row)] of a vector. *)
Definition fsum (row : list fl) : fl :=
  fold_right fadd (Fin 0) row.

(** ** Exceptions and the state-and-error monad *)

Inductive exn : Type :=
| IndexError
| ValueError
| TypeError
| ExternalError (msg : string).

Inductive result (A : Type) : Type :=
| Ok (a : A)
| Raise (e : exn).
Arguments Ok {A} a.
Arguments Raise {A} e.

Definition rbind {A B} (r : result A) (k : A -> result B) : result B :=
  match r with
  | Ok a => k a
  | Raise e => Raise e
  end.

(** [xs[i]] on a Python list or the first axis of an array; negative
    indices never occur here. *)
Definition index {A} (xs : list A) (i : nat) : result A :=
  match xs !! i with
  | Some x => Ok x
  | None => Raise IndexError
  end.

(** A list comprehension / loop whose body may raise. *)
Fixpoint rmapM {A B} (f : A -> result B) (xs : list A) : result (list B) :=
  match xs with
  | [] => Ok []
  | x :: xs' =>
      rbind (f x) (fun y => rbind (rmapM f xs') (fun ys => Ok (y :: ys)))
  end.

(** ** numpy operations *)

Module np.

(** [a.argmax()] of a one-dimensional float array: the first index holding
    the maximum, a NaN counting as maximal; raises on an empty array. *)
Fixpoint argmax_loop (mp : fl) (max_ind i : nat) (ip : list fl) : nat :=
  match ip with
  | [] => max_ind
  | x :: ip' =>
      if isnan mp then max_ind
      else if negb (fle x mp) then argmax_loop x i (S i) ip'
      else argmax_loop mp max_ind (S i) ip'
  end.

Definition argmax (a : list fl) : result nat :=
  match a with
  | [] => Raise ValueError
  | x :: a' => Ok (argmax_loop x 0 1 a')
  end.

(** [a.argmax(axis=1)] of a two-dimensional array. *)
Definition argmax_axis1 (a : list (list fl)) : result (list nat) :=
  rmapM argmax a.

(** [np.array(rows)] of a list of one-dimensional float arrays is a
    two-dimensional float array only when the rows have one length. The
    empty list gives the empty array. *)
Definition rectangular (rows : list (list fl)) : bool :=
  match rows with
  | [] => true
  | r :: rows' => forallb (fun r' => Nat.eqb (length r') (length r)) rows'
  end.

(** What is raised for rows of different lengths depends on the version
    of numpy: before 1.24 [np.array] gives an array of objects, on which
    [np.isnan] raises [TypeError]; from 1.24 on [np.array] itself raises
    [ValueError]. In both the statements that stack the rows and select
    from them do not complete; the model has one exception for the two,
    apart from the [TypeError] and [ValueError] of other calls. *)
Definition inhomogeneous : exn :=
  ExternalError "inhomogeneous shape".

(** [a = np.array(rows)] followed by [a[~np.isnan(a)]]: the non-NaN
    entries in row-major order. *)
Definition select_not_nan (rows : list (list fl)) : result (list fl) :=
  if rectangular rows
  then Ok (filter (fun x => negb (isnan x) = true) (concat rows))
  else Raise inhomogeneous.

(** [np.sort] of a NaN-free one-dimensional array, ascending. *)
Fixpoint insert_sorted (x : fl) (l : list fl) : list fl :=
  match l with
  | [] => [x]
  | y :: l' => if fle x y then x :: y :: l' else y :: insert_sorted x l'
  end.

Definition sort (l : list fl) : list fl :=
  fold_right insert_sorted [] l.

(** [a[:, c]]: column [c] of a two-dimensional array. *)
Definition column (a : list (list fl)) (c : nat) : result (list fl) :=
  rmapM (fun row => index row c) a.

(** [np.array(cols).T] for [cols] of common length [n]: row [k] collects
    entry [k] of every column. *)
Definition transpose (n : nat) (cols : list (list fl)) : list (list fl) :=
  map (fun k => map (fun col => nth k col NaN) cols) (seq 0 n).

(** The search of [np.interp] for the interval holding [x] in a
    non-decreasing [xp] with [xp[0] <= x <= xp[-1]]: the index [j] with
    [xp[j] <= x < xp[j+1]], or the last index when [x] is [xp[-1]]. *)
Fixpoint search (x : fl) (xp : list fl) (j : nat) : nat :=
  match xp with
  | [] => j
  | _ :: xp' =>
      match xp' with
      | [] => j
      | x1 :: _ => if flt x x1 then j else search x xp' (S j)
      end
  end.

(** The interpolant on the interval from [(x0, y0)] to [(x1, y1)]. When
    the first formula gives NaN numpy tries the other end point, and then
    the common value of [y0] and [y1]. *)
Definition lerp (x x0 x1 y0 y1 : fl) : fl :=
  let slope := fdiv (fsub y1 y0) (fsub x1 x0) in
  let r := fadd (fmul slope (fsub x x0)) y0 in
  if isnan r then
    let r' := fadd (fmul slope (fsub x x1)) y1 in
    if isnan r' && feqb y0 y1 then y0 else r'
  else r.

(** One value of [np.interp(x, xp, fp)] with the default [left] and
    [right]: [fp[0]] below [xp[0]], [fp[-1]] above [xp[-1]], and the
    linear interpolant in between. numpy expects [xp] non-decreasing and
    does not check it. *)
Definition interp1 (x : fl) (xp fp : list fl) : fl :=
  if isnan x then x
  else
    let lenxp := length xp in
    if flt (nth (lenxp - 1) xp NaN) x then nth (lenxp - 1) fp NaN
    else if flt x (nth 0 xp NaN) then nth 0 fp NaN
    else
      let j := search x xp 0 in
      if Nat.eqb j (lenxp - 1) then nth j fp NaN
      else if feqb (nth j xp NaN) x then nth j fp NaN
      else lerp x (nth j xp NaN) (nth (S j) xp NaN)
             (nth j fp NaN) (nth (S j) fp NaN).

(** [np.interp(x, xp, fp)]: raises on empty sample points and on sample
    arrays of different lengths. *)
Definition interp (x xp fp : list fl) : result (list fl) :=
  if Nat.eqb (length xp) 0 then Raise ValueError
  else if negb (Nat.eqb (length fp) (length xp)) then Raise ValueError
  else Ok (map (fun x_val => interp1 x_val xp fp) x).

End np.

(** ** Data *)

Abbreviation tensor2 := (list (list fl)).
Abbreviation tensor3 := (list (list (list fl))).

(** One input tuple
    [(mjd, flux, fluxerr, passband, zeropoint, photflag, ra, dec, objid,
    redshift, mwebv)]. *)
Record LightCurve : Type := {
  lc_mjd : list fl;
  lc_flux : list fl;
  lc_fluxerr : list fl;
  lc_passband : list string;
  lc_zeropoint : list fl;
  lc_photflag : list Z;
  lc_ra : fl;
  lc_dec : fl;
  lc_objid : string;
  lc_redshift : fl;
  lc_mwebv : fl
}.

(** The per-passband table of an original light curve; [time] is the
    column read by [get_predictions]. *)
Record Frame : Type := {
  time : list fl;
  flux : list fl;
  fluxErr : list fl
}.

(** The tuple [X, orig_lc, timesX, objids_list, trigger_mjds] returned by
    [prepare_input_arrays]. *)
Record Prepared : Type := {
  p_X : tensor3;
  p_orig_lc : list (gmap string Frame);
  p_timesX : tensor2;
  p_objids : list string;
  p_trigger_mjds : list fl
}.

(** A loaded keras model, used only through [predict]. *)
Record Model : Type := {
  predict : tensor3 -> result tensor3
}.

(** A tensorflow graph: the code enters it as a context manager around
    [predict]. Whether tensorflow finds the model's tensors in that graph
    is not modelled; a failure of the call is a [Raise] of [predict]. *)
Inductive Graph : Type :=
| tf_graph (name : string).

Definition CLASS_NAMES : list string :=
  ["Pre-explosion"; "SNIa-norm"; "SNIbc"; "SNII"; "SNIa-91bg"; "SNIa-x";
   "point-Ia"; "Kilonova"; "SLSN-I"; "PISN"; "ILOT"; "CART"; "TDE"].

(** The attributes of a [Classify] object. [arrays] holds [self.X],
    [self.orig_lc], [self.timesX], [self.objids] and [self.trigger_mjds],
    which are assigned together; it and [y_predict] are unset until
    [get_predictions] runs. *)
Record Classify : Type := {
  light_curves : list LightCurve;
  known_redshift : bool;
  passbands : list string;
  bcut : bool;
  zcut : option fl;
  class_names : list string;
  contextual_info : list nat;
  model_filepath : string;
  graph : option Graph;
  model : Model;
  arrays : option Prepared;
  y_predict : option tensor3
}.

Definition set_arrays (p : Prepared) (self : Classify) : Classify :=
  {| light_curves := light_curves self;
     known_redshift := known_redshift self;
     passbands := passbands self;
     bcut := bcut self;
     zcut := zcut self;
     class_names := class_names self;
     contextual_info := contextual_info self;
     model_filepath := model_filepath self;
     graph := graph self;
     model := model self;
     arrays := Some p;
     y_predict := y_predict self |}.

Definition set_y_predict (y : tensor3) (self : Classify) : Classify :=
  {| light_curves := light_curves self;
     known_redshift := known_redshift self;
     passbands := passbands self;
     bcut := bcut self;
     zcut := zcut self;
     class_names := class_names self;
     contextual_info := contextual_info self;
     model_filepath := model_filepath self;
     graph := graph self;
     model := model self;
     arrays := arrays self;
     y_predict := Some y |}.

(** What the program does to the outside: lines printed and calls of the
    model. *)
Inductive event : Type :=
| Print (line : string)
| Predict (x : tensor3).

(** The state threaded through a method: the object and the events so
    far, latest first. *)
Record state : Type := {
  self : Classify;
  log : list event
}.

Definition M (A : Type) : Type := state -> result (A * state).

Definition ret {A} (a : A) : M A := fun st => Ok (a, st).

Definition bind {A B} (c : M A) (k : A -> M B) : M B :=
  fun st =>
    match c st with
    | Ok (a, st') => k a st'
    | Raise e => Raise e
    end.

Definition lift {A} (r : result A) : M A :=
  fun st =>
    match r with
    | Ok a => Ok (a, st)
    | Raise e => Raise e
    end.

Definition get_self : M Classify := fun st => Ok (self st, st).

Definition update_self (f : Classify -> Classify) : M unit :=
  fun st => Ok (tt, {| self := f (self st); log := log st |}).

Definition emit (e : event) : M unit :=
  fun st => Ok (tt, {| self := self st; log := e :: log st |}).

Declare Scope monad_scope.
Delimit Scope monad_scope with monad.
Notation "'let*' x ':=' c 'in' k" := (bind c (fun x => k))
  (at level 10, x name, c at level 100, k at level 200) : monad_scope.
Local Open Scope monad_scope.

(** ** The methods of [Classify] *)

Section Classify.

(** The collaborators outside [classify.py]: the file system, the package
    resources, the model loader and the preprocessing of
    [process_light_curves.py] and [prepare_arrays.py]. *)
Variable os_path_exists : string -> bool.
Variable os_path_join : string -> string -> string.
Variable SCRIPT_DIR : string.
Variable resource_filename : string -> string -> string.
Variable load_model : string -> result Model.
Variable Processed : Type.
Variable read_multiple_light_curves :
  list LightCurve -> bool -> result Processed.
Variable prepare_input_arrays :
  list string -> list nat -> bool -> option fl -> Processed -> result Prepared.

Definition module_name : string := "astrorapid.classify".

(** The feature set and the default model file chosen from
    [known_redshift]. *)
Definition variant (known_redshift : bool) : list nat * string :=
  if known_redshift
  then ([0%nat], "keras_model_with_redshift.hdf5")
  else ([], "keras_model_no_redshift.hdf5").

(** The path assigned to [self.model_filepath], with whether the first
    branch (which prints) was taken. *)
Definition select_model_filepath (model_filepath filename : string)
  : string * bool :=
  if negb (String.eqb model_filepath "") && os_path_exists model_filepath
  then (model_filepath, true)
  else
    let default := os_path_join SCRIPT_DIR filename in
    if negb (os_path_exists default)
    then (resource_filename module_name "keras_model_with_redshift.hdf5", false)
    else (default, false).

(** [Classify.__init__]. *)
Definition __init__ (light_curves : list LightCurve) (known_redshift : bool)
    (model_filepath : string) (passbands : list string) (bcut : bool)
    (zcut : option fl) (graph : option Graph) (model : option Model)
  : result state :=
  let '(contextual_info, filename) := variant known_redshift in
  let '(path, custom) := select_model_filepath model_filepath filename in
  let out :=
    Print path ::
    (if custom then [Print "Invalid keras model. Using default model..."]
     else []) in
  rbind
    (match graph, model with
     | Some _, Some m => Ok m
     | _, _ => load_model path
     end)
    (fun m =>
       Ok {| self :=
               {| light_curves := light_curves;
                  known_redshift := known_redshift;
                  passbands := passbands;
                  bcut := bcut;
                  zcut := zcut;
                  class_names := CLASS_NAMES;
                  contextual_info := contextual_info;
                  model_filepath := path;
                  graph := graph;
                  model := m;
                  arrays := None;
                  y_predict := None |};
             log := out |}).

(** [Classify.process_light_curves]. *)
Definition process_light_curves (self : Classify) : result Prepared :=
  rbind
    (read_multiple_light_curves (light_curves self) (known_redshift self))
    (fun processed_lightcurves =>
       prepare_input_arrays (passbands self) (contextual_info self)
         (bcut self) (zcut self) processed_lightcurves).

(** [self.y_predict = self.model.predict(self.X)]. *)
Definition model_predict (x : tensor3) : M tensor3 :=
  let* self := get_self in
  let* _ := emit (Predict x) in
  let* y := lift (predict (model self) x) in
  let* _ := update_self (set_y_predict y) in
  ret y.

(** The times gathered in the loop over [self.passbands]: the [time]
    column of every passband the light curve holds. *)
Definition gather_obs_time (passbands : list string)
    (lc : gmap string Frame) : tensor2 :=
  omap (fun pb => time <$> lc !! pb) passbands.

(** [obs_time = np.sort(obs_time[~np.isnan(obs_time)])]. *)
Definition sorted_obs_time (passbands : list string)
    (lc : gmap string Frame) : result (list fl) :=
  rbind (np.select_not_nan (gather_obs_time passbands lc))
    (fun obs_time => Ok (np.sort obs_time)).

(** [a + t] of an array and a scalar. *)
Definition shift (a : list fl) (t : fl) : list fl :=
  map (fun x => fadd x t) a.

(** The body of the loop over [idx] in observation-native mode. *)
Definition predictions_at_obstime (passbands : list string)
    (p : Prepared) (y : tensor3) (argmax : list nat) (idx : nat)
  : result (tensor2 * list fl) :=
  rbind (index (p_orig_lc p) idx) (fun lc =>
  rbind (sorted_obs_time passbands lc) (fun obs_time =>
  rbind
    (rmapM
       (fun classnum =>
          rbind (index (p_timesX p) idx) (fun t =>
          rbind (index argmax idx) (fun a =>
          rbind (index y idx) (fun yi =>
          rbind (np.column yi classnum) (fun col =>
          np.interp obs_time (take a t) (take a col))))))
       (seq 0 (length CLASS_NAMES)))
    (fun y_predict_at_obstime =>
  rbind (index (p_trigger_mjds p) idx) (fun trigger =>
  Ok (np.transpose (length obs_time) y_predict_at_obstime,
      shift obs_time trigger))))).

(** The two comprehensions of grid-native mode. *)
Definition truncated_predictions (y : tensor3) (argmax : list nat)
    (nobjects : nat) : result (list tensor2) :=
  rmapM
    (fun i =>
       rbind (index y i) (fun yi =>
       rbind (index argmax i) (fun a =>
       Ok (take a yi))))
    (seq 0 nobjects).

Definition truncated_time_steps (p : Prepared) (argmax : list nat)
    (nobjects : nat) : result tensor2 :=
  rmapM
    (fun i =>
       rbind (index (p_timesX p) i) (fun t =>
       rbind (index argmax i) (fun a =>
       rbind (index (p_trigger_mjds p) i) (fun trigger =>
       Ok (shift (take a t) trigger)))))
    (seq 0 nobjects).

(** [argmax = self.timesX.argmax(axis=1) + 1]. *)
Definition causal_horizon (timesX : tensor2) : result (list nat) :=
  rbind (np.argmax_axis1 timesX) (fun a => Ok (map S a)).

Definition no_objects_message : string :=
  "No objects to classify. These may have been removed from the chosen selection cuts".

(** [Classify.get_predictions]. The result [None] stands for the pair
    [(None, None)]. *)
Definition get_predictions (return_predictions_at_obstime : bool)
  : M (option (list tensor2 * tensor2)) :=
  let* self0 := get_self in
  let* p := lift (process_light_curves self0) in
  let* _ := update_self (set_arrays p) in
  let nobjects := length (p_objids p) in
  if Nat.eqb nobjects 0 then
    let* _ := emit (Print no_objects_message) in
    ret None
  else
    let* y := match graph self0 with
              | Some _ => model_predict (p_X p)
              | None => model_predict (p_X p)
              end in
    let* argmax := lift (causal_horizon (p_timesX p)) in
    if return_predictions_at_obstime then
      let s := length y in
      let* out := lift (rmapM
                          (predictions_at_obstime (passbands self0) p y argmax)
                          (seq 0 s)) in
      ret (Some (map fst out, map snd out))
    else
      let* y_predict := lift (truncated_predictions y argmax nobjects) in
      let* time_steps := lift (truncated_time_steps p argmax nobjects) in
      ret (Some (y_predict, time_steps)).

End Classify.

(** ** States reached by [get_predictions] *)

(** The state after a batch without objects and after a classified one. *)
Definition after_empty (p : Prepared) (st : state) : state :=
  {| self := set_arrays p (self st);
     log := Print no_objects_message :: log st |}.

Definition after_predict (p : Prepared) (y : tensor3) (st : state) : state :=
  {| self := set_y_predict y (set_arrays p (self st));
     log := Predict (p_X p) :: log st |}.

(** ** Shapes of a batch *)

(** The bookkeeping arrays are parallel: one entry per surviving object. *)
Record parallel (p : Prepared) : Prop := {
  par_timesX : length (p_timesX p) = length (p_objids p);
  par_trigger_mjds : length (p_trigger_mjds p) = length (p_objids p);
  par_orig_lc : length (p_orig_lc p) = length (p_objids p)
}.

(** Every time grid has [grid_size] points. *)
Definition grids (grid_size : nat) (p : Prepared) : Prop :=
  Forall (fun g => length g = grid_size) (p_timesX p).

(** The model output has one curve of [grid_size] timesteps per object. *)
Record curves (grid_size : nat) (p : Prepared) (y : tensor3) : Prop := {
  cur_objects : length y = length (p_objids p);
  cur_timesteps : Forall (fun yi => length yi = grid_size) y
}.

(** Every timestep of the model output has one entry per class. *)
Definition classes (y : tensor3) : Prop :=
  Forall (Forall (fun row => length row = length CLASS_NAMES)) y.

(** [k] is the first index holding the largest entry of [grid]. *)
Definition first_max (grid : list fl) (k : nat) : Prop :=
  k < length grid /\
  forall j x, grid !! j = Some x ->
    fle x (nth k grid NaN) = true /\ (j < k -> flt x (nth k grid NaN) = true).

(** ** Observation-native mode, object by object *)

(** The time columns gathered for a light curve can be stacked into one
    array. *)
Definition aligned (passbands : list string) (lc : gmap string Frame)
  : Prop :=
  np.rectangular (gather_obs_time passbands lc) = true.

(** Column [c] of a curve whose rows all reach index [c]. *)
Definition class_curve (yi : tensor2) (c : nat) : list fl :=
  map (fun row => nth c row NaN) yi.

(** The probability vector reported at observation time [x]: every class
    curve, cut at the horizon [h], interpolated at [x]. *)
Definition vector_at (grid : list fl) (yi : tensor2) (h : nat) (x : fl)
  : list fl :=
  map (fun c => np.interp1 x (take h grid) (take h (class_curve yi c)))
    (seq 0 (length CLASS_NAMES)).

(** Ascending order on floats. *)
Definition ascending (l : list fl) : Prop :=
  StronglySorted (fun a b => fle a b = true) l.

(** ** Probability vectors *)

Definition in_unit (x : fl) : Prop :=
  match x with
  | Fin q => (0 <= q <= 1)%Q
  | NaN => False
  end.

(** A probability distribution: entries in [0, 1] that sum to 1. *)
Definition distribution (row : list fl) : Prop :=
  Forall in_unit row /\ exists s, fsum row = Fin s /\ (s == 1)%Q.

(** The vector has a finite sum within [eps] of 1. *)
Definition sums_to_one (eps : Q) (row : list fl) : Prop :=
  exists s, fsum row = Fin s /\ (Qabs (s - 1) <= eps)%Q.

Definition tolerance : Q := 1 # 1000000.

(** ** Outcomes and configuration *)

(** What a method call returns or raises, without the state it leaves. *)
Definition outcome {A} (r : result (A * state)) : result A :=
  match r with
  | Ok (a, _) => Ok a
  | Raise e => Raise e
  end.

(** The attributes fixed by the constructor agree; [arrays] and
    [y_predict], which [get_predictions] overwrites, may differ. *)
Record same_configuration (a b : Classify) : Prop := {
  cfg_light_curves : light_curves a = light_curves b;
  cfg_known_redshift : known_redshift a = known_redshift b;
  cfg_passbands : passbands a = passbands b;
  cfg_bcut : bcut a = bcut b;
  cfg_zcut : zcut a = zcut b;
  cfg_class_names : class_names a = class_names b;
  cfg_contextual_info : contextual_info a = contextual_info b;
  cfg_model_filepath : model_filepath a = model_filepath b;
  cfg_graph : graph a = graph b;
  cfg_model : model a = model b
}.

(** The part of [get_predictions] after the model call, as a function of
    the arrays it reads. *)
Definition remap (return_predictions_at_obstime : bool)
    (passbands : list string) (p : Prepared) (y : tensor3)
  : result (list tensor2 * tensor2) :=
  rbind (causal_horizon (p_timesX p)) (fun argmax =>
  if return_predictions_at_obstime then
    rbind (rmapM (predictions_at_obstime passbands p y argmax)
             (seq 0 (length y)))
      (fun out => Ok (map fst out, map snd out))
  else
    rbind (truncated_predictions y argmax (length (p_objids p)))
      (fun y_predict =>
    rbind (truncated_time_steps p argmax (length (p_objids p)))
      (fun time_steps => Ok (y_predict, time_steps)))).

(** The default model file beside the module for each variant. *)
Definition default_filename (known_redshift : bool) : string :=
  if known_redshift
  then "keras_model_with_redshift.hdf5"
  else "keras_model_no_redshift.hdf5".

(** ** A worked batch *)

Module Ex.

Definition exists_everywhere : string -> bool := fun _ => true.
Definition exists_nowhere : string -> bool := fun _ => false.
Definition join (dir name : string) : string := dir ++ "/" ++ name.
Definition script_dir : string := "/opt/astrorapid".
Definition resource (module name : string) : string :=
  "/site-packages/astrorapid/" ++ name.

Definition one_hot (c : nat) : list fl :=
  map (fun k => if Nat.eqb k c then Fin 1 else Fin 0)
    (seq 0 (length CLASS_NAMES)).

Definition half_half : list fl :=
  Fin (1 # 2) :: Fin (1 # 2) :: replicate 11 (Fin 0).

(** Two objects on a grid of four points. The first grid is padded with a
    zero after its last observation; the second is full. *)
Definition timesX : tensor2 :=
  [ [Fin 0; Fin 1; Fin 2; Fin 0];
    [Fin (-1); Fin 0; Fin 1; Fin 2] ].

(** The first object was seen in both passbands, once at the same time in
    both and once after the end of its grid; the second has no [g]
    passband. The columns are padded with NaN. *)
Definition frame (t : list fl) : Frame :=
  {| time := t; flux := map (fun _ => Fin 1) t;
     fluxErr := map (fun _ => Fin (1 # 10)) t |}.

Definition orig_lc : list (gmap string Frame) :=
  [ {[ "g" := frame [Fin (-3); Fin (1 # 2); Fin 1];
       "r" := frame [Fin 1; Fin 5; NaN] ]};
    {[ "r" := frame [Fin 2; NaN] ]} ].

Definition X : tensor3 :=
  [ replicate 4 [Fin 1; Fin 1; Fin (1 # 10)];
    replicate 4 [Fin 0; Fin 1; Fin (3 # 10)] ].

Definition prepared : Prepared :=
  {| p_X := X;
     p_orig_lc := orig_lc;
     p_timesX := timesX;
     p_objids := ["ZTF18aaaaaaa"; "ZTF18bbbbbbb"];
     p_trigger_mjds := [Fin 58000; Fin 58100] |}.

Definition y : tensor3 :=
  [ [one_hot 0; half_half; one_hot 1; one_hot 2];
    replicate 4 (one_hot 3) ].

Definition keras : Model := {| predict := fun _ => Ok y |}.

(** A model whose output is NaN throughout. *)
Definition y_nan : tensor3 :=
  replicate 2 (replicate 4 (replicate 13 NaN)).

Definition keras_nan : Model := {| predict := fun _ => Ok y_nan |}.

(** A model that cannot be called. *)
Definition keras_broken : Model :=
  {| predict := fun _ => Raise (ExternalError "predict") |}.

Definition load (path : string) : result Model := Ok keras.

Definition read (lcs : list LightCurve) (known_redshift : bool)
  : result (list LightCurve) := Ok lcs.

Definition prepare (passbands : list string) (contextual_info : list nat)
    (bcut : bool) (zcut : option fl) (processed : list LightCurve)
  : result Prepared := Ok prepared.

(** A preprocessing after which no object survives. *)
Definition prepare_none (passbands : list string)
    (contextual_info : list nat) (bcut : bool) (zcut : option fl)
    (processed : list LightCurve) : result Prepared :=
  Ok {| p_X := []; p_orig_lc := []; p_timesX := []; p_objids := [];
        p_trigger_mjds := [] |}.

Definition classify (m : Model) : Classify :=
  {| light_curves := [];
     known_redshift := true;
     passbands := ["g"; "r"];
     bcut := false;
     zcut := None;
     class_names := CLASS_NAMES;
     contextual_info := [0];
     model_filepath := join script_dir "keras_model_with_redshift.hdf5";
     graph := None;
     model := m;
     arrays := None;
     y_predict := None |}.

Definition start (m : Model) : state :=
  {| self := classify m; log := [] |}.

Definition horizons : list nat := [3; 4].

End Ex.

(** ** Padded time grids *)

(** Strictly increasing order on floats. *)
Definition increasing (l : list fl) : Prop :=
  StronglySorted (fun a b => flt a b = true) l.

(** A time before the trigger. *)
Definition negative (x : fl) : Prop := flt x (Fin 0) = true.

(** [n] padding slots, as [np.zeros] leaves them. *)
Definition padding (n : nat) : list fl := replicate n (Fin 0).

(** ** Further batches *)

Module Ex2.

(** One object seen twice, both times before the trigger, on a grid of
    four points; the model answers with four timesteps. *)
Definition early : Prepared :=
  {| p_X := [replicate 4 [Fin 1; Fin 1; Fin (1 # 10)]];
     p_orig_lc := [ {[ "g" := Ex.frame [Fin (-3); Fin (-1)];
                       "r" := Ex.frame [Fin (-3); NaN] ]} ];
     p_timesX := [[Fin (-3); Fin (-1); Fin 0; Fin 0]];
     p_objids := ["ZTF18ccccccc"];
     p_trigger_mjds := [Fin 58200] |}.

Definition y_early : tensor3 :=
  [[Ex.one_hot 0; Ex.one_hot 0; Ex.one_hot 1; Ex.one_hot 2]].

Definition keras_early : Model := {| predict := fun _ => Ok y_early |}.

Definition prepare_early (passbands : list string)
    (contextual_info : list nat) (bcut : bool) (zcut : option fl)
    (processed : list LightCurve) : result Prepared := Ok early.

(** A model that answers the worked batch with two timesteps only. *)
Definition y_short : tensor3 :=
  [ [Ex.one_hot 0; Ex.half_half]; [Ex.one_hot 3; Ex.one_hot 3] ].

Definition keras_short : Model := {| predict := fun _ => Ok y_short |}.

(** A model that answers the worked batch with twelve classes. *)
Definition y_twelve : tensor3 :=
  replicate 2 (replicate 4 (Fin 1 :: replicate 11 (Fin 0))).

Definition keras_twelve : Model := {| predict := fun _ => Ok y_twelve |}.

(** The worked batch with a second [r] column shorter than the [g]
    column of the first object. *)
Definition ragged : Prepared :=
  {| p_X := Ex.X;
     p_orig_lc :=
       [ {[ "g" := Ex.frame [Fin (-3); Fin (1 # 2); Fin 1];
            "r" := Ex.frame [Fin 1; Fin 5] ]};
         {[ "r" := Ex.frame [Fin 2; NaN] ]} ];
     p_timesX := Ex.timesX;
     p_objids := ["ZTF18aaaaaaa"; "ZTF18bbbbbbb"];
     p_trigger_mjds := [Fin 58000; Fin 58100] |}.

Definition prepare_ragged (passbands : list string)
    (contextual_info : list nat) (bcut : bool) (zcut : option fl)
    (processed : list LightCurve) : result Prepared := Ok ragged.

End Ex2.

(** ** Plotting *)

(** The other exceptions the plotting methods raise, told apart by class
    and argument. *)
Definition KeyError (key : string) : exn :=
  ExternalError ("KeyError: " ++ key).

Definition AttributeError (name : string) : exn :=
  ExternalError ("AttributeError: " ++ name).

Definition PB_COLOR : gmap string string :=
  {[ "u" := "tab:blue"; "g" := "tab:blue"; "r" := "tab:orange";
     "i" := "m"; "z" := "k"; "Y" := "y" ]}.

Definition PB_MARKER : gmap string string :=
  {[ "g" := "o"; "r" := "s" ]}.

Definition CLASS_COLOR : gmap string string :=
  {[ "Pre-explosion" := "grey"; "SNIa-norm" := "tab:green";
     "SNIbc" := "tab:orange"; "SNII" := "tab:blue";
     "SNIa-91bg" := "tab:red"; "SNIa-x" := "tab:purple";
     "point-Ia" := "tab:brown"; "Kilonova" := "#aaffc3";
     "SLSN-I" := "tab:olive"; "PISN" := "tab:cyan"; "ILOT" := "#FF1493";
     "CART" := "navy"; "TDE" := "tab:pink" ]}.

(** [d[k]] on a dict. *)
Definition getitem {A} (d : gmap string A) (k : string) : result A :=
  match d !! k with
  | Some v => Ok v
  | None => Raise (KeyError k)
  end.

(** [self.timesX], [self.orig_lc], [self.objids]: set together by
    [get_predictions]. *)
Definition getattr_arrays (name : string) (self : Classify)
  : result Prepared :=
  match arrays self with
  | Some p => Ok p
  | None => Raise (AttributeError name)
  end.

(** [self.y_predict]. *)
Definition getattr_y_predict (self : Classify) : result tensor3 :=
  match y_predict self with
  | Some y => Ok y
  | None => Raise (AttributeError "y_predict")
  end.

(** What reaches the figure: the data of the calls that draw, the left
    limit of the time axis and the file saved. Figure set-up, legends,
    labels and fonts carry no data of the object and are left out. *)
Inductive drawing : Type :=
| Errorbar (x y yerr : list fl) (fmt label c : string)
| Step (x y : list fl) (label color : string)
| Line (x y : list fl) (label color : string)
| Xlim_left (left : fl)
| Savefig (name : string).

(** [ax.errorbar(x, y, yerr=yerr, ...)], [ax.step(x, y, ...)] and
    [ax.plot(x, y, ...)] refuse data of different lengths. *)
Definition errorbar (x y yerr : list fl) (fmt label c : string)
  : result drawing :=
  if Nat.eqb (length x) (length y) && Nat.eqb (length yerr) (length y)
  then Ok (Errorbar x y yerr fmt label c)
  else Raise ValueError.

Definition draw_line (step : bool) (x y : list fl) (label color : string)
  : result drawing :=
  if Nat.eqb (length x) (length y)
  then Ok (if step then Step x y label color else Line x y label color)
  else Raise ValueError.

(** The builtin [min] of a sequence of floats without NaN. *)
Definition py_min (l : list fl) : result fl :=
  match l with
  | [] => Raise ValueError
  | x :: l' => Ok (fold_left (fun m z => if flt z m then z else m) l' x)
  end.

(** ['classification_vs_time_{}{}{}'.format(...)] with ["{}.pdf"]. *)
Definition savename (objid : string) (step use_interp_flux : bool)
  : string :=
  "classification_vs_time_" ++ objid
  ++ (if step then "_step" else "")
  ++ (if negb use_interp_flux then "_no_interp" else "")
  ++ ".pdf".

(** The error bars of the passbands the light curve holds. *)
Definition errorbars (self : Classify) (idx : nat)
  : result (list (list drawing)) :=
  rmapM
    (fun pb =>
       rbind (getattr_arrays "orig_lc" self) (fun p =>
       rbind (index (p_orig_lc p) idx) (fun lc =>
       match lc !! pb with
       | Some frame =>
           rbind (getitem PB_MARKER pb) (fun fmt =>
           rbind (getitem PB_COLOR pb) (fun c =>
           rbind (errorbar (time frame) (flux frame) (fluxErr frame)
                    fmt pb c)
             (fun d => Ok [d])))
       | None => Ok []
       end)))
    (passbands self).

(** [new_t]: the time columns of all configured passbands, stacked,
    flattened, without NaN, sorted. *)
Definition plotted_times (self : Classify) (idx : nat) : result (list fl) :=
  rbind
    (rmapM
       (fun pb =>
          rbind (getattr_arrays "orig_lc" self) (fun p =>
          rbind (index (p_orig_lc p) idx) (fun lc =>
          rbind (getitem lc pb) (fun frame => Ok (time frame)))))
       (passbands self))
    (fun rows =>
  rbind (np.select_not_nan rows) (fun new_t => Ok (np.sort new_t))).

(** The truncated curve of one class on the grid. *)
Definition grid_curve (self : Classify) (idx argmax classnum : nat)
  : result (list fl * list fl) :=
  rbind (getattr_arrays "timesX" self) (fun p =>
  rbind (index (p_timesX p) idx) (fun t =>
  rbind (getattr_y_predict self) (fun y =>
  rbind (index y idx) (fun yi =>
  rbind (np.column yi classnum) (fun col =>
  Ok (take argmax t, take argmax col)))))).

(** [new_y_predict]. *)
Definition plotted_predictions (self : Classify) (idx argmax : nat)
    (new_t : list fl) : result tensor2 :=
  rmapM
    (fun classnum =>
       rbind (grid_curve self idx argmax classnum) (fun xy =>
       np.interp new_t (fst xy) (snd xy)))
    (seq 0 (length CLASS_NAMES)).

(** The curves of the classes. *)
Definition class_lines (self : Classify) (idx argmax : nat)
    (step use_interp_flux : bool) (new_t : list fl) (new_y_predict : tensor2)
  : result (list drawing) :=
  rmapM
    (fun classnum =>
       rbind (index CLASS_NAMES classnum) (fun classname =>
       if negb use_interp_flux then
         rbind (index new_y_predict classnum) (fun ys =>
         rbind (getitem CLASS_COLOR classname) (fun color =>
         draw_line step new_t ys classname color))
       else
         rbind (grid_curve self idx argmax classnum) (fun xy =>
         rbind (getitem CLASS_COLOR classname) (fun color =>
         draw_line false (fst xy) (snd xy) classname color))))
    (seq 0 (length CLASS_NAMES)).

(** The body of the loop over [indexes_to_plot]. *)
Definition plot_one (self : Classify) (step use_interp_flux : bool)
    (idx : nat) : result (list drawing) :=
  rbind (getattr_arrays "timesX" self) (fun p =>
  rbind (index (p_timesX p) idx) (fun t =>
  rbind (np.argmax t) (fun a =>
  let argmax := S a in
  rbind (errorbars self idx) (fun bars =>
  rbind (plotted_times self idx) (fun new_t =>
  rbind (if negb use_interp_flux
         then plotted_predictions self idx argmax new_t
         else Ok [])
    (fun new_y_predict =>
  rbind (class_lines self idx argmax step use_interp_flux new_t
           new_y_predict)
    (fun lines =>
  rbind (py_min new_t) (fun left =>
  rbind (getattr_arrays "objids" self) (fun p' =>
  rbind (index (p_objids p') idx) (fun objid =>
  Ok (concat bars ++ lines
      ++ [Xlim_left left;
          Savefig (savename objid step use_interp_flux)]))))))))))).

Section Plotting.

Variable Processed : Type.
Variable read_multiple_light_curves :
  list LightCurve -> bool -> result Processed.
Variable prepare_input_arrays :
  list string -> list nat -> bool -> option fl -> Processed -> result Prepared.

(** [Classify.plot_light_curves_and_classifications]. [None] stands for
    the values [None] and [True] of [indexes_to_plot]. The result holds
    the returned tuple and what was drawn. *)
Definition plot_light_curves_and_classifications
    (indexes_to_plot : option (list nat)) (step use_interp_flux : bool)
  : M ((list (gmap string Frame) * tensor2 * tensor3) * list drawing) :=
  let* self0 := get_self in
  let* indexes :=
    match indexes_to_plot with
    | None =>
        let* y := lift (getattr_y_predict self0) in
        ret (seq 0 (length y))
    | Some l => ret l
    end in
  let* _ :=
    match y_predict self0 with
    | None =>
        let* _ := get_predictions Processed read_multiple_light_curves
                    prepare_input_arrays false in
        ret tt
    | Some _ => ret tt
    end in
  let* self1 := get_self in
  let* drawn := lift (rmapM (plot_one self1 step use_interp_flux) indexes) in
  let* p := lift (getattr_arrays "orig_lc" self1) in
  let* y := lift (getattr_y_predict self1) in
  ret ((p_orig_lc p, p_timesX p, y), concat drawn).

End Plotting.

(** A per-passband table has columns of one length. *)
Definition tabular (frame : Frame) : Prop :=
  length (time frame) = length (flux frame) /\
  length (fluxErr frame) = length (flux frame).

(** The passbands of a light curve that can be drawn: those with a marker,
    holding a table. *)
Definition drawable (passbands : list string) (lc : gmap string Frame)
  : Prop :=
  forall pb frame,
    pb ∈ passbands -> lc !! pb = Some frame ->
    (pb = "g" \/ pb = "r") /\ tabular frame.

(** ** The horizon in [plot_metrics] *)

(** [timesX_test[timesX_test == 0] = -200]. *)
Definition mask_zero_times (timesX_test : tensor2) : tensor2 :=
  map (map (fun t => if feqb t (Fin 0) then Fin (-200) else t)) timesX_test.

(** A time that is neither zero nor at or below the replacement value. *)
Definition plain (x : fl) : Prop :=
  flt (Fin (-200)) x = true /\ feqb x (Fin 0) = false.

(** [argmax = timesX_test[idx].argmax() + 1] in the loop over the examples,
    which runs after the zeros are replaced. *)
Definition metrics_horizon (timesX_test : tensor2) (idx : nat) : result nat :=
  rbind (index (mask_zero_times timesX_test) idx) (fun t =>
  rbind (np.argmax t) (fun a => Ok (S a))).

Module Ex3.

(** The worked batch as [get_predictions] leaves it in the object. *)
Definition cached : state :=
  after_predict Ex.prepared Ex.y (Ex.start Ex.keras).

(** One object seen in [g] and in [i], in an object configured for these
    two passbands and holding its predictions. *)
Definition with_i : Prepared :=
  {| p_X := [replicate 4 [Fin 1; Fin 1; Fin (1 # 10)]];
     p_orig_lc := [ {[ "g" := Ex.frame [Fin 0; Fin 1];
                       "i" := Ex.frame [Fin 1; Fin 2] ]} ];
     p_timesX := [[Fin 0; Fin 1; Fin 2; Fin 0]];
     p_objids := ["ZTF18ddddddd"];
     p_trigger_mjds := [Fin 58300] |}.

Definition cached_with_i : state :=
  {| self :=
       {| light_curves := [];
          known_redshift := true;
          passbands := ["g"; "i"];
          bcut := false;
          zcut := None;
          class_names := CLASS_NAMES;
          contextual_info := [0];
          model_filepath := Ex.join Ex.script_dir "keras_model_with_redshift.hdf5";
          graph := None;
          model := Ex.keras;
          arrays := Some with_i;
          y_predict := Some [replicate 4 (Ex.one_hot 1)] |};
     log := [] |}.

End Ex3.

Module Ex4.

(** One object whose time columns hold NaN only. *)
Definition unseen : Prepared :=
  {| p_X := [replicate 4 [Fin 0; Fin 0; Fin (1 # 10)]];
     p_orig_lc := [ {[ "g" := Ex.frame [NaN; NaN];
                       "r" := Ex.frame [NaN; NaN] ]} ];
     p_timesX := [[Fin 0; Fin 1; Fin 2; Fin 0]];
     p_objids := ["ZTF18eeeeeee"];
     p_trigger_mjds := [Fin 58400] |}.

Definition y_unseen : tensor3 := [replicate 4 (Ex.one_hot 1)].

Definition keras_unseen : Model := {| predict := fun _ => Ok y_unseen |}.

Definition prepare_unseen (passbands : list string)
    (contextual_info : list nat) (bcut : bool) (zcut : option fl)
    (processed : list LightCurve) : result Prepared := Ok unseen.

Definition cached_unseen : state :=
  after_predict unseen y_unseen (Ex.start keras_unseen).

End Ex4.

(** ** Generic facts: results, loops, lookups *)

Lemma index_Ok {A} (xs : list A) (i : nat) (x : A) :
  index xs i = Ok x <-> xs !! i = Some x.
Proof.
  unfold index. destruct (xs !! i); split; intros H; congruence.
Qed.

Lemma index_lt {A} (xs : list A) (i : nat) (d : A) :
  i < length xs -> index xs i = Ok (nth i xs d).
Proof.
  intros H. apply index_Ok.
  destruct (nth_lookup_or_length xs i d) as [E|E]; [done|lia].
Qed.

Lemma rmapM_Ok_fun {A B} (f : A -> result B) (g : A -> B) (xs : list A) :
  (forall x, x ∈ xs -> f x = Ok (g x)) ->
  rmapM f xs = Ok (map g xs).
Proof.
  induction xs as [|x xs IH]; intros H; simpl; [done|].
  rewrite (H x) by left. simpl.
  rewrite IH; [done|]. intros z Hz. apply H. by right.
Qed.

Lemma rmapM_seq_Ok {B} (f : nat -> result B) (g : nat -> B) (n : nat) :
  (forall i, i < n -> f i = Ok (g i)) ->
  rmapM f (seq 0 n) = Ok (map g (seq 0 n)).
Proof.
  intros H. apply rmapM_Ok_fun. intros i Hi.
  apply elem_of_seq in Hi. apply H. lia.
Qed.

Lemma rmapM_Ok_length {A B} (f : A -> result B) (xs : list A) (ys : list B) :
  rmapM f xs = Ok ys -> length ys = length xs.
Proof.
  revert ys. induction xs as [|x xs IH]; intros ys; simpl.
  - intros [= <-]. done.
  - destruct (f x) as [y|]; simpl; [|done].
    destruct (rmapM f xs) as [ys'|]; simpl; [|done].
    intros [= <-]. simpl. f_equal. by apply IH.
Qed.

Lemma rmapM_Ok_lookup {A B} (f : A -> result B) (xs : list A) (ys : list B)
    (i : nat) (x : A) :
  rmapM f xs = Ok ys -> xs !! i = Some x ->
  exists y, ys !! i = Some y /\ f x = Ok y.
Proof.
  revert ys i. induction xs as [|x0 xs IH]; intros ys i; simpl; [done|].
  destruct (f x0) as [y0|] eqn:E0; simpl; [|done].
  destruct (rmapM f xs) as [ys'|] eqn:E; simpl; [|done].
  intros [= <-]. destruct i as [|i]; simpl.
  - intros [= <-]. eauto.
  - intros Hx. by apply IH.
Qed.

Lemma lookup_map_seq {B} (g : nat -> B) (n i : nat) :
  i < n -> map g (seq 0 n) !! i = Some (g i).
Proof.
  intros H. change (map g (seq 0 n)) with (g <$> seq 0 n).
  rewrite list_lookup_fmap, lookup_seq_lt by done. done.
Qed.

(** ** Facts about the numpy operations *)

Lemma argmax_loop_bound (ip : list fl) :
  forall mp max_ind i,
    max_ind < i -> np.argmax_loop mp max_ind i ip < i + length ip.
Proof.
  induction ip as [|x ip IH]; intros mp max_ind i H; simpl; [lia|].
  destruct (isnan mp); [lia|].
  destruct (negb (fle x mp)).
  - specialize (IH x i (S i)). lia.
  - specialize (IH mp max_ind (S i)). lia.
Qed.

Lemma argmax_Ok (a : list fl) :
  0 < length a -> exists k, np.argmax a = Ok k /\ k < length a.
Proof.
  destruct a as [|x a]; simpl; [lia|]. intros _.
  eexists; split; [done|].
  pose proof (argmax_loop_bound a x 0 1). lia.
Qed.

Lemma argmax_lt (a : list fl) (k : nat) :
  np.argmax a = Ok k -> k < length a.
Proof.
  destruct a as [|x a]; simpl; [done|]. intros [= <-].
  pose proof (argmax_loop_bound a x 0 1). lia.
Qed.

(** ** Running [get_predictions] *)

Section Run.

Variable Processed : Type.
Variable read_multiple_light_curves :
  list LightCurve -> bool -> result Processed.
Variable prepare_input_arrays :
  list string -> list nat -> bool -> option fl -> Processed -> result Prepared.

Local Abbreviation process :=
  (process_light_curves Processed read_multiple_light_curves
     prepare_input_arrays).
Local Abbreviation run :=
  (get_predictions Processed read_multiple_light_curves prepare_input_arrays).

Lemma run_empty (b : bool) (st : state) (p : Prepared) :
  process (self st) = Ok p ->
  length (p_objids p) = 0 ->
  run b st = Ok (None, after_empty p st).
Proof.
  intros Hp Hn. unfold get_predictions, bind, lift, get_self; simpl.
  rewrite Hp; simpl. rewrite Hn; simpl. done.
Qed.

Lemma run_grid (st : state) (p : Prepared) (y : tensor3) (hs : list nat)
    (ys : list tensor2) (ts : tensor2) :
  process (self st) = Ok p ->
  length (p_objids p) <> 0 ->
  predict (model (self st)) (p_X p) = Ok y ->
  causal_horizon (p_timesX p) = Ok hs ->
  truncated_predictions y hs (length (p_objids p)) = Ok ys ->
  truncated_time_steps p hs (length (p_objids p)) = Ok ts ->
  run false st = Ok (Some (ys, ts), after_predict p y st).
Proof.
  intros Hp Hn Hy Hh Hys Hts.
  unfold get_predictions, bind, lift, get_self; simpl.
  rewrite Hp; simpl.
  destruct (Nat.eqb_spec (length (p_objids p)) 0) as [E|_]; [done|].
  assert (Hm : model_predict (p_X p)
                 {| self := set_arrays p (self st); log := log st |}
               = Ok (y, after_predict p y st)).
  { unfold model_predict, bind, lift, get_self, emit, update_self; simpl.
    rewrite Hy. done. }
  destruct (graph (self st)); rewrite Hm, Hh, Hys, Hts; done.
Qed.

Lemma run_obstime (st : state) (p : Prepared) (y : tensor3) (hs : list nat)
    (out : list (tensor2 * list fl)) :
  process (self st) = Ok p ->
  length (p_objids p) <> 0 ->
  predict (model (self st)) (p_X p) = Ok y ->
  causal_horizon (p_timesX p) = Ok hs ->
  rmapM (predictions_at_obstime (passbands (self st)) p y hs)
    (seq 0 (length y)) = Ok out ->
  run true st = Ok (Some (map fst out, map snd out), after_predict p y st).
Proof.
  intros Hp Hn Hy Hh Hout.
  unfold get_predictions, bind, lift, get_self; simpl.
  rewrite Hp; simpl.
  destruct (Nat.eqb_spec (length (p_objids p)) 0) as [E|_]; [done|].
  assert (Hm : model_predict (p_X p)
                 {| self := set_arrays p (self st); log := log st |}
               = Ok (y, after_predict p y st)).
  { unfold model_predict, bind, lift, get_self, emit, update_self; simpl.
    rewrite Hy. done. }
  destruct (graph (self st)); rewrite Hm, Hh, Hout; done.
Qed.

(** Any successful run went through the preprocessing. *)
Lemma run_Ok_process (b : bool) (st st' : state)
    (r : option (list tensor2 * tensor2)) :
  run b st = Ok (r, st') -> exists p, process (self st) = Ok p.
Proof.
  unfold get_predictions, bind, lift, get_self; simpl.
  destruct (process (self st)) as [p|]; [eauto|done].
Qed.

End Run.

(** ** The causal horizon *)

Lemma fle_Fin (a b : Q) : fle (Fin a) (Fin b) = true <-> (a <= b)%Q.
Proof. unfold fle. apply Qle_bool_iff. Qed.

Lemma flt_Fin (a b : Q) : flt (Fin a) (Fin b) = true <-> (a < b)%Q.
Proof.
  unfold flt. rewrite negb_true_iff. split; intros H.
  - apply Qnot_le_lt. intros Hle. apply Qle_bool_iff in Hle. congruence.
  - destruct (Qle_bool b a) eqn:E; [|done].
    apply Qle_bool_iff in E. lra.
Qed.

Lemma fle_false_Fin (a b : Q) : fle (Fin a) (Fin b) = false <-> (b < a)%Q.
Proof.
  unfold fle. split; intros H.
  - apply Qnot_le_lt. intros Hle. apply Qle_bool_iff in Hle. congruence.
  - destruct (Qle_bool a b) eqn:E; [|done].
    apply Qle_bool_iff in E. lra.
Qed.

Lemma flt_false_Fin (a b : Q) : flt (Fin a) (Fin b) = false <-> (b <= a)%Q.
Proof.
  unfold flt. rewrite negb_false_iff. apply Qle_bool_iff.
Qed.

Lemma is_finite_Fin (x : fl) : is_finite x -> exists q, x = Fin q.
Proof. destruct x; [eauto|done]. Qed.

(** The scan keeps the first largest entry of what it has read. *)
Lemma argmax_loop_first_max (ip : list fl) :
  forall (pre : list fl) (mp : Q) (m : nat),
    Forall is_finite (pre ++ ip) ->
    pre !! m = Some (Fin mp) ->
    (forall j x, pre !! j = Some x ->
       fle x (Fin mp) = true /\ (j < m -> flt x (Fin mp) = true)) ->
    first_max (pre ++ ip) (np.argmax_loop (Fin mp) m (length pre) ip).
Proof.
  induction ip as [|x ip IH]; intros pre mp m Hfin Hm Hmax; simpl.
  - rewrite app_nil_r. split; [by eapply lookup_lt_Some|].
    intros j y Hy. rewrite (nth_lookup_Some _ _ _ _ Hm). by apply Hmax.
  - assert (Hx : is_finite x).
    { rewrite Forall_app, Forall_cons in Hfin. tauto. }
    apply is_finite_Fin in Hx as [q ->].
    replace (pre ++ Fin q :: ip) with ((pre ++ [Fin q]) ++ ip) in *
      by (by rewrite <- app_assoc).
    replace (S (length pre)) with (length (pre ++ [Fin q]))
      by (rewrite length_app; simpl; lia).
    destruct (fle (Fin q) (Fin mp)) eqn:E; simpl.
    + apply IH; [done| |].
      * rewrite lookup_app_l; [done|by eapply lookup_lt_Some].
      * intros j y Hy. apply lookup_app_Some in Hy as [Hy|[Hge Hy]].
        { by apply Hmax. }
        apply list_lookup_singleton_Some in Hy as [_ <-].
        split; [done|]. apply lookup_lt_Some in Hm. lia.
    + apply fle_false_Fin in E. apply IH; [done| |].
      * rewrite lookup_app_r, Nat.sub_diag by done. done.
      * intros j y Hy. apply lookup_app_Some in Hy as [Hy|[Hge Hy]].
        { destruct (Hmax j y Hy) as [Hle _].
          assert (Hy' : is_finite y).
          { rewrite !Forall_app in Hfin. destruct Hfin as [[Hpre _] _].
            rewrite Forall_lookup in Hpre. by eapply Hpre. }
          apply is_finite_Fin in Hy' as [r ->].
          apply fle_Fin in Hle.
          split; [apply fle_Fin|intros _; apply flt_Fin]; lra. }
        apply list_lookup_singleton_Some in Hy as [Hj <-].
        split; [apply fle_Fin; lra|]. lia.
Qed.

Lemma argmax_first_max (grid : list fl) (k : nat) :
  Forall is_finite grid -> np.argmax grid = Ok k -> first_max grid k.
Proof.
  destruct grid as [|x grid]; simpl; [done|].
  intros Hfin [= <-].
  assert (Hx : is_finite x) by (by apply Forall_cons in Hfin as [? _]).
  apply is_finite_Fin in Hx as [q ->].
  apply (argmax_loop_first_max grid [Fin q] q 0); [done|done|].
  intros [|j] y; simpl; [|done]. intros [= <-].
  split; [apply fle_Fin; lra|lia].
Qed.

Lemma causal_horizon_Ok (grid_size : nat) (timesX : tensor2) :
  0 < grid_size ->
  Forall (fun g => length g = grid_size) timesX ->
  exists hs,
    causal_horizon timesX = Ok hs /\
    length hs = length timesX /\
    forall i grid, timesX !! i = Some grid ->
      exists k, np.argmax grid = Ok k /\ hs !! i = Some (S k) /\
                S k <= grid_size.
Proof.
  intros Hn Hg.
  set (total := fun g => match np.argmax g with Ok k => k | Raise _ => 0 end).
  assert (Ha : np.argmax_axis1 timesX = Ok (map total timesX)).
  { apply rmapM_Ok_fun. intros g Hin.
    rewrite Forall_forall in Hg. specialize (Hg g Hin).
    destruct (argmax_Ok g) as (k & Hk & _); [lia|].
    unfold total. by rewrite Hk. }
  exists (map S (map total timesX)). unfold causal_horizon.
  rewrite Ha; simpl. split; [done|]. split; [by rewrite !length_map|].
  intros i grid Hi.
  rewrite Forall_lookup in Hg. specialize (Hg i grid Hi).
  destruct (argmax_Ok grid) as (k & Hk & Hlt); [lia|].
  exists k. split; [done|]. split; [|lia].
  change (map S (map total timesX)) with (S <$> (total <$> timesX)).
  rewrite !list_lookup_fmap, Hi; simpl. unfold total. by rewrite Hk.
Qed.

Lemma truncated_predictions_Ok (y : tensor3) (hs : list nat) (n : nat) :
  n <= length y -> n <= length hs ->
  truncated_predictions y hs n
  = Ok (map (fun i => take (nth i hs 0) (nth i y [])) (seq 0 n)).
Proof.
  intros Hy Hh. unfold truncated_predictions.
  apply rmapM_seq_Ok. intros i Hi.
  rewrite (index_lt y i []), (index_lt hs i 0) by lia. done.
Qed.

Lemma truncated_time_steps_Ok (p : Prepared) (hs : list nat) (n : nat) :
  n <= length (p_timesX p) -> n <= length hs ->
  n <= length (p_trigger_mjds p) ->
  truncated_time_steps p hs n
  = Ok (map (fun i => shift (take (nth i hs 0) (nth i (p_timesX p) []))
                        (nth i (p_trigger_mjds p) NaN))
          (seq 0 n)).
Proof.
  intros Ht Hh Hm. unfold truncated_time_steps.
  apply rmapM_seq_Ok. intros i Hi.
  rewrite (index_lt (p_timesX p) i []), (index_lt hs i 0),
    (index_lt (p_trigger_mjds p) i NaN) by lia.
  done.
Qed.

Section GridNative.

Variable Processed : Type.
Variable read_multiple_light_curves :
  list LightCurve -> bool -> result Processed.
Variable prepare_input_arrays :
  list string -> list nat -> bool -> option fl -> Processed -> result Prepared.

Local Abbreviation process :=
  (process_light_curves Processed read_multiple_light_curves
     prepare_input_arrays).
Local Abbreviation run :=
  (get_predictions Processed read_multiple_light_curves prepare_input_arrays).

(** What grid-native mode returns on a well-shaped batch, entry by
    entry. *)
Lemma run_grid_entries (grid_size : nat) (st : state) (p : Prepared)
    (y : tensor3) :
  process (self st) = Ok p ->
  length (p_objids p) <> 0 ->
  predict (model (self st)) (p_X p) = Ok y ->
  0 < grid_size ->
  parallel p ->
  grids grid_size p ->
  length y = length (p_objids p) ->
  exists hs ys ts,
    causal_horizon (p_timesX p) = Ok hs /\
    run false st = Ok (Some (ys, ts), after_predict p y st) /\
    length ys = length (p_objids p) /\
    length ts = length (p_objids p) /\
    forall i, i < length (p_objids p) ->
      exists grid yi trigger k,
        p_timesX p !! i = Some grid /\
        y !! i = Some yi /\
        p_trigger_mjds p !! i = Some trigger /\
        np.argmax grid = Ok k /\
        hs !! i = Some (S k) /\
        S k <= grid_size /\
        ys !! i = Some (take (S k) yi) /\
        ts !! i = Some (shift (take (S k) grid) trigger).
Proof.
  intros Hp Hn Hy Hgs [Ht Hm Ho] Hg Hly.
  destruct (causal_horizon_Ok grid_size (p_timesX p) Hgs Hg)
    as (hs & Hh & Hlh & Hhs).
  eexists hs, _, _. split; [done|]. split.
  { eapply run_grid; try done.
    - apply truncated_predictions_Ok; lia.
    - apply truncated_time_steps_Ok; lia. }
  split; [by rewrite length_map, length_seq|].
  split; [by rewrite length_map, length_seq|].
  intros i Hi.
  destruct (lookup_lt_is_Some_2 (p_timesX p) i) as [grid Hgrid]; [lia|].
  destruct (lookup_lt_is_Some_2 y i) as [yi Hyi]; [lia|].
  destruct (lookup_lt_is_Some_2 (p_trigger_mjds p) i) as [tr Htr]; [lia|].
  destruct (Hhs i grid Hgrid) as (k & Hk & Hhk & Hle).
  exists grid, yi, tr, k. repeat (split; [done|]).
  rewrite !lookup_map_seq by done.
  rewrite (nth_lookup_Some _ _ _ _ Hgrid), (nth_lookup_Some _ _ _ _ Hyi),
    (nth_lookup_Some _ _ _ _ Htr), (nth_lookup_Some _ _ _ _ Hhk).
  done.
Qed.

(** C1: on a batch whose time grids have [grid_size] points, the causal
    horizon of every object is [argmax(time_grid) + 1], where the argmax is
    the first index of the largest grid entry; it lies between 1 and
    [grid_size], and the probability curve returned in grid-native mode has
    exactly that many timesteps. *)
Theorem C1_causal_horizon_bounds (grid_size : nat) (st : state)
    (p : Prepared) (y : tensor3) :
  process (self st) = Ok p ->
  length (p_objids p) <> 0 ->
  predict (model (self st)) (p_X p) = Ok y ->
  0 < grid_size ->
  parallel p ->
  grids grid_size p ->
  curves grid_size p y ->
  exists hs ys ts st',
    causal_horizon (p_timesX p) = Ok hs /\
    run false st = Ok (Some (ys, ts), st') /\
    forall i, i < length (p_objids p) ->
      exists grid k curve,
        p_timesX p !! i = Some grid /\
        np.argmax grid = Ok k /\
        (Forall is_finite grid -> first_max grid k) /\
        hs !! i = Some (k + 1) /\
        1 <= k + 1 <= grid_size /\
        ys !! i = Some curve /\
        length curve = k + 1.
Proof.
  intros Hp Hn Hy Hgs Hpar Hg [Hly Hyt].
  destruct (run_grid_entries grid_size st p y)
    as (hs & ys & ts & Hh & Hrun & _ & _ & Hent); try done.
  exists hs, ys, ts, (after_predict p y st). repeat (split; [done|]).
  intros i Hi.
  destruct (Hent i Hi)
    as (grid & yi & tr & k & Hgrid & Hyi & _ & Hk & Hhk & Hle & Hys & _).
  exists grid, k, (take (S k) yi). rewrite Nat.add_1_r.
  repeat (split; [done|]).
  split; [intros Hfin; by apply argmax_first_max|].
  split; [done|]. split; [lia|]. split; [done|].
  rewrite Forall_lookup in Hyt. specialize (Hyt i yi Hyi).
  rewrite length_take. lia.
Qed.

(** C2: in grid-native mode every surviving object gets its probability
    curve cut to the first [causal_horizon] timesteps, so that every
    returned timestep is one below the horizon, and the time axis is the
    equally cut time grid with the trigger epoch added to each entry. *)
Theorem C2_grid_native_truncation (grid_size : nat) (st : state)
    (p : Prepared) (y : tensor3) :
  process (self st) = Ok p ->
  length (p_objids p) <> 0 ->
  predict (model (self st)) (p_X p) = Ok y ->
  0 < grid_size ->
  parallel p ->
  grids grid_size p ->
  length y = length (p_objids p) ->
  exists hs ys ts st',
    causal_horizon (p_timesX p) = Ok hs /\
    run false st = Ok (Some (ys, ts), st') /\
    forall i, i < length (p_objids p) ->
      exists grid yi trigger h curve times,
        p_timesX p !! i = Some grid /\
        y !! i = Some yi /\
        p_trigger_mjds p !! i = Some trigger /\
        hs !! i = Some h /\
        ys !! i = Some curve /\
        ts !! i = Some times /\
        curve = take h yi /\
        (forall j row, curve !! j = Some row -> j < h /\ yi !! j = Some row) /\
        times = map (fun t => fadd t trigger) (take h grid) /\
        length times = h /\
        (forall j t, grid !! j = Some t -> j < h ->
           times !! j = Some (fadd t trigger)).
Proof.
  intros Hp Hn Hy Hgs Hpar Hg Hly.
  destruct (run_grid_entries grid_size st p y)
    as (hs & ys & ts & Hh & Hrun & _ & _ & Hent); try done.
  exists hs, ys, ts, (after_predict p y st). repeat (split; [done|]).
  intros i Hi.
  destruct (Hent i Hi)
    as (grid & yi & tr & k & Hgrid & Hyi & Htr & Hk & Hhk & Hle & Hys & Hts).
  exists grid, yi, tr, (S k), (take (S k) yi), (shift (take (S k) grid) tr).
  repeat (split; [done|]).
  split.
  { intros j row Hj. apply lookup_take_Some in Hj. tauto. }
  split; [done|].
  unfold grids in Hg. rewrite Forall_lookup in Hg. specialize (Hg i grid Hgrid).
  split.
  { unfold shift. rewrite length_map, length_take. lia. }
  intros j t Hj Hlt. unfold shift.
  change (map (fun x => fadd x tr) (take (S k) grid))
    with ((fun x => fadd x tr) <$> take (S k) grid).
  rewrite list_lookup_fmap, lookup_take_lt, Hj by done. done.
Qed.

End GridNative.

(** ** Sorting, selecting and stacking *)

Lemma insert_sorted_Permutation (x : fl) (l : list fl) :
  Permutation (np.insert_sorted x l) (x :: l).
Proof.
  induction l as [|y l IH]; simpl; [done|].
  destruct (fle x y); [done|].
  rewrite IH. apply perm_swap.
Qed.

Lemma sort_Permutation (l : list fl) : Permutation (np.sort l) l.
Proof.
  induction l as [|x l IH]; simpl; [done|].
  rewrite insert_sorted_Permutation. by constructor.
Qed.

Lemma sort_length (l : list fl) : length (np.sort l) = length l.
Proof. apply Permutation_length, sort_Permutation. Qed.

Lemma fle_total (a b : fl) :
  is_finite a -> is_finite b -> fle a b = false -> fle b a = true.
Proof.
  intros Ha Hb. apply is_finite_Fin in Ha as [x ->].
  apply is_finite_Fin in Hb as [y ->].
  rewrite fle_false_Fin, fle_Fin. lra.
Qed.

Lemma fle_trans (a b c : fl) :
  fle a b = true -> fle b c = true -> fle a c = true.
Proof.
  destruct a as [x|], b as [y|], c as [z|]; try done.
  rewrite !fle_Fin. lra.
Qed.

Lemma insert_sorted_ascending (x : fl) (l : list fl) :
  is_finite x -> Forall is_finite l -> ascending l ->
  ascending (np.insert_sorted x l).
Proof.
  unfold ascending. intros Hx Hfin Hs.
  induction Hs as [|y l Hs IH Hy]; simpl.
  - repeat constructor.
  - apply Forall_cons in Hfin as [Hfy Hfl].
    destruct (fle x y) eqn:E.
    + constructor; [by constructor|].
      constructor; [done|].
      eapply Forall_impl; [exact Hy|]. intros z Hz. by eapply fle_trans.
    + constructor; [by apply IH|].
      rewrite insert_sorted_Permutation.
      constructor; [by apply fle_total|done].
Qed.

Lemma sort_finite (l : list fl) :
  Forall is_finite l -> Forall is_finite (np.sort l).
Proof. intros H. by rewrite sort_Permutation. Qed.

Lemma sort_ascending (l : list fl) :
  Forall is_finite l -> ascending (np.sort l).
Proof.
  induction l as [|x l IH]; simpl; intros Hfin.
  - constructor.
  - apply Forall_cons in Hfin as [Hx Hl].
    apply insert_sorted_ascending; [done|by apply sort_finite|by apply IH].
Qed.

Lemma not_nan_finite (l : list fl) :
  Forall is_finite (filter (fun x => negb (isnan x) = true) l).
Proof.
  apply Forall_forall. intros x Hx.
  apply list_elem_of_filter in Hx as [Hx _]. by destruct x.
Qed.

Lemma sorted_obs_time_Ok (passbands : list string) (lc : gmap string Frame) :
  aligned passbands lc ->
  sorted_obs_time passbands lc
  = Ok (np.sort (filter (fun x => negb (isnan x) = true)
                   (concat (gather_obs_time passbands lc)))).
Proof.
  unfold aligned, sorted_obs_time, np.select_not_nan. by intros ->.
Qed.

Lemma sorted_obs_time_spec (passbands : list string)
    (lc : gmap string Frame) (obs_time : list fl) :
  sorted_obs_time passbands lc = Ok obs_time ->
  Permutation obs_time
    (filter (fun x => negb (isnan x) = true)
       (concat (gather_obs_time passbands lc))) /\
  Forall is_finite obs_time /\
  ascending obs_time.
Proof.
  unfold sorted_obs_time, np.select_not_nan.
  destruct (np.rectangular _); simpl; [|done]. intros [= <-].
  split; [apply sort_Permutation|].
  split; [apply sort_finite|apply sort_ascending]; apply not_nan_finite.
Qed.

Lemma elem_of_concat {A} (x : A) (ls : list (list A)) :
  x ∈ concat ls <-> exists l, x ∈ l /\ l ∈ ls.
Proof.
  induction ls as [|l0 ls IH]; simpl.
  - split; [by intros ?%elem_of_nil|]. by intros (l & _ & ?%elem_of_nil).
  - rewrite elem_of_app, IH. split.
    + intros [H|(l & Hx & Hl)]; [exists l0|exists l]; split; try done.
      * by left.
      * by right.
    + intros (l & Hx & Hl). apply elem_of_cons in Hl as [->|Hl]; [by left|].
      right. eauto.
Qed.

(** A time is gathered exactly when it is in the [time] column of a
    configured passband that the light curve holds. *)
Lemma gather_obs_time_elem (passbands : list string)
    (lc : gmap string Frame) (x : fl) :
  x ∈ concat (gather_obs_time passbands lc) <->
  exists pb frame, pb ∈ passbands /\ lc !! pb = Some frame /\ x ∈ time frame.
Proof.
  unfold gather_obs_time. rewrite elem_of_concat. split.
  - intros (col & Hx & Hcol).
    apply list_elem_of_omap in Hcol as (pb & Hpb & Hf).
    destruct (lc !! pb) as [frame|] eqn:E; simpl in Hf; [|done].
    injection Hf as <-. eauto.
  - intros (pb & frame & Hpb & Hf & Hx).
    exists (time frame). split; [done|].
    apply list_elem_of_omap. exists pb. by rewrite Hf.
Qed.

Lemma column_Ok (yi : tensor2) (c : nat) :
  Forall (fun row => c < length row) yi ->
  np.column yi c = Ok (class_curve yi c).
Proof.
  intros H. unfold np.column, class_curve.
  apply rmapM_Ok_fun. intros row Hrow.
  rewrite Forall_forall in H. by apply index_lt, H.
Qed.

Lemma interp_Ok (x xp fp : list fl) :
  0 < length xp -> length fp = length xp ->
  np.interp x xp fp = Ok (map (fun x_val => np.interp1 x_val xp fp) x).
Proof.
  intros Hxp Hfp. unfold np.interp.
  destruct (Nat.eqb_spec (length xp) 0); [lia|].
  destruct (Nat.eqb_spec (length fp) (length xp)); [done|lia].
Qed.

Lemma transpose_map {A} (f : A -> fl -> fl) (cs : list A) (xs : list fl) :
  np.transpose (length xs) (map (fun c => map (f c) xs) cs)
  = map (fun x => map (fun c => f c x) cs) xs.
Proof.
  unfold np.transpose. apply list_eq. intros k.
  change (map ?g ?l) with (g <$> l).
  rewrite !list_lookup_fmap.
  destruct (xs !! k) as [x|] eqn:E; simpl.
  - rewrite lookup_seq_lt by (by eapply lookup_lt_Some). simpl.
    f_equal. rewrite <- list_fmap_compose. apply list_fmap_ext.
    intros _ c _. simpl. apply nth_lookup_Some.
    by rewrite list_lookup_fmap, E.
  - rewrite lookup_seq_ge; [done|]. by apply lookup_ge_None.
Qed.

(** ** Observation-native mode *)

Lemma predictions_at_obstime_Ok (passbands : list string) (p : Prepared)
    (y : tensor3) (hs : list nat) (idx : nat) (lc : gmap string Frame)
    (grid : list fl) (yi : tensor2) (h : nat) (trigger : fl)
    (obs_time : list fl) :
  p_orig_lc p !! idx = Some lc ->
  sorted_obs_time passbands lc = Ok obs_time ->
  p_timesX p !! idx = Some grid ->
  hs !! idx = Some h ->
  y !! idx = Some yi ->
  p_trigger_mjds p !! idx = Some trigger ->
  0 < h <= length grid ->
  h <= length yi ->
  Forall (fun row => length CLASS_NAMES <= length row) yi ->
  predictions_at_obstime passbands p y hs idx
  = Ok (map (vector_at grid yi h) obs_time, shift obs_time trigger).
Proof.
  intros Hlc Hobs Hgrid Hh Hyi Htr Hhg Hhy Hrows.
  unfold predictions_at_obstime.
  apply index_Ok in Hlc, Hgrid, Hh, Hyi, Htr.
  rewrite Hlc; cbn [rbind]. rewrite Hobs; cbn [rbind].
  rewrite (rmapM_Ok_fun _
             (fun c => map (fun x => np.interp1 x (take h grid)
                                       (take h (class_curve yi c)))
                         obs_time)).
  - cbn [rbind]. rewrite Htr; cbn [rbind]. f_equal. f_equal.
    apply (transpose_map
             (fun c x => np.interp1 x (take h grid)
                           (take h (class_curve yi c)))).
  - intros c Hc. apply elem_of_seq in Hc.
    rewrite Hgrid, Hh, Hyi; cbn [rbind].
    rewrite column_Ok; cbn [rbind].
    + apply interp_Ok; rewrite !length_take; [lia|].
      unfold class_curve. rewrite length_map. lia.
    + eapply Forall_impl; [exact Hrows|]. cbv beta. intros row Hrow. lia.
Qed.

Section ObservationNative.

Variable Processed : Type.
Variable read_multiple_light_curves :
  list LightCurve -> bool -> result Processed.
Variable prepare_input_arrays :
  list string -> list nat -> bool -> option fl -> Processed -> result Prepared.

Local Abbreviation process :=
  (process_light_curves Processed read_multiple_light_curves
     prepare_input_arrays).
Local Abbreviation run :=
  (get_predictions Processed read_multiple_light_curves prepare_input_arrays).

(** What observation-native mode returns on a well-shaped batch, entry by
    entry. *)
Lemma run_obstime_entries (grid_size : nat) (st : state) (p : Prepared)
    (y : tensor3) :
  process (self st) = Ok p ->
  length (p_objids p) <> 0 ->
  predict (model (self st)) (p_X p) = Ok y ->
  0 < grid_size ->
  parallel p ->
  grids grid_size p ->
  curves grid_size p y ->
  classes y ->
  Forall (aligned (passbands (self st))) (p_orig_lc p) ->
  exists hs ys ts,
    causal_horizon (p_timesX p) = Ok hs /\
    run true st = Ok (Some (ys, ts), after_predict p y st) /\
    length ys = length (p_objids p) /\
    length ts = length (p_objids p) /\
    forall i, i < length (p_objids p) ->
      exists lc grid yi trigger k obs_time,
        p_orig_lc p !! i = Some lc /\
        p_timesX p !! i = Some grid /\
        y !! i = Some yi /\
        p_trigger_mjds p !! i = Some trigger /\
        np.argmax grid = Ok k /\
        hs !! i = Some (S k) /\
        S k <= grid_size /\
        sorted_obs_time (passbands (self st)) lc = Ok obs_time /\
        ys !! i = Some (map (vector_at grid yi (S k)) obs_time) /\
        ts !! i = Some (shift obs_time trigger).
Proof.
  intros Hp Hn Hy Hgs [Ht Hm Ho] Hg [Hly Hyt] Hcl Hal.
  destruct (causal_horizon_Ok grid_size (p_timesX p) Hgs Hg)
    as (hs & Hh & Hlh & Hhs).
  set (pbs := passbands (self st)) in *.
  set (obs := fun lc =>
         np.sort (filter (fun x => negb (isnan x) = true)
                    (concat (gather_obs_time pbs lc)))).
  set (g := fun i =>
         (map (vector_at (nth i (p_timesX p) []) (nth i y []) (nth i hs 0))
            (obs (nth i (p_orig_lc p) ∅)),
          shift (obs (nth i (p_orig_lc p) ∅))
            (nth i (p_trigger_mjds p) NaN))).
  assert (Hent : forall i, i < length (p_objids p) ->
    exists lc grid yi trigger k,
      p_orig_lc p !! i = Some lc /\
      p_timesX p !! i = Some grid /\
      y !! i = Some yi /\
      p_trigger_mjds p !! i = Some trigger /\
      np.argmax grid = Ok k /\
      hs !! i = Some (S k) /\
      S k <= grid_size /\
      sorted_obs_time pbs lc = Ok (obs lc) /\
      predictions_at_obstime pbs p y hs i = Ok (g i) /\
      g i = (map (vector_at grid yi (S k)) (obs lc), shift (obs lc) trigger)).
  { intros i Hi.
    destruct (lookup_lt_is_Some_2 (p_orig_lc p) i) as [lc Hlc]; [lia|].
    destruct (lookup_lt_is_Some_2 (p_timesX p) i) as [grid Hgrid]; [lia|].
    destruct (lookup_lt_is_Some_2 y i) as [yi Hyi]; [lia|].
    destruct (lookup_lt_is_Some_2 (p_trigger_mjds p) i) as [tr Htr]; [lia|].
    destruct (Hhs i grid Hgrid) as (k & Hk & Hhk & Hle).
    assert (Hobs : sorted_obs_time pbs lc = Ok (obs lc)).
    { apply sorted_obs_time_Ok. rewrite Forall_lookup in Hal. by eapply Hal. }
    assert (Hgi : g i = (map (vector_at grid yi (S k)) (obs lc),
                         shift (obs lc) tr)).
    { unfold g.
      by rewrite (nth_lookup_Some _ _ _ _ Hgrid),
        (nth_lookup_Some _ _ _ _ Hyi), (nth_lookup_Some _ _ _ _ Htr),
        (nth_lookup_Some _ _ _ _ Hhk), (nth_lookup_Some _ _ _ _ Hlc). }
    exists lc, grid, yi, tr, k. repeat (split; [done|]).
    split; [|done]. rewrite Hgi.
    unfold grids in Hg. unfold classes in Hcl.
    rewrite Forall_lookup in Hg. rewrite Forall_lookup in Hyt.
    rewrite Forall_lookup in Hcl.
    specialize (Hg i grid Hgrid). specialize (Hyt i yi Hyi).
    specialize (Hcl i yi Hyi). simpl in *.
    eapply predictions_at_obstime_Ok; try done; [lia|lia|].
    eapply Forall_impl; [exact Hcl|]. simpl. intros row ->. done. }
  exists hs, (map fst (map g (seq 0 (length y)))),
    (map snd (map g (seq 0 (length y)))).
  split; [done|]. split.
  { eapply run_obstime; try done.
    apply rmapM_seq_Ok. intros i Hi. rewrite Hly in Hi.
    destruct (Hent i Hi) as (? & ? & ? & ? & ? & H). tauto. }
  rewrite !length_map, length_seq. repeat (split; [done|]).
  intros i Hi.
  destruct (Hent i Hi)
    as (lc & grid & yi & tr & k & Hlc & Hgrid & Hyi & Htr & Hk & Hhk & Hle
        & Hobs & _ & Hgi).
  exists lc, grid, yi, tr, k, (obs lc). repeat (split; [done|]).
  change (map ?f ?l) with (f <$> l).
  rewrite !list_lookup_fmap, lookup_seq_lt by lia.
  change (0 + i) with i. cbn [fmap option_fmap option_map].
  rewrite Hgi. done.
Qed.

End ObservationNative.

(** ** Interpolation *)

Arguments flt : simpl never.
Arguments fle : simpl never.
Arguments feqb : simpl never.

Lemma flt_finite (a b : fl) :
  flt a b = true -> is_finite a /\ is_finite b.
Proof. by destruct a, b. Qed.

Lemma search_cons (x x0 x1 : fl) (xp : list fl) (j : nat) :
  np.search x (x0 :: x1 :: xp) j
  = if flt x x1 then j else np.search x (x1 :: xp) (S j).
Proof. done. Qed.

Lemma search_spec (qx : Q) (xp : list fl) :
  forall j0,
    Forall is_finite xp ->
    0 < length xp ->
    flt (Fin qx) (nth 0 xp NaN) = false ->
    exists k,
      np.search (Fin qx) xp j0 = j0 + k /\
      k < length xp /\
      fle (nth k xp NaN) (Fin qx) = true /\
      (S k < length xp -> flt (Fin qx) (nth (S k) xp NaN) = true).
Proof.
  induction xp as [|x0 xp IH]; intros j0 Hfin Hlen H0; [simpl in Hlen; lia|].
  apply Forall_cons in Hfin as [Hx0 Hfin].
  apply is_finite_Fin in Hx0 as [q0 ->].
  change (nth 0 (Fin q0 :: xp) NaN) with (Fin q0) in H0.
  apply flt_false_Fin in H0.
  destruct xp as [|x1 xp'].
  - exists 0. rewrite Nat.add_0_r. split; [done|].
    split; [simpl; lia|]. split; [by apply fle_Fin|]. simpl. lia.
  - rewrite search_cons. destruct (flt (Fin qx) x1) eqn:E.
    + exists 0. rewrite Nat.add_0_r. split; [done|].
      split; [simpl; lia|]. split; [by apply fle_Fin|]. done.
    + destruct (IH (S j0) Hfin) as (k & Hk & Hlt & Hle & Hnext);
        [simpl; lia|done|].
      exists (S k). rewrite Hk. split; [lia|].
      split; [simpl in *; lia|]. split; [done|].
      intros Hlen'. apply Hnext. simpl in *. lia.
Qed.

Lemma lerp_finite (qx q0 q1 a b : Q) :
  (q0 < q1)%Q ->
  np.lerp (Fin qx) (Fin q0) (Fin q1) (Fin a) (Fin b)
  = Fin ((b - a) / (q1 - q0) * (qx - q0) + a).
Proof.
  intros H. unfold np.lerp. simpl.
  destruct (Qeq_bool (q1 - q0) 0) eqn:E; [|done].
  apply Qeq_bool_iff in E. lra.
Qed.

(** Where [np.interp] takes its value from depends on [x] and [xp] only:
    either one sample [fp[j]], or the interpolant between two neighbours
    that enclose [x] strictly. *)
Lemma interp1_cases (x : fl) (xp : list fl) :
  is_finite x ->
  Forall is_finite xp ->
  0 < length xp ->
  (exists j, j < length xp /\ forall fp, np.interp1 x xp fp = nth j fp NaN) \/
  (exists j qx q0 q1,
     S j < length xp /\
     x = Fin qx /\
     nth j xp NaN = Fin q0 /\
     nth (S j) xp NaN = Fin q1 /\
     (q0 < qx)%Q /\ (qx < q1)%Q /\
     forall fp,
       np.interp1 x xp fp
       = np.lerp x (Fin q0) (Fin q1) (nth j fp NaN) (nth (S j) fp NaN)).
Proof.
  intros Hx Hfin Hlen. apply is_finite_Fin in Hx as [qx ->].
  unfold np.interp1. simpl isnan. cbv iota.
  destruct (flt (nth (length xp - 1) xp NaN) (Fin qx)) eqn:Elast.
  { left. exists (length xp - 1). split; [lia|done]. }
  destruct (flt (Fin qx) (nth 0 xp NaN)) eqn:Efirst.
  { left. exists 0. split; [lia|done]. }
  destruct (search_spec qx xp 0 Hfin Hlen Efirst)
    as (k & Hk & Hlt & Hle & Hnext).
  simpl in Hk. rewrite Hk.
  destruct (Nat.eqb_spec k (length xp - 1)) as [_|Hne].
  { left. exists k. split; [lia|done]. }
  destruct (feqb (nth k xp NaN) (Fin qx)) eqn:Eeq.
  { left. exists k. split; [lia|done]. }
  right.
  assert (HSk : S k < length xp) by lia.
  specialize (Hnext HSk).
  destruct (nth k xp NaN) as [q0|] eqn:E0; [|done].
  destruct (nth (S k) xp NaN) as [q1|] eqn:E1; [|done].
  exists k, qx, q0, q1.
  apply fle_Fin in Hle. apply flt_Fin in Hnext.
  repeat (split; [done|]).
  split; [|done].
  unfold feqb in Eeq. destruct (Qlt_le_dec q0 qx) as [|Hge]; [done|].
  assert (Heq : (q0 == qx)%Q) by lra.
  apply Qeq_bool_iff in Heq. congruence.
Qed.

Lemma interp1_right (x : fl) (xp fp : list fl) :
  flt (nth (length xp - 1) xp NaN) x = true ->
  np.interp1 x xp fp = nth (length xp - 1) fp NaN.
Proof.
  intros H. destruct (flt_finite _ _ H) as [_ Hx].
  apply is_finite_Fin in Hx as [qx ->].
  unfold np.interp1. simpl isnan. cbv iota. by rewrite H.
Qed.

Lemma interp1_left (x : fl) (xp fp : list fl) :
  flt x (nth 0 xp NaN) = true ->
  fle (nth 0 xp NaN) (nth (length xp - 1) xp NaN) = true ->
  np.interp1 x xp fp = nth 0 fp NaN.
Proof.
  intros H Hs. destruct (flt_finite _ _ H) as [Hx H0].
  apply is_finite_Fin in Hx as [qx ->].
  apply is_finite_Fin in H0 as [q0 E0].
  unfold np.interp1. simpl isnan. cbv iota. rewrite H.
  rewrite E0 in *.
  destruct (nth (length xp - 1) xp NaN) as [q1|]; [|done].
  apply flt_Fin in H. apply fle_Fin in Hs.
  assert (E : flt (Fin q1) (Fin qx) = false) by (apply flt_false_Fin; lra).
  by rewrite E.
Qed.

Lemma ascending_first_last (xp : list fl) :
  Forall is_finite xp -> 0 < length xp -> ascending xp ->
  fle (nth 0 xp NaN) (nth (length xp - 1) xp NaN) = true.
Proof.
  intros Hfin Hlen Hs. destruct xp as [|x0 xp]; [simpl in Hlen; lia|].
  apply Forall_cons in Hfin as [Hx0 _].
  replace (length (x0 :: xp) - 1) with (length xp) by (simpl; lia).
  change (nth 0 (x0 :: xp) NaN) with x0.
  destruct xp as [|x1 xp'].
  - change (nth (length []) [x0] NaN) with x0.
    apply is_finite_Fin in Hx0 as [q ->]. apply fle_Fin. lra.
  - apply StronglySorted_inv in Hs as [_ Hall].
    rewrite Forall_forall in Hall. apply Hall.
    change (nth (length (x1 :: xp')) (x0 :: x1 :: xp') NaN)
      with (nth (length xp') (x1 :: xp') NaN).
    apply list_elem_of_In, nth_In. simpl. lia.
Qed.

(** Rows and class curves of a probability curve. *)
Lemma nth_take_class_curve (yi : tensor2) (h j c : nat) :
  j < h -> nth j (take h (class_curve yi c)) NaN = nth c (nth j yi []) NaN.
Proof.
  intros Hj. rewrite !nth_lookup, lookup_take_lt by done.
  unfold class_curve. change (map ?f ?l) with (f <$> l).
  rewrite list_lookup_fmap. destruct (yi !! j) as [row|]; simpl.
  - by rewrite nth_lookup.
  - done.
Qed.

Lemma map_nth_seq {A} (row : list A) (d : A) :
  map (fun c => nth c row d) (seq 0 (length row)) = row.
Proof.
  apply list_eq. intros i. change (map ?f ?l) with (f <$> l).
  rewrite list_lookup_fmap.
  destruct (row !! i) as [x|] eqn:E.
  - rewrite lookup_seq_lt by (by eapply lookup_lt_Some). simpl.
    f_equal. by apply nth_lookup_Some.
  - rewrite lookup_seq_ge; [done|]. by apply lookup_ge_None.
Qed.

(** A vector taken from one sample is that timestep's row. *)
Lemma vector_at_sample (grid : list fl) (yi : tensor2) (h j : nat) (x : fl) :
  j < h ->
  length (nth j yi []) = length CLASS_NAMES ->
  (forall fp, np.interp1 x (take h grid) fp = nth j fp NaN) ->
  vector_at grid yi h x = nth j yi [].
Proof.
  intros Hj Hrow Hx. unfold vector_at. rewrite <- Hrow.
  rewrite <- (map_nth_seq (nth j yi []) NaN) at 2.
  apply map_ext. intros c. by rewrite Hx, nth_take_class_curve.
Qed.

(** ** Sums of reported vectors *)

Lemma fsum_cons_Fin (x : fl) (row : list fl) (s : Q) :
  fsum (x :: row) = Fin s ->
  exists q s', x = Fin q /\ fsum row = Fin s' /\ s = (q + s')%Q.
Proof.
  unfold fsum. simpl. fold (fsum row).
  destruct x as [q|]; [|done]. destruct (fsum row) as [s'|]; [|done].
  simpl. intros [= <-]. eauto.
Qed.

Lemma map_nth_zip_with {A} (f : A -> A -> A) (a b : list A) (d : A) (n : nat) :
  length a = n -> length b = n ->
  map (fun c => f (nth c a d) (nth c b d)) (seq 0 n) = zip_with f a b.
Proof.
  intros Ha Hb. apply list_eq. intros i. change (map ?g ?l) with (g <$> l).
  rewrite list_lookup_fmap, lookup_zip_with.
  destruct (a !! i) as [x|] eqn:Ea; simpl.
  - assert (Hi : i < n) by (rewrite <- Ha; by eapply lookup_lt_Some).
    destruct (lookup_lt_is_Some_2 b i) as [z Eb]; [lia|].
    rewrite lookup_seq_lt, Eb by done. simpl.
    by rewrite (nth_lookup_Some _ _ _ _ Ea), (nth_lookup_Some _ _ _ _ Eb).
  - rewrite lookup_seq_ge; [done|]. apply lookup_ge_None in Ea. lia.
Qed.

(** Interpolating two rows entry by entry interpolates their sums. *)
Lemma fsum_lerp (qx q0 q1 : Q) (a : list fl) :
  (q0 < q1)%Q ->
  forall (b : list fl) (sa sb : Q),
    length a = length b ->
    fsum a = Fin sa ->
    fsum b = Fin sb ->
    exists s,
      fsum (zip_with (np.lerp (Fin qx) (Fin q0) (Fin q1)) a b) = Fin s /\
      (s == (sb - sa) / (q1 - q0) * (qx - q0) + sa)%Q.
Proof.
  intros Hq. induction a as [|x a IH]; intros [|z b] sa sb Hlen Ha Hb;
    try done.
  - injection Ha as <-. injection Hb as <-.
    exists 0%Q. split; [done|]. field. lra.
  - apply fsum_cons_Fin in Ha as (qa & sa' & -> & Ha' & ->).
    apply fsum_cons_Fin in Hb as (qb & sb' & -> & Hb' & ->).
    destruct (IH b sa' sb') as (s' & Hs' & Es'); [by injection Hlen|done..|].
    cbn [zip_with]. unfold fsum in *. cbn [fold_right].
    rewrite Hs', lerp_finite by done. simpl.
    eexists; split; [done|]. rewrite Es'. field. lra.
Qed.

(** A convex combination of two sums near 1 is as near to 1. *)
Lemma convex_near_one (eps qx q0 q1 sa sb : Q) :
  (q0 < qx)%Q -> (qx < q1)%Q ->
  (Qabs (sa - 1) <= eps)%Q ->
  (Qabs (sb - 1) <= eps)%Q ->
  (Qabs ((sb - sa) / (q1 - q0) * (qx - q0) + sa - 1) <= eps)%Q.
Proof.
  intros H0 H1 Ha Hb.
  apply Qabs_Qle_condition in Ha as [Ha1 Ha2].
  apply Qabs_Qle_condition in Hb as [Hb1 Hb2].
  set (t := ((qx - q0) / (q1 - q0))%Q).
  assert (Ht0 : (0 <= t)%Q).
  { unfold t. apply Qle_shift_div_l; lra. }
  assert (Ht1 : (t <= 1)%Q).
  { unfold t. apply Qle_shift_div_r; lra. }
  assert (E : ((sb - sa) / (q1 - q0) * (qx - q0) + sa - 1
               == (1 - t) * (sa - 1) + t * (sb - 1))%Q).
  { unfold t. field. lra. }
  rewrite E. apply Qabs_Qle_condition. split; nra.
Qed.

Lemma distribution_sums_to_one (eps : Q) (row : list fl) :
  (0 <= eps)%Q -> distribution row -> sums_to_one eps row.
Proof.
  intros Heps [_ (s & Hs & E)]. exists s. split; [done|].
  apply Qabs_Qle_condition. lra.
Qed.

(** The vector reported at a finite observation time sums to 1 as nearly
    as the rows below the horizon do. *)
Lemma vector_at_sums_to_one (eps : Q) (grid : list fl) (yi : tensor2)
    (h : nat) (x : fl) :
  is_finite x ->
  Forall is_finite (take h grid) ->
  0 < h <= length grid ->
  (forall j, j < h ->
     length (nth j yi []) = length CLASS_NAMES /\
     sums_to_one eps (nth j yi [])) ->
  sums_to_one eps (vector_at grid yi h x).
Proof.
  intros Hx Hfin Hh Hrows.
  assert (Hlen : length (take h grid) = h) by (rewrite length_take; lia).
  destruct (interp1_cases x (take h grid) Hx Hfin) as
    [(j & Hj & Hval)|(j & qx & q0 & q1 & Hj & -> & E0 & E1 & H0 & H1 & Hval)];
    [lia| |].
  - rewrite Hlen in Hj. destruct (Hrows j Hj) as [Hl Hs].
    by rewrite (vector_at_sample grid yi h j x).
  - rewrite Hlen in Hj.
    destruct (Hrows j) as [Hla (sa & Hsa & Ha)]; [lia|].
    destruct (Hrows (S j) Hj) as [Hlb (sb & Hsb & Hb)].
    assert (Hv : vector_at grid yi h (Fin qx)
                 = zip_with (np.lerp (Fin qx) (Fin q0) (Fin q1))
                     (nth j yi []) (nth (S j) yi [])).
    { unfold vector_at.
      rewrite <- (map_nth_zip_with _ _ _ NaN (length CLASS_NAMES)) by done.
      apply map_ext. intros c.
      rewrite Hval, !nth_take_class_curve by lia. done. }
    rewrite Hv.
    destruct (fsum_lerp qx q0 q1 (nth j yi []) ltac:(lra)
                (nth (S j) yi []) sa sb) as (s & Hs & Es);
      [congruence|done..|].
    exists s. split; [done|]. rewrite Es.
    by apply convex_near_one.
Qed.

Section Sums.

Variable Processed : Type.
Variable read_multiple_light_curves :
  list LightCurve -> bool -> result Processed.
Variable prepare_input_arrays :
  list string -> list nat -> bool -> option fl -> Processed -> result Prepared.

Local Abbreviation process :=
  (process_light_curves Processed read_multiple_light_curves
     prepare_input_arrays).
Local Abbreviation run :=
  (get_predictions Processed read_multiple_light_curves prepare_input_arrays).

(** C4: when every row of the model output below an object's causal
    horizon is a probability distribution, every probability vector that
    [get_predictions] reports sums to 1 within the tolerance 1e-6: in
    grid-native mode, and in observation-native mode at every observation
    time, given one entry per class and finite ascending truncated time
    grids. *)
Theorem C4_reported_vectors_sum_to_one (grid_size : nat) (st : state)
    (p : Prepared) (y : tensor3) (hs : list nat) :
  process (self st) = Ok p ->
  length (p_objids p) <> 0 ->
  predict (model (self st)) (p_X p) = Ok y ->
  0 < grid_size ->
  parallel p ->
  grids grid_size p ->
  curves grid_size p y ->
  causal_horizon (p_timesX p) = Ok hs ->
  (forall i yi h j row,
     y !! i = Some yi -> hs !! i = Some h ->
     yi !! j = Some row -> j < h -> distribution row) ->
  (exists ys ts st',
     run false st = Ok (Some (ys, ts), st') /\
     forall curve row, curve ∈ ys -> row ∈ curve ->
       sums_to_one tolerance row) /\
  (classes y ->
   Forall (aligned (passbands (self st))) (p_orig_lc p) ->
   (forall i grid h,
      p_timesX p !! i = Some grid -> hs !! i = Some h ->
      Forall is_finite (take h grid) /\ ascending (take h grid)) ->
   exists ys ts st',
     run true st = Ok (Some (ys, ts), st') /\
     forall curve row, curve ∈ ys -> row ∈ curve ->
       sums_to_one tolerance row).
Proof.
  intros Hp Hn Hy Hgs Hpar Hg Hcur Hhs Hdist.
  assert (Htol : (0 <= tolerance)%Q) by (unfold tolerance; lra).
  split.
  - destruct (run_grid_entries Processed read_multiple_light_curves
                prepare_input_arrays grid_size st p y)
      as (hs' & ys & ts & Hh & Hrun & Hlys & _ & Hent); try done.
    { by destruct Hcur. }
    assert (hs' = hs) as -> by congruence.
    exists ys, ts, (after_predict p y st). split; [done|].
    intros curve row Hcurve Hrow.
    apply list_elem_of_lookup in Hcurve as [i Hi].
    assert (Hlt : i < length (p_objids p)).
    { rewrite <- Hlys. by eapply lookup_lt_Some. }
    destruct (Hent i Hlt)
      as (grid & yi & tr & k & _ & Hyi & _ & _ & Hhk & _ & Hys & _).
    assert (curve = take (S k) yi) as -> by congruence.
    apply list_elem_of_lookup in Hrow as [j Hj].
    apply lookup_take_Some in Hj as [Hj Hjk].
    apply distribution_sums_to_one; [done|]. by eapply Hdist.
  - intros Hcl Hal Hgrid.
    destruct (run_obstime_entries Processed read_multiple_light_curves
                prepare_input_arrays grid_size st p y)
      as (hs' & ys & ts & Hh & Hrun & Hlys & _ & Hent); try done.
    assert (hs' = hs) as -> by congruence.
    exists ys, ts, (after_predict p y st). split; [done|].
    intros curve row Hcurve Hrow.
    apply list_elem_of_lookup in Hcurve as [i Hi].
    assert (Hlt : i < length (p_objids p)).
    { rewrite <- Hlys. by eapply lookup_lt_Some. }
    destruct (Hent i Hlt)
      as (lc & grid & yi & tr & k & obs & _ & Hgr & Hyi & _ & _ & Hhk & Hle
          & Hobs & Hys & _).
    assert (curve = map (vector_at grid yi (S k)) obs) as -> by congruence.
    apply list_elem_of_fmap in Hrow as (x & -> & Hx).
    destruct (sorted_obs_time_spec _ _ _ Hobs) as (_ & Hfin & _).
    rewrite Forall_forall in Hfin.
    destruct (Hgrid i grid (S k) Hgr Hhk) as [Hgfin _].
    unfold grids in Hg. rewrite Forall_lookup in Hg.
    specialize (Hg i grid Hgr).
    destruct Hcur as [Hly Hyt]. rewrite Forall_lookup in Hyt.
    specialize (Hyt i yi Hyi). simpl in Hyt.
    unfold classes in Hcl. rewrite Forall_lookup in Hcl.
    specialize (Hcl i yi Hyi). rewrite Forall_lookup in Hcl.
    apply vector_at_sums_to_one; [by apply Hfin|done|lia|].
    intros j Hj.
    destruct (lookup_lt_is_Some_2 yi j) as [r Hr]; [lia|].
    rewrite (nth_lookup_Some _ _ _ _ Hr).
    split; [by eapply Hcl|].
    apply distribution_sums_to_one; [done|]. by eapply Hdist.
Qed.

End Sums.

(** ** Remapping onto the observation times *)

Lemma nth_take_lt {A} (l : list A) (h j : nat) (d : A) :
  j < h -> nth j (take h l) d = nth j l d.
Proof. intros H. by rewrite !nth_lookup, lookup_take_lt. Qed.

Section Remapping.

Variable Processed : Type.
Variable read_multiple_light_curves :
  list LightCurve -> bool -> result Processed.
Variable prepare_input_arrays :
  list string -> list nat -> bool -> option fl -> Processed -> result Prepared.

Local Abbreviation process :=
  (process_light_curves Processed read_multiple_light_curves
     prepare_input_arrays).
Local Abbreviation run :=
  (get_predictions Processed read_multiple_light_curves prepare_input_arrays).

(** C3, amended: in observation-native mode every surviving object gets
    the times of all configured passbands its light curve holds, with the
    NaNs removed and the rest sorted ascending; duplicates stay and no time
    is dropped for lying beyond the causal horizon. Each class curve, cut at
    the horizon, is interpolated at each of these times, giving one
    probability vector per time, and the time axis is these times with the
    trigger epoch added. *)
Theorem C3_observation_native_remap (grid_size : nat) (st : state)
    (p : Prepared) (y : tensor3) :
  process (self st) = Ok p ->
  length (p_objids p) <> 0 ->
  predict (model (self st)) (p_X p) = Ok y ->
  0 < grid_size ->
  parallel p ->
  grids grid_size p ->
  curves grid_size p y ->
  classes y ->
  Forall (aligned (passbands (self st))) (p_orig_lc p) ->
  exists hs ys ts st',
    causal_horizon (p_timesX p) = Ok hs /\
    run true st = Ok (Some (ys, ts), st') /\
    length ys = length (p_objids p) /\
    length ts = length (p_objids p) /\
    forall i, i < length (p_objids p) ->
      exists lc grid yi trigger h obs_time,
        p_orig_lc p !! i = Some lc /\
        p_timesX p !! i = Some grid /\
        y !! i = Some yi /\
        p_trigger_mjds p !! i = Some trigger /\
        hs !! i = Some h /\
        Permutation obs_time
          (filter (fun x => negb (isnan x) = true)
             (concat (gather_obs_time (passbands (self st)) lc))) /\
        Forall is_finite obs_time /\
        ascending obs_time /\
        ys !! i
        = Some (map (fun x =>
                       map (fun c =>
                              np.interp1 x (take h grid)
                                (take h (class_curve yi c)))
                         (seq 0 (length CLASS_NAMES)))
                  obs_time) /\
        ts !! i = Some (map (fun x => fadd x trigger) obs_time).
Proof.
  intros Hp Hn Hy Hgs Hpar Hg Hcur Hcl Hal.
  destruct (run_obstime_entries Processed read_multiple_light_curves
              prepare_input_arrays grid_size st p y)
    as (hs & ys & ts & Hh & Hrun & Hlys & Hlts & Hent); try done.
  exists hs, ys, ts, (after_predict p y st). repeat (split; [done|]).
  intros i Hi.
  destruct (Hent i Hi)
    as (lc & grid & yi & tr & k & obs & Hlc & Hgr & Hyi & Htr & _ & Hhk & _
        & Hobs & Hys & Hts).
  destruct (sorted_obs_time_spec _ _ _ Hobs) as (Hperm & Hfin & Hasc).
  exists lc, grid, yi, tr, (S k), obs. repeat (split; [done|]). done.
Qed.

(** C5, amended: an observation time outside the span of the truncated
    time grid does not make the remapping raise, and the vector reported
    for it is the boundary row of the truncated probability curve: the
    first row below the grid, the last row above it. *)
Theorem C5_out_of_span_clamped (grid_size : nat) (st : state)
    (p : Prepared) (y : tensor3) (hs : list nat) :
  process (self st) = Ok p ->
  length (p_objids p) <> 0 ->
  predict (model (self st)) (p_X p) = Ok y ->
  0 < grid_size ->
  parallel p ->
  grids grid_size p ->
  curves grid_size p y ->
  classes y ->
  Forall (aligned (passbands (self st))) (p_orig_lc p) ->
  causal_horizon (p_timesX p) = Ok hs ->
  (forall i grid h,
     p_timesX p !! i = Some grid -> hs !! i = Some h ->
     Forall is_finite (take h grid) /\ ascending (take h grid)) ->
  exists ys ts st',
    run true st = Ok (Some (ys, ts), st') /\
    forall i, i < length (p_objids p) ->
      exists lc grid yi h obs_time curve,
        p_orig_lc p !! i = Some lc /\
        p_timesX p !! i = Some grid /\
        y !! i = Some yi /\
        hs !! i = Some h /\
        sorted_obs_time (passbands (self st)) lc = Ok obs_time /\
        ys !! i = Some curve /\
        forall j x, obs_time !! j = Some x ->
          (flt x (nth 0 grid NaN) = true ->
           curve !! j = take h yi !! 0) /\
          (flt (nth (h - 1) grid NaN) x = true ->
           curve !! j = take h yi !! (h - 1)).
Proof.
  intros Hp Hn Hy Hgs Hpar Hg Hcur Hcl Hal Hhs Hgrid.
  destruct (run_obstime_entries Processed read_multiple_light_curves
              prepare_input_arrays grid_size st p y)
    as (hs' & ys & ts & Hh & Hrun & Hlys & Hlts & Hent); try done.
  assert (hs' = hs) as -> by congruence.
  exists ys, ts, (after_predict p y st). split; [done|].
  intros i Hi.
  destruct (Hent i Hi)
    as (lc & grid & yi & tr & k & obs & Hlc & Hgr & Hyi & Htr & _ & Hhk & Hle
        & Hobs & Hys & Hts).
  exists lc, grid, yi, (S k), obs, (map (vector_at grid yi (S k)) obs).
  repeat (split; [done|]).
  destruct (Hgrid i grid (S k) Hgr Hhk) as [Hgfin Hgasc].
  unfold grids in Hg. rewrite Forall_lookup in Hg.
  specialize (Hg i grid Hgr).
  destruct Hcur as [Hly Hyt]. rewrite Forall_lookup in Hyt.
  specialize (Hyt i yi Hyi). simpl in Hyt.
  unfold classes in Hcl. rewrite Forall_lookup in Hcl.
  specialize (Hcl i yi Hyi). rewrite Forall_lookup in Hcl.
  assert (Hlen : length (take (S k) grid) = S k)
    by (rewrite length_take; lia).
  assert (Hrow : forall j, j < S k ->
            take (S k) yi !! j = Some (nth j yi []) /\
            length (nth j yi []) = length CLASS_NAMES).
  { intros j Hj. destruct (lookup_lt_is_Some_2 yi j) as [r Hr]; [lia|].
    rewrite lookup_take_lt, (nth_lookup_Some _ _ _ _ Hr) by done.
    split; [done|]. by eapply Hcl. }
  intros j x Hx.
  change (map ?f ?l) with (f <$> l). rewrite list_lookup_fmap, Hx.
  cbn [fmap option_fmap option_map].
  split; intros Hout.
  - destruct (Hrow 0) as [-> Hl]; [lia|]. f_equal.
    apply vector_at_sample; [lia|done|]. intros fp.
    apply interp1_left.
    + by rewrite nth_take_lt by lia.
    + apply ascending_first_last; [done|lia|done].
  - rewrite Nat.sub_succ, Nat.sub_0_r in *.
    destruct (Hrow k) as [-> Hl]; [lia|]. f_equal.
    apply vector_at_sample; [lia|done|]. intros fp.
    rewrite (interp1_right x (take (S k) grid) fp).
    + by rewrite Hlen, Nat.sub_succ, Nat.sub_0_r.
    + by rewrite Hlen, Nat.sub_succ, Nat.sub_0_r, nth_take_lt by lia.
Qed.

End Remapping.

(** ** Empty batches, parallel outputs, repeated calls *)

Section Calls.

Variable Processed : Type.
Variable read_multiple_light_curves :
  list LightCurve -> bool -> result Processed.
Variable prepare_input_arrays :
  list string -> list nat -> bool -> option fl -> Processed -> result Prepared.

Local Abbreviation process :=
  (process_light_curves Processed read_multiple_light_curves
     prepare_input_arrays).
Local Abbreviation run :=
  (get_predictions Processed read_multiple_light_curves prepare_input_arrays).

(** [get_predictions] stage by stage. *)
Lemma run_unfold (b : bool) (st : state) :
  run b st
  = match process (self st) with
    | Raise e => Raise e
    | Ok p =>
        if Nat.eqb (length (p_objids p)) 0 then Ok (None, after_empty p st)
        else
          match predict (model (self st)) (p_X p) with
          | Raise e => Raise e
          | Ok y =>
              match remap b (passbands (self st)) p y with
              | Raise e => Raise e
              | Ok out => Ok (Some out, after_predict p y st)
              end
          end
    end.
Proof.
  unfold get_predictions, bind, lift, get_self; simpl.
  destruct (process (self st)) as [p|]; simpl; [|done].
  destruct (Nat.eqb (length (p_objids p)) 0); [done|].
  assert (Hm : model_predict (p_X p)
                 {| self := set_arrays p (self st); log := log st |}
               = match predict (model (self st)) (p_X p) with
                 | Ok y => Ok (y, after_predict p y st)
                 | Raise e => Raise e
                 end).
  { unfold model_predict, bind, lift, get_self, emit, update_self; simpl.
    by destruct (predict (model (self st)) (p_X p)). }
  assert (Hg : match graph (self st) with
               | Some _ => model_predict (p_X p)
               | None => model_predict (p_X p)
               end = model_predict (p_X p)) by (by destruct (graph (self st))).
  rewrite Hg, Hm.
  destruct (predict (model (self st)) (p_X p)) as [y|]; [|done].
  unfold remap.
  destruct (causal_horizon (p_timesX p)) as [hs|]; simpl; [|done].
  destruct b.
  - by destruct (rmapM _ _).
  - destruct (truncated_predictions _ _ _); simpl; [|done].
    by destruct (truncated_time_steps _ _ _).
Qed.

(** The outcome depends on the configuration only. *)
Lemma run_configuration (b : bool) (st st' : state) :
  same_configuration (self st) (self st') ->
  outcome (run b st) = outcome (run b st').
Proof.
  intros [Hlc Hkr Hpb Hbc Hzc _ Hci _ _ Hm].
  rewrite !run_unfold. unfold process_light_curves.
  rewrite Hlc, Hkr, Hpb, Hbc, Hzc, Hci, Hm.
  destruct (read_multiple_light_curves _ _) as [processed|]; simpl; [|done].
  destruct (prepare_input_arrays _ _ _ _ _) as [p|]; simpl; [|done].
  destruct (Nat.eqb _ 0); [done|].
  destruct (predict _ _) as [y|]; simpl; [|done].
  by destruct (remap _ _ _ _).
Qed.

Lemma run_preserves_configuration (b : bool) (st st1 : state)
    (out : option (list tensor2 * tensor2)) :
  run b st = Ok (out, st1) -> same_configuration (self st) (self st1).
Proof.
  rewrite run_unfold.
  destruct (process (self st)) as [p|]; [|done].
  destruct (Nat.eqb _ 0).
  { intros [= _ <-]. by split. }
  destruct (predict _ _) as [y|]; [|done].
  destruct (remap _ _ _ _); [|done].
  intros [= _ <-]. by split.
Qed.

(** C6: when no object survives the cuts and the preprocessing,
    [get_predictions] returns the absent result in either mode, raises
    nothing, prints the notice, and does not call the model: whatever the
    model would do, no prediction event is logged and [y_predict] stays as
    it was. *)
Theorem C6_no_objects_to_classify (b : bool) (st : state) (p : Prepared) :
  process (self st) = Ok p ->
  p_objids p = [] ->
  exists st',
    run b st = Ok (None, st') /\
    log st' = Print no_objects_message :: log st /\
    y_predict (self st') = y_predict (self st).
Proof.
  intros Hp Hn. exists (after_empty p st).
  split; [|done]. apply run_empty; [done|]. by rewrite Hn.
Qed.

(** C10: [get_predictions] is a function of the configuration fixed at
    construction: two objects with the same light curves, passbands, cuts,
    contextual mode and model give the same outcome for the same argument,
    whatever an earlier call left in them; in particular a second call on
    the object as the first call left it returns what the first call
    returned. *)
Theorem C10_deterministic (b : bool) (st st' : state) :
  same_configuration (self st) (self st') ->
  outcome (run b st) = outcome (run b st') /\
  (forall out st1, run b st = Ok (out, st1) -> outcome (run b st1) = Ok out).
Proof.
  intros Hcfg. split; [by apply run_configuration|].
  intros out st1 H.
  rewrite <- (run_configuration b st st1)
    by (by eapply run_preserves_configuration).
  by rewrite H.
Qed.

End Calls.

(** ** Parallel outputs and absent passbands *)

Lemma gather_present (passbands : list string) (lc : gmap string Frame) :
  gather_obs_time passbands lc
  = gather_obs_time (filter (fun pb => is_Some (lc !! pb)) passbands) lc.
Proof.
  unfold gather_obs_time.
  induction passbands as [|pb pbs IH]; [done|].
  rewrite filter_cons. cbn [omap list_omap].
  destruct (decide (is_Some (lc !! pb))) as [[frame E]|Hnone].
  - cbn [omap list_omap]. rewrite E. cbn [fmap option_fmap option_map].
    by rewrite IH.
  - destruct (lc !! pb) as [frame|] eqn:E; [by destruct Hnone|].
    cbn [fmap option_fmap option_map]. apply IH.
Qed.

Lemma shift_length (a : list fl) (t : fl) : length (shift a t) = length a.
Proof. apply length_map. Qed.

Section Outputs.

Variable Processed : Type.
Variable read_multiple_light_curves :
  list LightCurve -> bool -> result Processed.
Variable prepare_input_arrays :
  list string -> list nat -> bool -> option fl -> Processed -> result Prepared.

Local Abbreviation process :=
  (process_light_curves Processed read_multiple_light_curves
     prepare_input_arrays).
Local Abbreviation run :=
  (get_predictions Processed read_multiple_light_curves prepare_input_arrays).

(** C8: on a batch with surviving objects the two returned sequences are
    parallel in both modes: each has one entry per surviving object, entry
    [i] is built from object [i]'s trigger epoch, and the time axis of an
    object has as many entries as its probability curve has rows. *)
Theorem C8_parallel_outputs (b : bool) (grid_size : nat) (st : state)
    (p : Prepared) (y : tensor3) :
  process (self st) = Ok p ->
  length (p_objids p) <> 0 ->
  predict (model (self st)) (p_X p) = Ok y ->
  0 < grid_size ->
  parallel p ->
  grids grid_size p ->
  curves grid_size p y ->
  (b = true ->
   classes y /\ Forall (aligned (passbands (self st))) (p_orig_lc p)) ->
  exists ys ts st',
    run b st = Ok (Some (ys, ts), st') /\
    length ys = length (p_objids p) /\
    length ts = length (p_objids p) /\
    forall i, i < length (p_objids p) ->
      exists curve times trigger relative,
        ys !! i = Some curve /\
        ts !! i = Some times /\
        p_trigger_mjds p !! i = Some trigger /\
        times = shift relative trigger /\
        length times = length curve.
Proof.
  intros Hp Hn Hy Hgs Hpar Hg Hcur Hobs. destruct b.
  - destruct Hobs as [Hcl Hal]; [done|].
    destruct (run_obstime_entries Processed read_multiple_light_curves
                prepare_input_arrays grid_size st p y)
      as (hs & ys & ts & Hh & Hrun & Hlys & Hlts & Hent); try done.
    exists ys, ts, (after_predict p y st). repeat (split; [done|]).
    intros i Hi.
    destruct (Hent i Hi)
      as (lc & grid & yi & tr & k & obs & _ & _ & _ & Htr & _ & _ & _ & _
          & Hys & Hts).
    eexists _, _, tr, obs. repeat (split; [done|]).
    by rewrite shift_length, length_map.
  - destruct (run_grid_entries Processed read_multiple_light_curves
                prepare_input_arrays grid_size st p y)
      as (hs & ys & ts & Hh & Hrun & Hlys & Hlts & Hent); try done.
    { by destruct Hcur. }
    exists ys, ts, (after_predict p y st). repeat (split; [done|]).
    intros i Hi.
    destruct (Hent i Hi)
      as (grid & yi & tr & k & Hgr & Hyi & Htr & _ & _ & Hle & Hys & Hts).
    eexists _, _, tr, (take (S k) grid). repeat (split; [done|]).
    unfold grids in Hg. rewrite Forall_lookup in Hg.
    specialize (Hg i grid Hgr).
    destruct Hcur as [_ Hyt]. rewrite Forall_lookup in Hyt.
    specialize (Hyt i yi Hyi). simpl in Hyt.
    rewrite shift_length, !length_take. lia.
Qed.

(** C9: in observation-native mode a light curve that lacks configured
    passbands does not make [get_predictions] fail. The absent passbands
    are skipped and add no time: the observation times are those of the
    passbands that are present, and the object's output is built from
    them. *)
Theorem C9_absent_passbands_skipped (grid_size : nat) (st : state)
    (p : Prepared) (y : tensor3) :
  process (self st) = Ok p ->
  length (p_objids p) <> 0 ->
  predict (model (self st)) (p_X p) = Ok y ->
  0 < grid_size ->
  parallel p ->
  grids grid_size p ->
  curves grid_size p y ->
  classes y ->
  Forall (aligned (passbands (self st))) (p_orig_lc p) ->
  exists ys ts st',
    run true st = Ok (Some (ys, ts), st') /\
    forall i lc, p_orig_lc p !! i = Some lc ->
      exists obs_time trigger curve,
        sorted_obs_time (passbands (self st)) lc = Ok obs_time /\
        sorted_obs_time
          (filter (fun pb => is_Some (lc !! pb)) (passbands (self st))) lc
        = Ok obs_time /\
        (forall x, x ∈ obs_time <->
           isnan x = false /\
           exists pb frame,
             pb ∈ passbands (self st) /\ lc !! pb = Some frame /\
             x ∈ time frame) /\
        p_trigger_mjds p !! i = Some trigger /\
        ts !! i = Some (shift obs_time trigger) /\
        ys !! i = Some curve /\
        length curve = length obs_time.
Proof.
  intros Hp Hn Hy Hgs Hpar Hg Hcur Hcl Hal.
  destruct (run_obstime_entries Processed read_multiple_light_curves
              prepare_input_arrays grid_size st p y)
    as (hs & ys & ts & Hh & Hrun & Hlys & Hlts & Hent); try done.
  exists ys, ts, (after_predict p y st). split; [done|].
  intros i lc Hlc.
  assert (Hi : i < length (p_objids p)).
  { destruct Hpar as [_ _ <-]. by eapply lookup_lt_Some. }
  destruct (Hent i Hi)
    as (lc' & grid & yi & tr & k & obs & Hlc' & _ & _ & Htr & _ & _ & _
        & Hobs & Hys & Hts).
  assert (lc' = lc) as -> by congruence.
  exists obs, tr, (map (vector_at grid yi (S k)) obs).
  split; [done|]. split.
  { unfold sorted_obs_time in *. by rewrite <- gather_present. }
  split.
  { intros x. destruct (sorted_obs_time_spec _ _ _ Hobs) as (Hperm & _ & _).
    rewrite Hperm, list_elem_of_filter, gather_obs_time_elem.
    rewrite negb_true_iff. done. }
  repeat (split; [done|]). by rewrite length_map.
Qed.

End Outputs.

(** ** Construction *)

Section Construction.

Variable os_path_exists : string -> bool.
Variable os_path_join : string -> string -> string.
Variable SCRIPT_DIR : string.
Variable resource_filename : string -> string -> string.
Variable load_model : string -> result Model.
Variable Processed : Type.
Variable read_multiple_light_curves :
  list LightCurve -> bool -> result Processed.
Variable prepare_input_arrays :
  list string -> list nat -> bool -> option fl -> Processed -> result Prepared.

Local Abbreviation construct :=
  (__init__ os_path_exists os_path_join SCRIPT_DIR resource_filename load_model).
Local Abbreviation run :=
  (get_predictions Processed read_multiple_light_curves prepare_input_arrays).

(** What a successful construction leaves in the object. *)
Lemma init_Ok (lcs : list LightCurve) (kr : bool) (mf : string)
    (pbs : list string) (bc : bool) (zc : option fl) (g : option Graph)
    (m : option Model) (st : state) :
  construct lcs kr mf pbs bc zc g m = Ok st ->
  known_redshift (self st) = kr /\
  contextual_info (self st) = fst (variant kr) /\
  model_filepath (self st)
  = fst (select_model_filepath os_path_exists os_path_join SCRIPT_DIR
           resource_filename mf (snd (variant kr))) /\
  match g, m with
  | Some _, Some m0 => Ok m0
  | _, _ => load_model (model_filepath (self st))
  end = Ok (model (self st)).
Proof.
  unfold __init__.
  destruct (variant kr) as [ci filename].
  destruct (select_model_filepath _ _ _ _ _ _) as [path custom].
  cbn [fst snd].
  destruct (match g with Some _ => _ | None => _ end) as [mo|] eqn:E;
    cbn [rbind]; [|done].
  intros [= <-]. done.
Qed.


End Construction.

(** ** The worked batch *)

(** When the default file is missing, the packaged with-redshift file is
    selected with the flag off as well. *)
Example fallback_with_flag_off :
  fst (select_model_filepath Ex.exists_nowhere Ex.join Ex.script_dir
         Ex.resource "" (snd (variant false)))
  = "/site-packages/astrorapid/keras_model_with_redshift.hdf5".
Proof. reflexivity. Qed.

Lemma ex_parallel : parallel Ex.prepared.
Proof. by split. Qed.

Lemma ex_grids : grids 4 Ex.prepared.
Proof. unfold grids. simpl. by repeat constructor. Qed.

Lemma ex_curves (y : tensor3) :
  y = Ex.y \/ y = Ex.y_nan -> curves 4 Ex.prepared y.
Proof. intros [-> | ->]; split; simpl; by repeat constructor. Qed.

Lemma ex_classes (y : tensor3) :
  y = Ex.y \/ y = Ex.y_nan -> classes y.
Proof. intros [-> | ->]; unfold classes; simpl; by repeat constructor. Qed.

Lemma ex_aligned : Forall (aligned ["g"; "r"]) Ex.orig_lc.
Proof. unfold aligned. repeat constructor; by vm_compute. Qed.

Lemma ex_truncated_grids (i : nat) (grid : list fl) (h : nat) :
  Ex.timesX !! i = Some grid -> Ex.horizons !! i = Some h ->
  Forall is_finite (take h grid) /\ ascending (take h grid).
Proof.
  destruct i as [|[|i]]; simpl; try done; intros [= <-] [= <-]; simpl;
    (split; [by repeat constructor|]);
    unfold ascending; repeat constructor; by vm_compute.
Qed.

Lemma ex_one_hot (c : nat) : c < 13 -> distribution (Ex.one_hot c).
Proof.
  intros Hc. do 13 (destruct c as [|c]; [
    split; [repeat constructor; unfold in_unit; lra|];
    eexists; split; [by vm_compute|by vm_compute] |]).
  lia.
Qed.

Lemma ex_distributions (i : nat) (yi : tensor2) (h j : nat) (row : list fl) :
  Ex.y !! i = Some yi -> Ex.horizons !! i = Some h ->
  yi !! j = Some row -> j < h -> distribution row.
Proof.
  unfold Ex.y, Ex.horizons.
  destruct i as [|[|i]]; cbn [lookup list_lookup]; try done;
    intros [= <-] [= <-].
  - destruct j as [|[|[|j]]]; cbn [lookup list_lookup]; try lia;
      intros [= <-] _.
    + apply ex_one_hot. lia.
    + split; [repeat constructor; unfold in_unit; lra|].
      eexists; split; by vm_compute.
    + apply ex_one_hot. lia.
  - destruct j as [|[|[|[|j]]]]; cbn [lookup list_lookup]; try lia;
      intros [= <-] _; apply ex_one_hot; lia.
Qed.

(** C1 on the worked batch. *)
Lemma C1_witness :
  exists hs ys ts st',
    causal_horizon Ex.timesX = Ok hs /\
    get_predictions _ Ex.read Ex.prepare false (Ex.start Ex.keras)
    = Ok (Some (ys, ts), st').
Proof.
  destruct (C1_causal_horizon_bounds _ Ex.read Ex.prepare 4
              (Ex.start Ex.keras) Ex.prepared Ex.y)
    as (hs & ys & ts & st' & Hh & Hrun & _).
  - reflexivity.
  - simpl. lia.
  - reflexivity.
  - lia.
  - apply ex_parallel.
  - apply ex_grids.
  - apply ex_curves. by left.
  - by exists hs, ys, ts, st'.
Defined.

(** C2 on the worked batch. *)
Lemma C2_witness :
  exists hs ys ts st',
    causal_horizon Ex.timesX = Ok hs /\
    get_predictions _ Ex.read Ex.prepare false (Ex.start Ex.keras)
    = Ok (Some (ys, ts), st').
Proof.
  destruct (C2_grid_native_truncation _ Ex.read Ex.prepare 4
              (Ex.start Ex.keras) Ex.prepared Ex.y)
    as (hs & ys & ts & st' & Hh & Hrun & _).
  - reflexivity.
  - simpl. lia.
  - reflexivity.
  - lia.
  - apply ex_parallel.
  - apply ex_grids.
  - reflexivity.
  - by exists hs, ys, ts, st'.
Defined.

(** C3 on the worked batch. *)
Lemma C3_witness :
  exists hs ys ts st',
    causal_horizon Ex.timesX = Ok hs /\
    get_predictions _ Ex.read Ex.prepare true (Ex.start Ex.keras)
    = Ok (Some (ys, ts), st') /\
    length ys = 2 /\ length ts = 2.
Proof.
  destruct (C3_observation_native_remap _ Ex.read Ex.prepare 4
              (Ex.start Ex.keras) Ex.prepared Ex.y)
    as (hs & ys & ts & st' & Hh & Hrun & Hys & Hts & _).
  - reflexivity.
  - simpl. lia.
  - reflexivity.
  - lia.
  - apply ex_parallel.
  - apply ex_grids.
  - apply ex_curves. by left.
  - apply ex_classes. by left.
  - apply ex_aligned.
  - by exists hs, ys, ts, st'.
Defined.

(** The claim C3 as stated fails on the worked batch: the first object
    was seen in [g] and in [r] one day after the trigger, and in [r] five
    days after it, three days past the last time of its truncated grid. Its
    time axis holds the common time twice and holds the late time. *)
Lemma C3_counterexample :
  exists ys st',
    get_predictions _ Ex.read Ex.prepare true (Ex.start Ex.keras)
    = Ok (Some (ys,
                [ [Fin 57997; Fin (116001 # 2); Fin 58001; Fin 58001;
                   Fin 58005];
                  [Fin 58102] ]), st') /\
    ~ NoDup [Fin 57997; Fin (116001 # 2); Fin 58001; Fin 58001; Fin 58005] /\
    take 3 [Fin 0; Fin 1; Fin 2; Fin 0] = [Fin 0; Fin 1; Fin 2] /\
    flt (Fin 2) (Fin 5) = true /\
    fadd (Fin 5) (Fin 58000) = Fin 58005.
Proof.
  eexists _, _. split; [by vm_compute|].
  split; [|by vm_compute].
  intros H. do 2 apply NoDup_cons in H as [_ H].
  apply NoDup_cons in H as [Hin _]. apply Hin. by left.
Qed.

(** C4 on the worked batch. *)
Lemma C4_witness :
  (exists ys ts st',
     get_predictions _ Ex.read Ex.prepare false (Ex.start Ex.keras)
     = Ok (Some (ys, ts), st') /\
     forall curve row, curve ∈ ys -> row ∈ curve ->
       sums_to_one tolerance row) /\
  (exists ys ts st',
     get_predictions _ Ex.read Ex.prepare true (Ex.start Ex.keras)
     = Ok (Some (ys, ts), st') /\
     forall curve row, curve ∈ ys -> row ∈ curve ->
       sums_to_one tolerance row).
Proof.
  destruct (C4_reported_vectors_sum_to_one _ Ex.read Ex.prepare 4
              (Ex.start Ex.keras) Ex.prepared Ex.y Ex.horizons)
    as [Hgrid Hobs].
  - reflexivity.
  - simpl. lia.
  - reflexivity.
  - lia.
  - apply ex_parallel.
  - apply ex_grids.
  - apply ex_curves. by left.
  - reflexivity.
  - apply ex_distributions.
  - split; [exact Hgrid|]. apply Hobs.
    + apply ex_classes. by left.
    + apply ex_aligned.
    + apply ex_truncated_grids.
Defined.

(** C5 on the worked batch. *)
Lemma C5_witness :
  exists ys ts st',
    get_predictions _ Ex.read Ex.prepare true (Ex.start Ex.keras)
    = Ok (Some (ys, ts), st').
Proof.
  destruct (C5_out_of_span_clamped _ Ex.read Ex.prepare 4
              (Ex.start Ex.keras) Ex.prepared Ex.y Ex.horizons)
    as (ys & ts & st' & Hrun & _).
  - reflexivity.
  - simpl. lia.
  - reflexivity.
  - lia.
  - apply ex_parallel.
  - apply ex_grids.
  - apply ex_curves. by left.
  - apply ex_classes. by left.
  - apply ex_aligned.
  - reflexivity.
  - apply ex_truncated_grids.
  - by exists ys, ts, st'.
Defined.

(** The claim C5 as stated fails on the worked batch with a model whose
    output is NaN: the first observation of the first object lies three
    days before its grid, the call returns, and the vector returned for
    that time is not finite, so no check of finiteness stood in the way. *)
Lemma C5_counterexample :
  exists ys ts st' curve row,
    get_predictions _ Ex.read Ex.prepare true (Ex.start Ex.keras_nan)
    = Ok (Some (ys, ts), st') /\
    sorted_obs_time ["g"; "r"]
      {[ "g" := Ex.frame [Fin (-3); Fin (1 # 2); Fin 1];
         "r" := Ex.frame [Fin 1; Fin 5; NaN] ]}
    = Ok [Fin (-3); Fin (1 # 2); Fin 1; Fin 1; Fin 5] /\
    flt (Fin (-3)) (Fin 0) = true /\
    ys !! 0 = Some curve /\
    curve !! 0 = Some row /\
    ~ Forall is_finite row.
Proof.
  eexists _, _, _, _, _. split; [by vm_compute|].
  split; [by vm_compute|]. split; [by vm_compute|].
  split; [reflexivity|]. split; [reflexivity|].
  intros H. by apply Forall_cons in H as [H _].
Qed.

(** C6 on the worked batch. *)
Lemma C6_witness :
  exists st',
    get_predictions _ Ex.read Ex.prepare_none true
      (Ex.start Ex.keras_broken) = Ok (None, st') /\
    log st' = [Print no_objects_message].
Proof.
  destruct (C6_no_objects_to_classify _ Ex.read Ex.prepare_none true
              (Ex.start Ex.keras_broken)
              {| p_X := []; p_orig_lc := []; p_timesX := []; p_objids := [];
                 p_trigger_mjds := [] |})
    as (st' & Hrun & Hlog & _).
  - reflexivity.
  - reflexivity.
  - by exists st'.
Defined.



(** C8 on the worked batch. *)
Lemma C8_witness :
  exists ys ts st',
    get_predictions _ Ex.read Ex.prepare true (Ex.start Ex.keras)
    = Ok (Some (ys, ts), st') /\
    length ys = 2 /\ length ts = 2.
Proof.
  destruct (C8_parallel_outputs _ Ex.read Ex.prepare true 4
              (Ex.start Ex.keras) Ex.prepared Ex.y)
    as (ys & ts & st' & Hrun & Hys & Hts & _).
  - reflexivity.
  - simpl. lia.
  - reflexivity.
  - lia.
  - apply ex_parallel.
  - apply ex_grids.
  - apply ex_curves. by left.
  - intros _. split; [apply ex_classes; by left|apply ex_aligned].
  - by exists ys, ts, st'.
Defined.

(** C9 on the worked batch. *)
Lemma C9_witness :
  exists ys ts st',
    get_predictions _ Ex.read Ex.prepare true (Ex.start Ex.keras)
    = Ok (Some (ys, ts), st') /\
    ({[ "r" := Ex.frame [Fin 2; NaN] ]} : gmap string Frame) !! "g" = None.
Proof.
  destruct (C9_absent_passbands_skipped _ Ex.read Ex.prepare 4
              (Ex.start Ex.keras) Ex.prepared Ex.y)
    as (ys & ts & st' & Hrun & _).
  - reflexivity.
  - simpl. lia.
  - reflexivity.
  - lia.
  - apply ex_parallel.
  - apply ex_grids.
  - apply ex_curves. by left.
  - apply ex_classes. by left.
  - apply ex_aligned.
  - exists ys, ts, st'. split; [exact Hrun|reflexivity].
Defined.

(** C10 on the worked batch. *)
Lemma C10_witness :
  outcome (get_predictions _ Ex.read Ex.prepare true (Ex.start Ex.keras))
  = outcome (get_predictions _ Ex.read Ex.prepare true
               (after_predict Ex.prepared Ex.y (Ex.start Ex.keras))).
Proof.
  destruct (C10_deterministic _ Ex.read Ex.prepare true (Ex.start Ex.keras)
              (after_predict Ex.prepared Ex.y (Ex.start Ex.keras)))
    as [H _].
  - by split.
  - exact H.
Defined.

(** ** Further properties: the horizon of a padded grid *)

Lemma first_max_unique (grid : list fl) (k k' : nat) :
  first_max grid k -> first_max grid k' -> k = k'.
Proof.
  intros [Hk Hmax] [Hk' Hmax'].
  destruct (lookup_lt_is_Some_2 grid k Hk) as [x Hx].
  destruct (lookup_lt_is_Some_2 grid k' Hk') as [x' Hx'].
  rewrite (nth_lookup_Some _ _ _ _ Hx) in Hmax.
  rewrite (nth_lookup_Some _ _ _ _ Hx') in Hmax'.
  destruct (Nat.lt_trichotomy k k') as [Hlt|[->|Hlt]]; [|done|].
  - destruct (Hmax' k x Hx) as [_ Hs]. specialize (Hs Hlt).
    destruct (Hmax k' x' Hx') as [Hle _].
    destruct x as [q|], x' as [q'|]; try done.
    apply flt_Fin in Hs. apply fle_Fin in Hle. lra.
  - destruct (Hmax k' x' Hx') as [_ Hs]. specialize (Hs Hlt).
    destruct (Hmax' k x Hx) as [Hle _].
    destruct x as [q|], x' as [q'|]; try done.
    apply flt_Fin in Hs. apply fle_Fin in Hle. lra.
Qed.

Lemma argmax_of_first_max (grid : list fl) (k : nat) :
  Forall is_finite grid -> first_max grid k -> np.argmax grid = Ok k.
Proof.
  intros Hfin Hk.
  destruct (argmax_Ok grid) as (k' & Hk' & _); [destruct Hk; lia|].
  rewrite Hk'. f_equal.
  eapply first_max_unique; [|done]. by apply argmax_first_max.
Qed.

Lemma padding_finite (n : nat) : Forall is_finite (padding n).
Proof. unfold padding. apply Forall_replicate. done. Qed.

Lemma increasing_lookup (l : list fl) (i j : nat) (x z : fl) :
  increasing l -> i < j -> l !! i = Some x -> l !! j = Some z ->
  flt x z = true.
Proof.
  unfold increasing. intros Hs. revert i j.
  induction Hs as [|a l Hs IH Ha]; intros i j Hij Hi Hj; [done|].
  destruct j as [|j]; [lia|]. destruct i as [|i]; simpl in *.
  - injection Hi as <-. rewrite Forall_forall in Ha. apply Ha.
    by eapply list_elem_of_lookup_2.
  - apply (IH i j); [lia|done..].
Qed.

(** The last observation of an increasing grid that is not before the
    trigger is where the padded grid has its first largest entry. *)
Lemma argmax_padded_after_trigger (real : list fl) (n : nat) (last : Q) :
  Forall is_finite real ->
  increasing real ->
  real !! (length real - 1) = Some (Fin last) ->
  (0 <= last)%Q ->
  np.argmax (real ++ padding n) = Ok (length real - 1).
Proof.
  intros Hfin Hinc Hlast Hpos.
  assert (Hlen : length real - 1 < length real) by (by eapply lookup_lt_Some).
  apply argmax_of_first_max.
  { apply Forall_app. split; [done|apply padding_finite]. }
  split; [rewrite length_app; lia|].
  rewrite (nth_lookup_Some _ _ NaN (Fin last))
    by (by rewrite lookup_app_l).
  intros j x Hx. apply lookup_app_Some in Hx as [Hx|[Hge Hx]].
  - destruct (Nat.lt_trichotomy j (length real - 1)) as [Hlt|[->|Hgt]].
    + assert (Hs : flt x (Fin last) = true)
        by (by eapply (increasing_lookup real j (length real - 1))).
      split; [|done]. destruct x as [q|]; [|done].
      apply flt_Fin in Hs. apply fle_Fin. lra.
    + assert (x = Fin last) as -> by congruence.
      split; [apply fle_Fin; lra|lia].
    + apply lookup_lt_Some in Hx. lia.
  - unfold padding in Hx. apply lookup_replicate in Hx as [-> _].
    split; [by apply fle_Fin|lia].
Qed.

(** When every observation is before the trigger, the first padding slot
    holds the first largest entry. *)
Lemma argmax_padded_before_trigger (real : list fl) (n : nat) :
  Forall negative real ->
  0 < n ->
  np.argmax (real ++ padding n) = Ok (length real).
Proof.
  intros Hneg Hn.
  assert (Hfin : Forall is_finite real).
  { eapply Forall_impl; [exact Hneg|]. intros x Hx.
    by destruct (flt_finite _ _ Hx). }
  apply argmax_of_first_max.
  { apply Forall_app. split; [done|apply padding_finite]. }
  assert (Hpad : (real ++ padding n) !! length real = Some (Fin 0)).
  { rewrite lookup_app_r, Nat.sub_diag by done.
    unfold padding. by destruct n; [lia|]. }
  split; [by eapply lookup_lt_Some|].
  rewrite (nth_lookup_Some _ _ NaN (Fin 0)) by done.
  intros j x Hx. apply lookup_app_Some in Hx as [Hx|[Hge Hx]].
  - rewrite Forall_lookup in Hneg. specialize (Hneg j x Hx).
    unfold negative in Hneg. split; [|done].
    destruct x as [q|]; [|done]. apply flt_Fin in Hneg. apply fle_Fin. lra.
  - unfold padding in Hx. apply lookup_replicate in Hx as [-> _].
    split; [apply fle_Fin; lra|lia].
Qed.

Section Padded.

Variable Processed : Type.
Variable read_multiple_light_curves :
  list LightCurve -> bool -> result Processed.
Variable prepare_input_arrays :
  list string -> list nat -> bool -> option fl -> Processed -> result Prepared.

Local Abbreviation process :=
  (process_light_curves Processed read_multiple_light_curves
     prepare_input_arrays).
Local Abbreviation run :=
  (get_predictions Processed read_multiple_light_curves prepare_input_arrays).

(** X1: for an object whose time grid is its increasing observation grid
    followed by zero padding, and whose last grid time is not before the
    trigger, grid-native mode reports exactly the timesteps of the
    observation grid: the curve is cut where the padding starts and the
    time axis is the observation grid shifted by the trigger epoch. *)
Theorem X1_padding_cut_off (grid_size : nat) (st : state) (p : Prepared)
    (y : tensor3) (i : nat) (real : list fl) (n : nat) (last : Q)
    (yi : tensor2) (trigger : fl) :
  process (self st) = Ok p ->
  length (p_objids p) <> 0 ->
  predict (model (self st)) (p_X p) = Ok y ->
  0 < grid_size ->
  parallel p ->
  grids grid_size p ->
  length y = length (p_objids p) ->
  p_timesX p !! i = Some (real ++ padding n) ->
  y !! i = Some yi ->
  p_trigger_mjds p !! i = Some trigger ->
  Forall is_finite real ->
  increasing real ->
  real !! (length real - 1) = Some (Fin last) ->
  (0 <= last)%Q ->
  exists ys ts st',
    run false st = Ok (Some (ys, ts), st') /\
    ys !! i = Some (take (length real) yi) /\
    ts !! i = Some (shift real trigger).
Proof.
  intros Hp Hn Hy Hgs Hpar Hg Hly Hgrid Hyi Htr Hfin Hinc Hlast Hpos.
  destruct (run_grid_entries Processed read_multiple_light_curves
              prepare_input_arrays grid_size st p y)
    as (hs & ys & ts & Hh & Hrun & _ & _ & Hent); try done.
  exists ys, ts, (after_predict p y st). split; [done|].
  assert (Hi : i < length (p_objids p)).
  { rewrite <- Hly. by eapply lookup_lt_Some. }
  destruct (Hent i Hi)
    as (grid' & yi' & tr' & k & Hgrid' & Hyi' & Htr' & Hk & _ & _ & Hys & Hts).
  assert (grid' = real ++ padding n) as -> by congruence.
  assert (yi' = yi) as -> by congruence.
  assert (tr' = trigger) as -> by congruence.
  rewrite (argmax_padded_after_trigger real n last) in Hk by done.
  injection Hk as <-.
  assert (Hlen : length real - 1 < length real) by (by eapply lookup_lt_Some).
  replace (S (length real - 1)) with (length real) in * by lia.
  split; [done|]. by rewrite take_app_length in Hts.
Qed.

(** X2: for an object all of whose observations are before the trigger,
    the zero of the first padding slot is the largest grid entry, so
    grid-native mode reports one timestep more than there are
    observations: the row the model gave for the first padding slot, at
    the trigger epoch itself. *)
Theorem X2_padding_slot_reported (grid_size : nat) (st : state)
    (p : Prepared) (y : tensor3) (i : nat) (real : list fl) (n : nat)
    (yi : tensor2) (trigger : fl) :
  process (self st) = Ok p ->
  length (p_objids p) <> 0 ->
  predict (model (self st)) (p_X p) = Ok y ->
  0 < grid_size ->
  parallel p ->
  grids grid_size p ->
  length y = length (p_objids p) ->
  p_timesX p !! i = Some (real ++ padding n) ->
  y !! i = Some yi ->
  p_trigger_mjds p !! i = Some trigger ->
  Forall negative real ->
  0 < n ->
  exists ys ts st',
    run false st = Ok (Some (ys, ts), st') /\
    ys !! i = Some (take (length real + 1) yi) /\
    ts !! i = Some (shift real trigger ++ [fadd (Fin 0) trigger]).
Proof.
  intros Hp Hn Hy Hgs Hpar Hg Hly Hgrid Hyi Htr Hneg Hpad.
  destruct (run_grid_entries Processed read_multiple_light_curves
              prepare_input_arrays grid_size st p y)
    as (hs & ys & ts & Hh & Hrun & _ & _ & Hent); try done.
  exists ys, ts, (after_predict p y st). split; [done|].
  assert (Hi : i < length (p_objids p)).
  { rewrite <- Hly. by eapply lookup_lt_Some. }
  destruct (Hent i Hi)
    as (grid' & yi' & tr' & k & Hgrid' & Hyi' & Htr' & Hk & _ & _ & Hys & Hts).
  assert (grid' = real ++ padding n) as -> by congruence.
  assert (yi' = yi) as -> by congruence.
  assert (tr' = trigger) as -> by congruence.
  rewrite (argmax_padded_before_trigger real n) in Hk by done.
  injection Hk as <-. rewrite Nat.add_1_r. split; [done|].
  rewrite Hts. f_equal. destruct n as [|n]; [lia|].
  unfold padding, shift. cbn [replicate].
  rewrite take_app_ge by lia.
  replace (S (length real) - length real) with 1 by lia.
  by rewrite map_app.
Qed.

(** X3: grid-native mode does not compare the model output with the
    grid. The time axis of an object always has [causal_horizon] entries,
    while its curve has the smaller of [causal_horizon] and the number of
    timesteps the model returned; when the model returned fewer, the call
    still succeeds and the two are of different lengths. *)
Theorem X3_short_model_output_not_detected (grid_size : nat) (st : state)
    (p : Prepared) (y : tensor3) :
  process (self st) = Ok p ->
  length (p_objids p) <> 0 ->
  predict (model (self st)) (p_X p) = Ok y ->
  0 < grid_size ->
  parallel p ->
  grids grid_size p ->
  length y = length (p_objids p) ->
  exists hs ys ts st',
    causal_horizon (p_timesX p) = Ok hs /\
    run false st = Ok (Some (ys, ts), st') /\
    forall i, i < length (p_objids p) ->
      exists yi h curve times,
        y !! i = Some yi /\
        hs !! i = Some h /\
        ys !! i = Some curve /\
        ts !! i = Some times /\
        length times = h /\
        length curve = min h (length yi) /\
        (length yi < h -> length curve < length times).
Proof.
  intros Hp Hn Hy Hgs Hpar Hg Hly.
  destruct (run_grid_entries Processed read_multiple_light_curves
              prepare_input_arrays grid_size st p y)
    as (hs & ys & ts & Hh & Hrun & _ & _ & Hent); try done.
  exists hs, ys, ts, (after_predict p y st). repeat (split; [done|]).
  intros i Hi.
  destruct (Hent i Hi)
    as (grid & yi & tr & k & Hgrid & Hyi & Htr & Hk & Hhk & Hle & Hys & Hts).
  exists yi, (S k), (take (S k) yi), (shift (take (S k) grid) tr).
  repeat (split; [done|]).
  unfold grids in Hg. rewrite Forall_lookup in Hg. specialize (Hg i grid Hgrid).
  rewrite shift_length, !length_take. lia.
Qed.

End Padded.

(** ** Further properties: what observation-native mode rejects *)

Lemma rmapM_Raise {A B} (f : A -> result B) (xs : list A) (e : exn) :
  (forall x, x ∈ xs -> (exists y, f x = Ok y) \/ f x = Raise e) ->
  (exists x, x ∈ xs /\ f x = Raise e) ->
  rmapM f xs = Raise e.
Proof.
  induction xs as [|x xs IH]; intros Hall (x0 & Hin & Hx0).
  - by apply elem_of_nil in Hin.
  - cbn [rmapM]. destruct (Hall x) as [[y Hy]|Hr]; [by left| |by rewrite Hr].
    rewrite Hy. cbn [rbind]. rewrite IH; [done| |].
    + intros z Hz. apply Hall. by right.
    + apply elem_of_cons in Hin as [->|Hin]; [congruence|eauto].
Qed.

Lemma index_cases {A} (xs : list A) (i : nat) :
  (exists x, index xs i = Ok x) \/ index xs i = Raise IndexError.
Proof. unfold index. destruct (xs !! i); eauto. Qed.

Lemma column_short (yi : tensor2) (c : nat) :
  (exists row, row ∈ yi /\ length row <= c) ->
  np.column yi c = Raise IndexError.
Proof.
  intros (row & Hin & Hlen). unfold np.column. apply rmapM_Raise.
  - intros r _. apply index_cases.
  - exists row. split; [done|]. unfold index.
    by rewrite (proj2 (lookup_ge_None row c)).
Qed.

Lemma column_cases (yi : tensor2) (c : nat) :
  np.column yi c = Ok (class_curve yi c) \/
  np.column yi c = Raise IndexError.
Proof.
  destruct (decide (Forall (fun row => c < length row) yi)) as [H|H].
  - left. by apply column_Ok.
  - right. apply column_short. apply not_Forall_Exists in H; [|apply _].
    apply Exists_exists in H as (row & Hin & Hlen).
    unfold compose in Hlen.
    exists row. split; [done|lia].
Qed.

(** An object whose curve lacks a class makes the loop over the classes
    raise. *)
Lemma predictions_at_obstime_IndexError (passbands : list string)
    (p : Prepared) (y : tensor3) (hs : list nat) (idx : nat)
    (lc : gmap string Frame) (grid : list fl) (yi : tensor2) (h : nat) :
  p_orig_lc p !! idx = Some lc ->
  aligned passbands lc ->
  p_timesX p !! idx = Some grid ->
  hs !! idx = Some h ->
  y !! idx = Some yi ->
  0 < h <= length grid ->
  h <= length yi ->
  (exists row, row ∈ yi /\ length row < length CLASS_NAMES) ->
  predictions_at_obstime passbands p y hs idx = Raise IndexError.
Proof.
  intros Hlc Hal Hgrid Hh Hyi Hhg Hhy (row & Hin & Hlen).
  unfold predictions_at_obstime.
  apply index_Ok in Hlc, Hgrid, Hh, Hyi.
  rewrite Hlc; cbn [rbind]. rewrite sorted_obs_time_Ok by done; cbn [rbind].
  rewrite (rmapM_Raise _ _ IndexError); [done| |].
  - intros c _. rewrite Hgrid, Hh, Hyi; cbn [rbind].
    destruct (column_cases yi c) as [-> | ->]; [|by right].
    left. cbn [rbind]. eexists. apply interp_Ok; rewrite !length_take; [lia|].
    unfold class_curve. rewrite length_map. lia.
  - exists (length CLASS_NAMES - 1). split.
    + apply elem_of_seq. simpl. lia.
    + rewrite Hgrid, Hh, Hyi; cbn [rbind].
      rewrite column_short; [done|]. exists row. split; [done|]. lia.
Qed.

Section Rejected.

Variable Processed : Type.
Variable read_multiple_light_curves :
  list LightCurve -> bool -> result Processed.
Variable prepare_input_arrays :
  list string -> list nat -> bool -> option fl -> Processed -> result Prepared.

Local Abbreviation process :=
  (process_light_curves Processed read_multiple_light_curves
     prepare_input_arrays).
Local Abbreviation run :=
  (get_predictions Processed read_multiple_light_curves prepare_input_arrays).

Lemma run_remap_Raise (b : bool) (st : state) (p : Prepared) (y : tensor3)
    (e : exn) :
  process (self st) = Ok p ->
  length (p_objids p) <> 0 ->
  predict (model (self st)) (p_X p) = Ok y ->
  remap b (passbands (self st)) p y = Raise e ->
  run b st = Raise e.
Proof.
  intros Hp Hn Hy Hr. rewrite run_unfold, Hp.
  destruct (Nat.eqb_spec (length (p_objids p)) 0) as [|_]; [done|].
  by rewrite Hy, Hr.
Qed.

(** X4: when the model output of some object has a timestep with fewer
    entries than there are class names, observation-native mode raises
    [IndexError] for the whole batch, although grid-native mode returns
    the same output truncated. *)
Theorem X4_missing_class_raises (grid_size : nat) (st : state)
    (p : Prepared) (y : tensor3) (i : nat) (yi : tensor2) (row : list fl) :
  process (self st) = Ok p ->
  length (p_objids p) <> 0 ->
  predict (model (self st)) (p_X p) = Ok y ->
  0 < grid_size ->
  parallel p ->
  grids grid_size p ->
  curves grid_size p y ->
  Forall (aligned (passbands (self st))) (p_orig_lc p) ->
  y !! i = Some yi ->
  row ∈ yi ->
  length row < length CLASS_NAMES ->
  run true st = Raise IndexError /\
  exists ys ts st', run false st = Ok (Some (ys, ts), st').
Proof.
  intros Hp Hn Hy Hgs Hpar Hg Hcur Hal Hyi Hrow Hlen. split.
  - destruct (causal_horizon_Ok grid_size (p_timesX p) Hgs Hg)
      as (hs & Hh & Hlh & Hhs).
    destruct Hpar as [Ht Hm Ho]. destruct Hcur as [Hly Hyt].
    assert (Hobj : forall j, j < length y ->
              exists lc grid yj k,
                p_orig_lc p !! j = Some lc /\
                aligned (passbands (self st)) lc /\
                p_timesX p !! j = Some grid /\
                hs !! j = Some (S k) /\
                y !! j = Some yj /\
                0 < S k <= length grid /\
                S k <= length yj /\
                p_trigger_mjds p !! j = Some (nth j (p_trigger_mjds p) NaN)).
    { intros j Hj.
      destruct (lookup_lt_is_Some_2 (p_orig_lc p) j) as [lc Hlc]; [lia|].
      destruct (lookup_lt_is_Some_2 (p_timesX p) j) as [grid Hgrid]; [lia|].
      destruct (lookup_lt_is_Some_2 y j) as [yj Hyj]; [lia|].
      destruct (Hhs j grid Hgrid) as (k & Hk & Hhk & Hle).
      exists lc, grid, yj, k.
      rewrite Forall_lookup in Hal. unfold grids in Hg.
      rewrite Forall_lookup in Hg. rewrite Forall_lookup in Hyt.
      specialize (Hg j grid Hgrid). specialize (Hyt j yj Hyj). simpl in Hyt.
      repeat (split; [by eauto || lia|]).
      destruct (nth_lookup_or_length (p_trigger_mjds p) j NaN); [done|lia]. }
    eapply run_remap_Raise; try done.
    unfold remap. rewrite Hh; cbn [rbind].
    rewrite (rmapM_Raise _ _ IndexError); [done| |].
    + intros j Hj. apply elem_of_seq in Hj.
      destruct (Hobj j) as (lc & grid & yj & k & Hlc & Hlal & Hgrid & Hhk
                            & Hyj & Hkg & Hky & Htr); [lia|].
      destruct (decide (Forall (fun r => length CLASS_NAMES <= length r) yj))
        as [Hall|Hnot].
      * left. eexists.
        eapply predictions_at_obstime_Ok; try done.
        by apply sorted_obs_time_Ok.
      * right. eapply predictions_at_obstime_IndexError; try done.
        apply not_Forall_Exists in Hnot; [|apply _].
        apply Exists_exists in Hnot as (r & Hin & Hr).
        unfold compose in Hr.
        exists r. split; [done|lia].
    + exists i. assert (Hi : i < length y) by (by eapply lookup_lt_Some).
      split; [apply elem_of_seq; lia|].
      destruct (Hobj i Hi) as (lc & grid & yj & k & Hlc & Hlal & Hgrid & Hhk
                               & Hyj & Hkg & Hky & Htr).
      assert (yj = yi) as -> by congruence.
      eapply predictions_at_obstime_IndexError; try done. eauto.
  - destruct (run_grid_entries Processed read_multiple_light_curves
                prepare_input_arrays grid_size st p y)
      as (hs & ys & ts & _ & Hrun & _); try done; [by destruct Hcur|].
    by exists ys, ts, (after_predict p y st).
Qed.

(** X5: when the passbands that some light curve holds have time columns
    of different lengths, the columns cannot be stacked and
    observation-native mode does not return: it raises, for the whole
    batch, what numpy raises for rows of different lengths. Grid-native
    mode, which does not read the light curves, succeeds. *)
Theorem X5_ragged_columns_raise (grid_size : nat) (st : state)
    (p : Prepared) (y : tensor3) (i : nat) (lc : gmap string Frame) :
  process (self st) = Ok p ->
  length (p_objids p) <> 0 ->
  predict (model (self st)) (p_X p) = Ok y ->
  0 < grid_size ->
  parallel p ->
  grids grid_size p ->
  curves grid_size p y ->
  classes y ->
  p_orig_lc p !! i = Some lc ->
  ~ aligned (passbands (self st)) lc ->
  run true st = Raise np.inhomogeneous /\
  exists ys ts st', run false st = Ok (Some (ys, ts), st').
Proof.
  intros Hp Hn Hy Hgs Hpar Hg Hcur Hcl Hlc Hrag. split.
  - destruct (causal_horizon_Ok grid_size (p_timesX p) Hgs Hg)
      as (hs & Hh & Hlh & Hhs).
    destruct Hpar as [Ht Hm Ho]. destruct Hcur as [Hly Hyt].
    assert (Hbad : forall j lcj,
              p_orig_lc p !! j = Some lcj ->
              ~ aligned (passbands (self st)) lcj ->
              predictions_at_obstime (passbands (self st)) p y hs j
              = Raise np.inhomogeneous).
    { intros j lcj Hj Hna. unfold predictions_at_obstime.
      apply index_Ok in Hj. rewrite Hj; cbn [rbind].
      unfold sorted_obs_time, np.select_not_nan.
      unfold aligned in Hna.
      by destruct (np.rectangular _). }
    eapply run_remap_Raise; try done.
    unfold remap. rewrite Hh; cbn [rbind].
    rewrite (rmapM_Raise _ _ np.inhomogeneous); [done| |].
    + intros j Hj. apply elem_of_seq in Hj.
      destruct (lookup_lt_is_Some_2 (p_orig_lc p) j) as [lcj Hlcj]; [lia|].
      destruct (decide (np.rectangular
                          (gather_obs_time (passbands (self st)) lcj) = true))
        as [Hlal|Hna]; [|right; by eapply Hbad].
      left.
      destruct (lookup_lt_is_Some_2 (p_timesX p) j) as [grid Hgrid]; [lia|].
      destruct (lookup_lt_is_Some_2 y j) as [yj Hyj]; [lia|].
      destruct (lookup_lt_is_Some_2 (p_trigger_mjds p) j) as [tr Htr]; [lia|].
      destruct (Hhs j grid Hgrid) as (k & Hk & Hhk & Hle).
      unfold grids in Hg. rewrite Forall_lookup in Hg.
      rewrite Forall_lookup in Hyt. unfold classes in Hcl.
      rewrite Forall_lookup in Hcl.
      specialize (Hg j grid Hgrid). specialize (Hyt j yj Hyj).
      specialize (Hcl j yj Hyj). simpl in Hyt.
      eexists. eapply predictions_at_obstime_Ok; try done;
        [by apply sorted_obs_time_Ok|lia|lia|].
      eapply Forall_impl; [exact Hcl|]. cbv beta. intros r ->. done.
    + exists i. split; [|by eapply Hbad].
      apply elem_of_seq. apply lookup_lt_Some in Hlc. lia.
  - destruct (run_grid_entries Processed read_multiple_light_curves
                prepare_input_arrays grid_size st p y)
      as (hs & ys & ts & _ & Hrun & _); try done; [by destruct Hcur|].
    by exists ys, ts, (after_predict p y st).
Qed.

End Rejected.

(** ** Further properties: values between the grid times *)

(** Inside the span of [xp] the value of [np.interp] is a sample whose
    time equals [x], or the interpolant between two neighbours that
    enclose [x] strictly. *)
Lemma interp1_inside (x : fl) (xp : list fl) :
  Forall is_finite xp ->
  0 < length xp ->
  fle (nth 0 xp NaN) x = true ->
  fle x (nth (length xp - 1) xp NaN) = true ->
  (exists j q qx,
     j < length xp /\ x = Fin qx /\ nth j xp NaN = Fin q /\ (q == qx)%Q /\
     forall fp, np.interp1 x xp fp = nth j fp NaN) \/
  (exists j qx q0 q1,
     S j < length xp /\
     x = Fin qx /\
     nth j xp NaN = Fin q0 /\
     nth (S j) xp NaN = Fin q1 /\
     (q0 < qx)%Q /\ (qx < q1)%Q /\
     forall fp,
       np.interp1 x xp fp
       = np.lerp x (Fin q0) (Fin q1) (nth j fp NaN) (nth (S j) fp NaN)).
Proof.
  intros Hfin Hlen Hfirst Hlast.
  destruct x as [qx|]; [|by destruct (nth 0 xp NaN)].
  destruct (nth 0 xp NaN) as [qf|] eqn:Ef; [|done].
  destruct (nth (length xp - 1) xp NaN) as [ql|] eqn:El; [|done].
  apply fle_Fin in Hfirst, Hlast.
  assert (Efirst : flt (Fin qx) (nth 0 xp NaN) = false).
  { rewrite Ef. apply flt_false_Fin. lra. }
  assert (Elast : flt (nth (length xp - 1) xp NaN) (Fin qx) = false).
  { rewrite El. apply flt_false_Fin. lra. }
  unfold np.interp1. simpl isnan. cbv iota. rewrite Elast, Efirst.
  destruct (search_spec qx xp 0 Hfin Hlen Efirst)
    as (k & Hk & Hlt & Hle & Hnext).
  simpl in Hk. rewrite Hk.
  destruct (nth k xp NaN) as [q0|] eqn:E0; [|done].
  apply fle_Fin in Hle.
  destruct (Nat.eqb_spec k (length xp - 1)) as [Heq|Hne].
  { left. exists k, q0, qx. repeat (split; [done|]).
    split; [|done]. rewrite Heq in E0. rewrite E0 in El.
    injection El as ->. lra. }
  destruct (feqb (Fin q0) (Fin qx)) eqn:Eeq.
  { left. exists k, q0, qx. repeat (split; [done|]).
    split; [|done]. unfold feqb in Eeq. by apply Qeq_bool_iff. }
  right.
  assert (HSk : S k < length xp) by lia.
  specialize (Hnext HSk).
  destruct (nth (S k) xp NaN) as [q1|] eqn:E1; [|done].
  exists k, qx, q0, q1. apply flt_Fin in Hnext.
  repeat (split; [done|]). split; [|done].
  unfold feqb in Eeq. destruct (Qlt_le_dec q0 qx) as [|Hge]; [done|].
  assert (Heq : (q0 == qx)%Q) by lra.
  apply Qeq_bool_iff in Heq. congruence.
Qed.

Lemma ascending_lookup (l : list fl) (i j : nat) (x z : fl) :
  ascending l -> i < j -> l !! i = Some x -> l !! j = Some z ->
  fle x z = true.
Proof.
  unfold ascending. intros Hs. revert i j.
  induction Hs as [|a l Hs IH Ha]; intros i j Hij Hi Hj; [done|].
  destruct j as [|j]; [lia|]. destruct i as [|i]; simpl in *.
  - injection Hi as <-. rewrite Forall_forall in Ha. apply Ha.
    by eapply list_elem_of_lookup_2.
  - apply (IH i j); [lia|done..].
Qed.

Lemma increasing_ascending (l : list fl) : increasing l -> ascending l.
Proof.
  unfold increasing, ascending. induction 1 as [|a l Hs IH Ha]; constructor;
    [done|].
  eapply Forall_impl; [exact Ha|]. intros z Hz.
  destruct a as [qa|], z as [qz|]; try done.
  apply flt_Fin in Hz. apply fle_Fin. lra.
Qed.

Lemma nth_Fin_lookup (l : list fl) (j : nat) (q : Q) :
  nth j l NaN = Fin q -> l !! j = Some (Fin q).
Proof.
  rewrite nth_lookup. destruct (l !! j) as [x|]; simpl; [|done].
  by intros ->.
Qed.

(** On an increasing grid, a time that equals a grid time gets that grid
    point's sample. *)
Lemma interp1_knot (x : fl) (xp : list fl) (j : nat) (t : fl) :
  Forall is_finite xp ->
  increasing xp ->
  xp !! j = Some t ->
  feqb t x = true ->
  forall fp, np.interp1 x xp fp = nth j fp NaN.
Proof.
  intros Hfin Hinc Hj Heq fp.
  pose proof (increasing_ascending _ Hinc) as Hasc.
  destruct t as [qt|], x as [qx|]; try done.
  unfold feqb in Heq. apply Qeq_bool_iff in Heq.
  assert (Hlen : j < length xp) by (by eapply lookup_lt_Some).
  assert (Hcmp : forall k q, xp !! k = Some (Fin q) ->
            (k < j -> (q < qt)%Q) /\ (j < k -> (qt < q)%Q) /\
            (k = j -> q = qt)).
  { intros k q Hk. repeat split.
    - intros Hkj. apply flt_Fin. by eapply (increasing_lookup xp k j).
    - intros Hjk. apply flt_Fin. by eapply (increasing_lookup xp j k).
    - intros ->. congruence. }
  assert (Hfirst : fle (nth 0 xp NaN) (Fin qx) = true).
  { destruct (lookup_lt_is_Some_2 xp 0) as [x0 H0]; [lia|].
    rewrite (nth_lookup_Some _ _ _ _ H0).
    rewrite Forall_lookup in Hfin. pose proof (Hfin 0 x0 H0) as Hf.
    apply is_finite_Fin in Hf as [q0 ->]. apply fle_Fin.
    destruct (Hcmp 0 q0 H0) as (H1 & _ & H3).
    destruct j as [|j']; [rewrite H3 by done; lra|].
    specialize (H1 ltac:(lia)). lra. }
  assert (Hlast : fle (Fin qx) (nth (length xp - 1) xp NaN) = true).
  { destruct (lookup_lt_is_Some_2 xp (length xp - 1)) as [xl Hl]; [lia|].
    rewrite (nth_lookup_Some _ _ _ _ Hl).
    rewrite Forall_lookup in Hfin. pose proof (Hfin _ xl Hl) as Hf.
    apply is_finite_Fin in Hf as [ql ->]. apply fle_Fin.
    destruct (Hcmp _ ql Hl) as (_ & H2 & H3).
    destruct (decide (length xp - 1 = j)) as [E|E];
      [rewrite H3 by done; lra|].
    specialize (H2 ltac:(lia)). lra. }
  destruct (interp1_inside (Fin qx) xp Hfin ltac:(lia) Hfirst Hlast) as
    [(k & q & qx' & Hk & [= <-] & Ek & Eq & Hval)
    |(k & qx' & q0 & q1 & Hk & [= <-] & E0 & E1 & H0 & H1 & Hval)].
  - rewrite Hval. apply nth_Fin_lookup in Ek.
    destruct (Hcmp k q Ek) as (H1 & H2 & _).
    destruct (Nat.lt_trichotomy k j) as [Hlt|[->|Hgt]]; [|done|].
    + specialize (H1 Hlt). lra.
    + specialize (H2 Hgt). lra.
  - apply nth_Fin_lookup in E0, E1.
    destruct (Hcmp k q0 E0) as (_ & H2 & H3).
    destruct (Hcmp (S k) q1 E1) as (H4 & _ & H6).
    destruct (Nat.lt_trichotomy k j) as [Hlt|[->|Hgt]].
    + destruct (decide (S k = j)) as [E|E].
      * rewrite H6 in H1 by done. lra.
      * specialize (H4 ltac:(lia)). lra.
    + rewrite H3 in H0 by done. lra.
    + specialize (H2 Hgt). lra.
Qed.

Lemma lerp_in_unit (qx q0 q1 : Q) (a b : fl) :
  (q0 < qx)%Q -> (qx < q1)%Q -> in_unit a -> in_unit b ->
  in_unit (np.lerp (Fin qx) (Fin q0) (Fin q1) a b).
Proof.
  intros H0 H1 Ha Hb. destruct a as [qa|], b as [qb|]; try done.
  rewrite lerp_finite by lra. simpl in *.
  set (t := ((qx - q0) / (q1 - q0))%Q).
  assert (Ht0 : (0 <= t)%Q) by (unfold t; apply Qle_shift_div_l; lra).
  assert (Ht1 : (t <= 1)%Q) by (unfold t; apply Qle_shift_div_r; lra).
  assert (E : ((qb - qa) / (q1 - q0) * (qx - q0) + qa
               == (1 - t) * qa + t * qb)%Q) by (unfold t; field; lra).
  rewrite E. split; nra.
Qed.

(** The vector reported at a finite observation time has entries between
    0 and 1 when the rows below the horizon have. *)
Lemma vector_at_in_unit (grid : list fl) (yi : tensor2) (h : nat) (x : fl) :
  is_finite x ->
  Forall is_finite (take h grid) ->
  0 < h <= length grid ->
  (forall j, j < h ->
     length (nth j yi []) = length CLASS_NAMES /\
     Forall in_unit (nth j yi [])) ->
  Forall in_unit (vector_at grid yi h x).
Proof.
  intros Hx Hfin Hh Hrows.
  assert (Hlen : length (take h grid) = h) by (rewrite length_take; lia).
  destruct (interp1_cases x (take h grid) Hx Hfin) as
    [(j & Hj & Hval)|(j & qx & q0 & q1 & Hj & -> & E0 & E1 & H0 & H1 & Hval)];
    [lia| |].
  - rewrite Hlen in Hj. destruct (Hrows j Hj) as [Hl Hu].
    by rewrite (vector_at_sample grid yi h j x).
  - rewrite Hlen in Hj.
    destruct (Hrows j) as [Hla Hua]; [lia|].
    destruct (Hrows (S j) Hj) as [Hlb Hub].
    assert (Hv : vector_at grid yi h (Fin qx)
                 = zip_with (np.lerp (Fin qx) (Fin q0) (Fin q1))
                     (nth j yi []) (nth (S j) yi [])).
    { unfold vector_at.
      rewrite <- (map_nth_zip_with _ _ _ NaN (length CLASS_NAMES)) by done.
      apply map_ext. intros c.
      rewrite Hval, !nth_take_class_curve by lia. done. }
    rewrite Hv. apply Forall_lookup. intros c v Hc.
    apply lookup_zip_with_Some in Hc as (a & b & -> & Ha & Hb).
    rewrite Forall_lookup in Hua. rewrite Forall_lookup in Hub.
    apply lerp_in_unit; eauto.
Qed.

Lemma shift_ascending (l : list fl) (t : Q) :
  Forall is_finite l -> ascending l ->
  ascending (shift l (Fin t)) /\ Forall is_finite (shift l (Fin t)).
Proof.
  unfold ascending, shift. intros Hfin Hs.
  induction Hs as [|a l Hs IH Ha]; simpl.
  - split; constructor.
  - apply Forall_cons in Hfin as [Hfa Hfl].
    destruct (IH Hfl) as [IH1 IH2].
    apply is_finite_Fin in Hfa as [qa ->].
    split; [|by constructor].
    constructor; [done|].
    apply Forall_forall. intros z Hz.
    apply list_elem_of_fmap in Hz as (w & -> & Hw).
    rewrite Forall_forall in Ha. specialize (Ha w Hw).
    destruct w as [qw|]; [|done].
    apply fle_Fin in Ha. simpl. apply fle_Fin. lra.
Qed.

Section Between.

Variable Processed : Type.
Variable read_multiple_light_curves :
  list LightCurve -> bool -> result Processed.
Variable prepare_input_arrays :
  list string -> list nat -> bool -> option fl -> Processed -> result Prepared.

Local Abbreviation process :=
  (process_light_curves Processed read_multiple_light_curves
     prepare_input_arrays).
Local Abbreviation run :=
  (get_predictions Processed read_multiple_light_curves prepare_input_arrays).

(** X6: when the truncated time grid of an object is strictly increasing,
    an observation that falls on one of its grid times gets, in
    observation-native mode, the very row the model gave for that grid
    point, which is the row grid-native mode reports at that index. *)
Theorem X6_observation_on_grid_time (grid_size : nat) (st : state)
    (p : Prepared) (y : tensor3) (hs : list nat) :
  process (self st) = Ok p ->
  length (p_objids p) <> 0 ->
  predict (model (self st)) (p_X p) = Ok y ->
  0 < grid_size ->
  parallel p ->
  grids grid_size p ->
  curves grid_size p y ->
  classes y ->
  Forall (aligned (passbands (self st))) (p_orig_lc p) ->
  causal_horizon (p_timesX p) = Ok hs ->
  (forall i grid h,
     p_timesX p !! i = Some grid -> hs !! i = Some h ->
     Forall is_finite (take h grid) /\ increasing (take h grid)) ->
  exists ys ts st',
    run true st = Ok (Some (ys, ts), st') /\
    forall i, i < length (p_objids p) ->
      exists lc grid yi h obs_time curve,
        p_orig_lc p !! i = Some lc /\
        p_timesX p !! i = Some grid /\
        y !! i = Some yi /\
        hs !! i = Some h /\
        sorted_obs_time (passbands (self st)) lc = Ok obs_time /\
        ys !! i = Some curve /\
        forall m x j t,
          obs_time !! m = Some x ->
          j < h ->
          grid !! j = Some t ->
          feqb t x = true ->
          curve !! m = take h yi !! j.
Proof.
  intros Hp Hn Hy Hgs Hpar Hg Hcur Hcl Hal Hhs Hgrid.
  destruct (run_obstime_entries Processed read_multiple_light_curves
              prepare_input_arrays grid_size st p y)
    as (hs' & ys & ts & Hh & Hrun & Hlys & Hlts & Hent); try done.
  assert (hs' = hs) as -> by congruence.
  exists ys, ts, (after_predict p y st). split; [done|].
  intros i Hi.
  destruct (Hent i Hi)
    as (lc & grid & yi & tr & k & obs & Hlc & Hgr & Hyi & Htr & _ & Hhk & Hle
        & Hobs & Hys & Hts).
  exists lc, grid, yi, (S k), obs, (map (vector_at grid yi (S k)) obs).
  repeat (split; [done|]).
  destruct (Hgrid i grid (S k) Hgr Hhk) as [Hgfin Hginc].
  unfold grids in Hg. rewrite Forall_lookup in Hg.
  specialize (Hg i grid Hgr).
  destruct Hcur as [Hly Hyt]. rewrite Forall_lookup in Hyt.
  specialize (Hyt i yi Hyi). simpl in Hyt.
  unfold classes in Hcl. rewrite Forall_lookup in Hcl.
  specialize (Hcl i yi Hyi). rewrite Forall_lookup in Hcl.
  intros m x j t Hx Hj Ht Heq.
  change (map ?f ?l) with (f <$> l). rewrite list_lookup_fmap, Hx.
  cbn [fmap option_fmap option_map].
  destruct (lookup_lt_is_Some_2 yi j) as [r Hr]; [lia|].
  rewrite lookup_take_lt, Hr by done. f_equal.
  rewrite <- (nth_lookup_Some _ _ [] _ Hr).
  apply vector_at_sample; [done| |].
  - rewrite (nth_lookup_Some _ _ _ _ Hr). by eapply Hcl.
  - apply (interp1_knot x (take (S k) grid) j t); try done.
    by rewrite lookup_take_lt.
Qed.

(** X7: observation-native mode turns probability distributions into
    probability distributions: when every row of the model output below an
    object's causal horizon has entries between 0 and 1 that sum to 1, so
    has every vector reported for that object, the sum being exactly 1. *)
Theorem X7_distributions_preserved (grid_size : nat) (st : state)
    (p : Prepared) (y : tensor3) (hs : list nat) :
  process (self st) = Ok p ->
  length (p_objids p) <> 0 ->
  predict (model (self st)) (p_X p) = Ok y ->
  0 < grid_size ->
  parallel p ->
  grids grid_size p ->
  curves grid_size p y ->
  classes y ->
  Forall (aligned (passbands (self st))) (p_orig_lc p) ->
  causal_horizon (p_timesX p) = Ok hs ->
  (forall i grid h,
     p_timesX p !! i = Some grid -> hs !! i = Some h ->
     Forall is_finite (take h grid) /\ ascending (take h grid)) ->
  (forall i yi h j row,
     y !! i = Some yi -> hs !! i = Some h ->
     yi !! j = Some row -> j < h -> distribution row) ->
  exists ys ts st',
    run true st = Ok (Some (ys, ts), st') /\
    forall curve row, curve ∈ ys -> row ∈ curve -> distribution row.
Proof.
  intros Hp Hn Hy Hgs Hpar Hg Hcur Hcl Hal Hhs Hgrid Hdist.
  destruct (run_obstime_entries Processed read_multiple_light_curves
              prepare_input_arrays grid_size st p y)
    as (hs' & ys & ts & Hh & Hrun & Hlys & _ & Hent); try done.
  assert (hs' = hs) as -> by congruence.
  exists ys, ts, (after_predict p y st). split; [done|].
  intros curve row Hcurve Hrow.
  apply list_elem_of_lookup in Hcurve as [i Hi].
  assert (Hlt : i < length (p_objids p)).
  { rewrite <- Hlys. by eapply lookup_lt_Some. }
  destruct (Hent i Hlt)
    as (lc & grid & yi & tr & k & obs & _ & Hgr & Hyi & _ & _ & Hhk & Hle
        & Hobs & Hys & _).
  assert (curve = map (vector_at grid yi (S k)) obs) as -> by congruence.
  apply list_elem_of_fmap in Hrow as (x & -> & Hx).
  destruct (sorted_obs_time_spec _ _ _ Hobs) as (_ & Hfin & _).
  rewrite Forall_forall in Hfin.
  destruct (Hgrid i grid (S k) Hgr Hhk) as [Hgfin _].
  unfold grids in Hg. rewrite Forall_lookup in Hg.
  specialize (Hg i grid Hgr).
  destruct Hcur as [Hly Hyt]. rewrite Forall_lookup in Hyt.
  specialize (Hyt i yi Hyi). simpl in Hyt.
  unfold classes in Hcl. rewrite Forall_lookup in Hcl.
  specialize (Hcl i yi Hyi). rewrite Forall_lookup in Hcl.
  assert (Hrows : forall j, j < S k ->
            length (nth j yi []) = length CLASS_NAMES /\
            distribution (nth j yi [])).
  { intros j Hj. destruct (lookup_lt_is_Some_2 yi j) as [r Hr]; [lia|].
    rewrite (nth_lookup_Some _ _ _ _ Hr).
    split; [by eapply Hcl|by eapply Hdist]. }
  split.
  - apply vector_at_in_unit; [by apply Hfin|done|lia|].
    intros j Hj. destruct (Hrows j Hj) as [Hl [Hu _]]. done.
  - destruct (vector_at_sums_to_one 0 grid yi (S k) x) as (s & Hs & Es);
      [by apply Hfin|done|lia| |].
    + intros j Hj. destruct (Hrows j Hj) as [Hl Hd].
      split; [done|]. apply distribution_sums_to_one; [lra|done].
    + exists s. split; [done|].
      apply Qabs_Qle_condition in Es. lra.
Qed.

(** X8: the time axis that observation-native mode returns for an object
    with a finite trigger epoch has no NaN and is in non-decreasing
    order. *)
Theorem X8_time_axis_sorted (grid_size : nat) (st : state) (p : Prepared)
    (y : tensor3) :
  process (self st) = Ok p ->
  length (p_objids p) <> 0 ->
  predict (model (self st)) (p_X p) = Ok y ->
  0 < grid_size ->
  parallel p ->
  grids grid_size p ->
  curves grid_size p y ->
  classes y ->
  Forall (aligned (passbands (self st))) (p_orig_lc p) ->
  exists ys ts st',
    run true st = Ok (Some (ys, ts), st') /\
    forall i times t,
      ts !! i = Some times ->
      p_trigger_mjds p !! i = Some (Fin t) ->
      Forall is_finite times /\ ascending times.
Proof.
  intros Hp Hn Hy Hgs Hpar Hg Hcur Hcl Hal.
  destruct (run_obstime_entries Processed read_multiple_light_curves
              prepare_input_arrays grid_size st p y)
    as (hs & ys & ts & Hh & Hrun & _ & Hlts & Hent); try done.
  exists ys, ts, (after_predict p y st). split; [done|].
  intros i times t Hi Htr.
  assert (Hlt : i < length (p_objids p)).
  { rewrite <- Hlts. by eapply lookup_lt_Some. }
  destruct (Hent i Hlt)
    as (lc & grid & yi & tr & k & obs & _ & _ & _ & Htr' & _ & _ & _
        & Hobs & _ & Hts).
  assert (tr = Fin t) as -> by congruence.
  assert (times = shift obs (Fin t)) as -> by congruence.
  destruct (sorted_obs_time_spec _ _ _ Hobs) as (_ & Hfin & Hasc).
  destruct (shift_ascending obs t Hfin Hasc). done.
Qed.

(** X9: when the curve of one class of an object is a linear function
    [a * t + b] of the grid time [t] below the causal horizon, the
    probability that observation-native mode reports for that class at an
    observation time [x] inside the span of the truncated grid is
    [a * x + b]. *)
Theorem X9_linear_curve_reproduced (grid_size : nat) (st : state)
    (p : Prepared) (y : tensor3) (hs : list nat) (i c : nat) (a b : Q) :
  process (self st) = Ok p ->
  length (p_objids p) <> 0 ->
  predict (model (self st)) (p_X p) = Ok y ->
  0 < grid_size ->
  parallel p ->
  grids grid_size p ->
  curves grid_size p y ->
  classes y ->
  Forall (aligned (passbands (self st))) (p_orig_lc p) ->
  causal_horizon (p_timesX p) = Ok hs ->
  (forall i grid h,
     p_timesX p !! i = Some grid -> hs !! i = Some h ->
     Forall is_finite (take h grid) /\ ascending (take h grid)) ->
  i < length (p_objids p) ->
  c < length CLASS_NAMES ->
  (forall grid yi h j t row,
     p_timesX p !! i = Some grid -> y !! i = Some yi -> hs !! i = Some h ->
     j < h -> grid !! j = Some (Fin t) -> yi !! j = Some row ->
     exists v, row !! c = Some (Fin v) /\ (v == a * t + b)%Q) ->
  exists ys ts st' lc grid h obs_time curve,
    run true st = Ok (Some (ys, ts), st') /\
    p_orig_lc p !! i = Some lc /\
    p_timesX p !! i = Some grid /\
    hs !! i = Some h /\
    sorted_obs_time (passbands (self st)) lc = Ok obs_time /\
    ys !! i = Some curve /\
    forall m x,
      obs_time !! m = Some (Fin x) ->
      fle (nth 0 grid NaN) (Fin x) = true ->
      fle (Fin x) (nth (h - 1) grid NaN) = true ->
      exists vector v,
        curve !! m = Some vector /\
        vector !! c = Some (Fin v) /\
        (v == a * x + b)%Q.
Proof.
  intros Hp Hn Hy Hgs Hpar Hg Hcur Hcl Hal Hhs Hgrid Hi Hc Hlin.
  destruct (run_obstime_entries Processed read_multiple_light_curves
              prepare_input_arrays grid_size st p y)
    as (hs' & ys & ts & Hh & Hrun & Hlys & Hlts & Hent); try done.
  assert (hs' = hs) as -> by congruence.
  destruct (Hent i Hi)
    as (lc & grid & yi & tr & k & obs & Hlc & Hgr & Hyi & Htr & _ & Hhk & Hle
        & Hobs & Hys & Hts).
  exists ys, ts, (after_predict p y st), lc, grid, (S k), obs,
    (map (vector_at grid yi (S k)) obs).
  repeat (split; [done|]).
  destruct (Hgrid i grid (S k) Hgr Hhk) as [Hgfin Hgasc].
  unfold grids in Hg. rewrite Forall_lookup in Hg.
  specialize (Hg i grid Hgr).
  destruct Hcur as [Hly Hyt]. rewrite Forall_lookup in Hyt.
  specialize (Hyt i yi Hyi). simpl in Hyt.
  assert (Hlen : length (take (S k) grid) = S k)
    by (rewrite length_take; lia).
  assert (Hval : forall j t, j < S k -> nth j (take (S k) grid) NaN = Fin t ->
            exists v, nth j (take (S k) (class_curve yi c)) NaN = Fin v /\
                      (v == a * t + b)%Q).
  { intros j t Hj Ht. rewrite nth_take_lt in Ht by done.
    apply nth_Fin_lookup in Ht.
    destruct (lookup_lt_is_Some_2 yi j) as [r Hr]; [lia|].
    destruct (Hlin grid yi (S k) j t r) as (v & Hv & Ev); try done.
    exists v. split; [|done].
    rewrite nth_take_class_curve, (nth_lookup_Some _ _ _ _ Hr) by done.
    by apply nth_lookup_Some. }
  intros m x Hx Hlo Hhi.
  change (map ?f ?l) with (f <$> l). rewrite list_lookup_fmap, Hx.
  cbn [fmap option_fmap option_map].
  assert (Hentry : vector_at grid yi (S k) (Fin x) !! c
                   = Some (np.interp1 (Fin x) (take (S k) grid)
                             (take (S k) (class_curve yi c)))).
  { unfold vector_at. change (map ?f ?l) with (f <$> l).
    by rewrite list_lookup_fmap, lookup_seq_lt. }
  destruct (interp1_inside (Fin x) (take (S k) grid) Hgfin) as
    [(j & q & qx & Hj & [= <-] & Ej & Eq & Hv)
    |(j & qx & q0 & q1 & Hj & [= <-] & E0 & E1 & H0 & H1 & Hv)].
  - lia.
  - by rewrite nth_take_lt by lia.
  - by rewrite Hlen, nth_take_lt by lia.
  - rewrite Hlen in Hj. destruct (Hval j q Hj Ej) as (v & Hfv & Ev).
    eexists _, v. split; [done|]. rewrite Hentry, Hv, Hfv.
    split; [done|]. rewrite Ev, Eq. reflexivity.
  - rewrite Hlen in Hj.
    destruct (Hval j q0 ltac:(lia) E0) as (v0 & Hf0 & Ev0).
    destruct (Hval (S j) q1 Hj E1) as (v1 & Hf1 & Ev1).
    eexists _, _. split; [done|]. rewrite Hentry, Hv, Hf0, Hf1.
    rewrite lerp_finite by lra. split; [done|].
    rewrite Ev0, Ev1. field. lra.
Qed.

End Between.

(** ** Further properties: construction *)

Section Constructed.

Variable os_path_exists : string -> bool.
Variable os_path_join : string -> string -> string.
Variable SCRIPT_DIR : string.
Variable resource_filename : string -> string -> string.
Variable load_model : string -> result Model.

Local Abbreviation construct :=
  (__init__ os_path_exists os_path_join SCRIPT_DIR resource_filename
     load_model).

Lemma init_log (lcs : list LightCurve) (kr : bool) (mf : string)
    (pbs : list string) (bc : bool) (zc : option fl) (g : option Graph)
    (m : option Model) (st : state) :
  construct lcs kr mf pbs bc zc g m = Ok st ->
  log st
  = Print (model_filepath (self st)) ::
    (if snd (select_model_filepath os_path_exists os_path_join SCRIPT_DIR
               resource_filename mf (snd (variant kr)))
     then [Print "Invalid keras model. Using default model..."]
     else []).
Proof.
  unfold __init__.
  destruct (variant kr) as [ci filename].
  destruct (select_model_filepath _ _ _ _ _ _) as [path custom].
  cbn [fst snd].
  destruct (match g with Some _ => _ | None => _ end) as [mo|] eqn:E;
    cbn [rbind]; [|done].
  intros [= <-]. done.
Qed.

(** X10: when no existing custom model file is given and the default file
    of the variant is not beside the module, the constructor selects the
    packaged with-redshift model file whatever the known-redshift flag is,
    and loads it unless a graph and a model are passed in; with the flag
    off the object then has no contextual feature and the with-redshift
    model file. *)
Theorem X10_fallback_ignores_flag (lcs : list LightCurve) (kr : bool)
    (mf : string) (pbs : list string) (bc : bool) (zc : option fl)
    (g : option Graph) (m : option Model) (st : state) :
  construct lcs kr mf pbs bc zc g m = Ok st ->
  negb (String.eqb mf "") && os_path_exists mf = false ->
  os_path_exists (os_path_join SCRIPT_DIR (default_filename kr)) = false ->
  model_filepath (self st)
  = resource_filename "astrorapid.classify" "keras_model_with_redshift.hdf5" /\
  contextual_info (self st) = (if kr then [0] else []) /\
  (g = None \/ m = None ->
   load_model
     (resource_filename "astrorapid.classify" "keras_model_with_redshift.hdf5")
   = Ok (model (self st))).
Proof.
  intros H Hcustom Hdefault.
  destruct (init_Ok _ _ _ _ _ _ _ _ _ _ _ _ _ _ H) as (Hkr & Hci & Hmf & Hm).
  assert (Hpath : model_filepath (self st)
                  = resource_filename "astrorapid.classify"
                      "keras_model_with_redshift.hdf5").
  { rewrite Hmf. unfold select_model_filepath.
    replace (snd (variant kr)) with (default_filename kr) by (by destruct kr).
    by rewrite Hcustom, Hdefault. }
  split; [done|]. split; [rewrite Hci; by destruct kr|].
  rewrite <- Hpath. intros [-> | ->]; [done|by destruct g].
Qed.

(** X11: the constructor prints the notice that the model is invalid and
    the default is used exactly when a custom model file is given and
    exists, and in that case it is the custom file that it selects; the
    last line printed is always the selected path. *)
Theorem X11_notice_printed_with_custom_file (lcs : list LightCurve)
    (kr : bool) (mf : string) (pbs : list string) (bc : bool)
    (zc : option fl) (g : option Graph) (m : option Model) (st : state) :
  construct lcs kr mf pbs bc zc g m = Ok st ->
  (negb (String.eqb mf "") && os_path_exists mf = true ->
   model_filepath (self st) = mf /\
   log st = [Print mf; Print "Invalid keras model. Using default model..."]) /\
  (negb (String.eqb mf "") && os_path_exists mf = false ->
   log st = [Print (model_filepath (self st))]).
Proof.
  intros H.
  destruct (init_Ok _ _ _ _ _ _ _ _ _ _ _ _ _ _ H) as (_ & _ & Hmf & _).
  pose proof (init_log _ _ _ _ _ _ _ _ _ H) as Hlog.
  unfold select_model_filepath in Hmf, Hlog.
  split; intros Hc; rewrite Hc in Hmf, Hlog; cbn [fst snd] in *.
  - by rewrite Hlog, Hmf.
  - rewrite Hlog.
    by destruct (negb (os_path_exists _)).
Qed.

End Constructed.

(** ** Further properties: plotting *)

Section Plots.

Variable Processed : Type.
Variable read_multiple_light_curves :
  list LightCurve -> bool -> result Processed.
Variable prepare_input_arrays :
  list string -> list nat -> bool -> option fl -> Processed -> result Prepared.

Local Abbreviation process :=
  (process_light_curves Processed read_multiple_light_curves
     prepare_input_arrays).
Local Abbreviation run :=
  (get_predictions Processed read_multiple_light_curves prepare_input_arrays).
Local Abbreviation plot :=
  (plot_light_curves_and_classifications Processed
     read_multiple_light_curves prepare_input_arrays).

(** Plotting on an object that holds predictions. *)
Lemma plot_cached (l : list nat) (step use_interp_flux : bool) (st : state)
    (p : Prepared) (y : tensor3) :
  arrays (self st) = Some p ->
  y_predict (self st) = Some y ->
  plot (Some l) step use_interp_flux st
  = match rmapM (plot_one (self st) step use_interp_flux) l with
    | Ok drawn => Ok ((p_orig_lc p, p_timesX p, y, concat drawn), st)
    | Raise e => Raise e
    end.
Proof.
  intros Ha Hy.
  unfold plot_light_curves_and_classifications, bind, lift, get_self, ret.
  rewrite Hy.
  destruct (rmapM _ l) as [drawn|]; [|done].
  unfold getattr_arrays, getattr_y_predict. by rewrite Ha, Hy.
Qed.

Lemma plot_all_cached (step use_interp_flux : bool) (st : state)
    (y : tensor3) :
  y_predict (self st) = Some y ->
  plot None step use_interp_flux st
  = plot (Some (seq 0 (length y))) step use_interp_flux st.
Proof.
  intros Hy.
  unfold plot_light_curves_and_classifications, bind, lift, get_self, ret.
  unfold getattr_y_predict at 1. by rewrite Hy.
Qed.

(** X12: called with the default [indexes_to_plot] on an object on which
    [get_predictions] has not run, the plotting method raises
    [AttributeError] for [y_predict]: the length of [self.y_predict] is
    taken before the check that would compute the predictions. *)
Theorem X12_default_indexes_before_predictions (step use_interp_flux : bool)
    (st : state) :
  y_predict (self st) = None ->
  plot None step use_interp_flux st = Raise (AttributeError "y_predict").
Proof.
  intros Hy.
  unfold plot_light_curves_and_classifications, bind, lift, get_self.
  unfold getattr_y_predict. by rewrite Hy.
Qed.

(** X13: on an object that holds predictions the plotting method runs
    neither the preprocessing nor the model, whatever indexes it is given:
    when it returns, the object and the log of printed lines and model
    calls are as before, and the tuple returned is the cached light curves,
    time grids and untruncated model output. *)
Theorem X13_plot_uses_cached_predictions
    (indexes_to_plot : option (list nat)) (step use_interp_flux : bool)
    (st st' : state) (p : Prepared) (y : tensor3)
    (returned : list (gmap string Frame) * tensor2 * tensor3)
    (drawn : list drawing) :
  arrays (self st) = Some p ->
  y_predict (self st) = Some y ->
  plot indexes_to_plot step use_interp_flux st = Ok ((returned, drawn), st') ->
  st' = st /\ returned = (p_orig_lc p, p_timesX p, y).
Proof.
  intros Ha Hy H.
  assert (H' : exists l, plot (Some l) step use_interp_flux st
                         = Ok ((returned, drawn), st')).
  { destruct indexes_to_plot as [l|]; [eauto|].
    rewrite (plot_all_cached _ _ _ y) in H by done. eauto. }
  destruct H' as [l Hl]. rewrite (plot_cached _ _ _ _ p y) in Hl by done.
  destruct (rmapM _ l); [|done]. by injection Hl as <- <- <-.
Qed.

Lemma run_Some_y_predict (b : bool) (st st1 : state)
    (out : list tensor2 * tensor2) :
  run b st = Ok (Some out, st1) ->
  exists p y, arrays (self st1) = Some p /\ y_predict (self st1) = Some y.
Proof.
  rewrite run_unfold.
  destruct (process (self st)) as [p|]; [|done].
  destruct (Nat.eqb _ 0); [done|].
  destruct (predict _ _) as [y|]; [|done].
  destruct (remap _ _ _ _); [|done].
  intros [= _ <-]. by exists p, y.
Qed.

(** X14: given explicit indexes on an object without predictions, the
    plotting method first calls [get_predictions] in grid-native mode and
    then plots as if that call had been made beforehand. *)
Theorem X14_plot_computes_missing_predictions (l : list nat)
    (step use_interp_flux : bool) (st st1 : state)
    (out : list tensor2 * tensor2) :
  y_predict (self st) = None ->
  run false st = Ok (Some out, st1) ->
  plot (Some l) step use_interp_flux st
  = plot (Some l) step use_interp_flux st1.
Proof.
  intros Hy Hrun.
  destruct (run_Some_y_predict _ _ _ _ Hrun) as (p & y & Ha1 & Hy1).
  rewrite (plot_cached l _ _ st1 p y) by done.
  unfold plot_light_curves_and_classifications, bind, lift, get_self, ret.
  rewrite Hy, Hrun.
  destruct (rmapM _ l) as [drawn|]; [|done].
  unfold getattr_arrays, getattr_y_predict. by rewrite Ha1, Hy1.
Qed.

(** X15: when no object survives, the plotting method given explicit
    indexes on an object without predictions prints the notice of
    [get_predictions] and then raises: [IndexError] on the first index, or
    [AttributeError] for [y_predict] when there is no index to plot. *)
Theorem X15_plot_without_objects_raises (l : list nat)
    (step use_interp_flux : bool) (st : state) (p : Prepared) :
  y_predict (self st) = None ->
  process (self st) = Ok p ->
  p_objids p = [] ->
  p_timesX p = [] ->
  run false st = Ok (None, after_empty p st) /\
  plot (Some l) step use_interp_flux st
  = Raise (match l with
           | [] => AttributeError "y_predict"
           | _ :: _ => IndexError
           end).
Proof.
  intros Hy Hp Hn Ht.
  assert (Hrun : run false st = Ok (None, after_empty p st)).
  { apply run_empty; [done|]. by rewrite Hn. }
  split; [done|].
  unfold plot_light_curves_and_classifications, bind, lift, get_self, ret.
  rewrite Hy, Hrun. cbn [self after_empty].
  destruct l as [|idx l].
  - cbn [rmapM]. unfold getattr_arrays, getattr_y_predict.
    cbn [arrays y_predict set_arrays]. by rewrite Hy.
  - cbn [rmapM]. unfold plot_one at 1. unfold getattr_arrays at 1.
    cbn [arrays set_arrays rbind]. rewrite Ht. done.
Qed.

End Plots.

(** ** Further properties: what is drawn *)

Lemma rmapM_Ok_exists {A B} (f : A -> result B) (xs : list A) :
  (forall x, x ∈ xs -> exists y, f x = Ok y) ->
  exists ys, rmapM f xs = Ok ys.
Proof.
  induction xs as [|x xs IH]; intros H; [by exists []|].
  destruct (H x) as [y Hy]; [by left|].
  destruct IH as [ys Hys]; [intros z Hz; apply H; by right|].
  exists (y :: ys). cbn [rmapM]. by rewrite Hy, Hys.
Qed.

Lemma rmapM_app_Raise {A B} (f : A -> result B) (pre post : list A) (x : A)
    (e : exn) :
  (forall z, z ∈ pre -> exists y, f z = Ok y) ->
  f x = Raise e ->
  rmapM f (pre ++ x :: post) = Raise e.
Proof.
  induction pre as [|z pre IH]; intros Hpre Hx; cbn [app rmapM].
  - by rewrite Hx.
  - destruct (Hpre z) as [y Hy]; [by left|]. rewrite Hy. cbn [rbind].
    rewrite IH; [done| |done]. intros w Hw. apply Hpre. by right.
Qed.

Lemma marker_Ok (pb : string) :
  pb = "g" \/ pb = "r" ->
  exists fmt c, getitem PB_MARKER pb = Ok fmt /\ getitem PB_COLOR pb = Ok c.
Proof. intros [-> | ->]; eexists _, _; split; by vm_compute. Qed.

Lemma marker_missing (pb : string) :
  pb <> "g" -> pb <> "r" -> getitem PB_MARKER pb = Raise (KeyError pb).
Proof.
  intros Hg Hr. unfold getitem, PB_MARKER.
  rewrite lookup_insert_ne by done. by rewrite lookup_singleton_ne.
Qed.

Lemma class_color_Ok (classnum : nat) (classname : string) :
  CLASS_NAMES !! classnum = Some classname ->
  exists color, getitem CLASS_COLOR classname = Ok color.
Proof.
  intros H. do 13 (destruct classnum as [|classnum];
    [injection H as <-; eexists; by vm_compute|]).
  done.
Qed.

Lemma errorbar_Ok (frame : Frame) (fmt label c : string) :
  tabular frame ->
  errorbar (time frame) (flux frame) (fluxErr frame) fmt label c
  = Ok (Errorbar (time frame) (flux frame) (fluxErr frame) fmt label c).
Proof.
  intros [H1 H2]. unfold errorbar.
  by rewrite H1, H2, !Nat.eqb_refl.
Qed.

(** One pass of the loop that draws the error bars. *)
Lemma errorbars_step_Ok (self : Classify) (p : Prepared) (idx : nat)
    (lc : gmap string Frame) (pb : string) :
  arrays self = Some p ->
  p_orig_lc p !! idx = Some lc ->
  (forall frame, lc !! pb = Some frame ->
     (pb = "g" \/ pb = "r") /\ tabular frame) ->
  exists bars,
    rbind (getattr_arrays "orig_lc" self) (fun p =>
    rbind (index (p_orig_lc p) idx) (fun lc =>
    match lc !! pb with
    | Some frame =>
        rbind (getitem PB_MARKER pb) (fun fmt =>
        rbind (getitem PB_COLOR pb) (fun c =>
        rbind (errorbar (time frame) (flux frame) (fluxErr frame) fmt pb c)
          (fun d => Ok [d])))
    | None => Ok []
    end)) = Ok bars.
Proof.
  intros Ha Hlc Hd. unfold getattr_arrays. rewrite Ha. cbn [rbind].
  apply index_Ok in Hlc. rewrite Hlc. cbn [rbind].
  destruct (lc !! pb) as [frame|]; [|by eexists].
  destruct (Hd frame eq_refl) as [Hpb Htab].
  destruct (marker_Ok pb Hpb) as (fmt & c & -> & ->). cbn [rbind].
  rewrite errorbar_Ok by done. by eexists.
Qed.

Lemma errorbars_Ok (self : Classify) (p : Prepared) (idx : nat)
    (lc : gmap string Frame) :
  arrays self = Some p ->
  p_orig_lc p !! idx = Some lc ->
  drawable (passbands self) lc ->
  exists bars, errorbars self idx = Ok bars.
Proof.
  intros Ha Hlc Hd. unfold errorbars. apply rmapM_Ok_exists.
  intros pb Hpb. eapply errorbars_step_Ok; try done.
  intros frame Hf. by apply Hd.
Qed.

(** With every configured passband present, the plotted times are the
    times of observation-native mode. *)
Lemma plotted_rows_Ok (self : Classify) (p : Prepared) (idx : nat)
    (lc : gmap string Frame) (pbs : list string) :
  arrays self = Some p ->
  p_orig_lc p !! idx = Some lc ->
  Forall (fun pb => is_Some (lc !! pb)) pbs ->
  rmapM
    (fun pb =>
       rbind (getattr_arrays "orig_lc" self) (fun p =>
       rbind (index (p_orig_lc p) idx) (fun lc =>
       rbind (getitem lc pb) (fun frame => Ok (time frame)))))
    pbs
  = Ok (gather_obs_time pbs lc).
Proof.
  intros Ha Hlc Hall. apply index_Ok in Hlc.
  induction Hall as [|pb pbs [frame Hf] Hall IH]; [done|].
  cbn [rmapM]. unfold getattr_arrays at 1. rewrite Ha. cbn [rbind].
  rewrite Hlc. cbn [rbind]. unfold getitem at 1. rewrite Hf. cbn [rbind].
  rewrite IH. cbn [rbind]. unfold gather_obs_time. cbn [omap list_omap].
  by rewrite Hf.
Qed.

Lemma plotted_times_Ok (self : Classify) (p : Prepared) (idx : nat)
    (lc : gmap string Frame) :
  arrays self = Some p ->
  p_orig_lc p !! idx = Some lc ->
  Forall (fun pb => is_Some (lc !! pb)) (passbands self) ->
  plotted_times self idx = sorted_obs_time (passbands self) lc.
Proof.
  intros Ha Hlc Hall. unfold plotted_times, sorted_obs_time.
  by rewrite (plotted_rows_Ok self p idx lc).
Qed.

Lemma plotted_times_KeyError (self : Classify) (p : Prepared) (idx : nat)
    (lc : gmap string Frame) (pre post : list string) (pb : string) :
  arrays self = Some p ->
  p_orig_lc p !! idx = Some lc ->
  passbands self = pre ++ pb :: post ->
  Forall (fun q => is_Some (lc !! q)) pre ->
  lc !! pb = None ->
  plotted_times self idx = Raise (KeyError pb).
Proof.
  intros Ha Hlc Hpbs Hpre Hpb. unfold plotted_times. rewrite Hpbs.
  apply index_Ok in Hlc.
  rewrite (rmapM_app_Raise _ _ _ _ (KeyError pb)); [done| |].
  - intros q Hq. rewrite Forall_forall in Hpre.
    destruct (Hpre q Hq) as [frame Hf].
    unfold getattr_arrays. rewrite Ha. cbn [rbind]. rewrite Hlc.
    cbn [rbind]. unfold getitem. rewrite Hf. by eexists.
  - unfold getattr_arrays. rewrite Ha. cbn [rbind]. rewrite Hlc.
    cbn [rbind]. unfold getitem. by rewrite Hpb.
Qed.

Section Drawn.

Variable Processed : Type.
Variable read_multiple_light_curves :
  list LightCurve -> bool -> result Processed.
Variable prepare_input_arrays :
  list string -> list nat -> bool -> option fl -> Processed -> result Prepared.

Local Abbreviation plot :=
  (plot_light_curves_and_classifications Processed
     read_multiple_light_curves prepare_input_arrays).

(** X16: the plotting method needs every configured passband in the light
    curve it plots. Where [get_predictions] skips an absent passband, the
    plotting method reads its time column without a check and raises
    [KeyError] for the first configured passband that the light curve
    lacks. *)
Theorem X16_plot_needs_every_passband (idx : nat) (rest : list nat)
    (step use_interp_flux : bool) (st : state) (p : Prepared) (y : tensor3)
    (grid : list fl) (lc : gmap string Frame) (pre post : list string)
    (pb : string) :
  arrays (self st) = Some p ->
  y_predict (self st) = Some y ->
  p_timesX p !! idx = Some grid ->
  0 < length grid ->
  p_orig_lc p !! idx = Some lc ->
  drawable (passbands (self st)) lc ->
  passbands (self st) = pre ++ pb :: post ->
  Forall (fun q => is_Some (lc !! q)) pre ->
  lc !! pb = None ->
  plot (Some (idx :: rest)) step use_interp_flux st = Raise (KeyError pb).
Proof.
  intros Ha Hy Hgrid Hlen Hlc Hd Hpbs Hpre Hpb.
  rewrite (plot_cached _ _ _ _ _ _ _ p y) by done.
  cbn [rmapM]. unfold plot_one at 1.
  unfold getattr_arrays at 1. rewrite Ha. cbn [rbind].
  apply index_Ok in Hgrid. rewrite Hgrid. cbn [rbind].
  destruct (argmax_Ok grid Hlen) as (k & -> & _). cbn [rbind].
  apply index_Ok in Hgrid.
  destruct (errorbars_Ok (self st) p idx lc) as [bars ->]; try done.
  cbn [rbind].
  by rewrite (plotted_times_KeyError (self st) p idx lc pre post pb).
Qed.

(** X17: a configured passband other than [g] and [r] that the light
    curve holds makes the plotting method raise [KeyError]: only [g] and
    [r] have a marker. *)
Theorem X17_plot_needs_marker (idx : nat) (rest : list nat)
    (step use_interp_flux : bool) (st : state) (p : Prepared) (y : tensor3)
    (grid : list fl) (lc : gmap string Frame) (pre post : list string)
    (pb : string) (frame : Frame) :
  arrays (self st) = Some p ->
  y_predict (self st) = Some y ->
  p_timesX p !! idx = Some grid ->
  0 < length grid ->
  p_orig_lc p !! idx = Some lc ->
  passbands (self st) = pre ++ pb :: post ->
  drawable pre lc ->
  lc !! pb = Some frame ->
  pb <> "g" ->
  pb <> "r" ->
  plot (Some (idx :: rest)) step use_interp_flux st = Raise (KeyError pb).
Proof.
  intros Ha Hy Hgrid Hlen Hlc Hpbs Hd Hpb Hg Hr.
  rewrite (plot_cached _ _ _ _ _ _ _ p y) by done.
  cbn [rmapM]. unfold plot_one at 1.
  unfold getattr_arrays at 1. rewrite Ha. cbn [rbind].
  apply index_Ok in Hgrid. rewrite Hgrid. cbn [rbind].
  destruct (argmax_Ok grid Hlen) as (k & -> & _). cbn [rbind].
  unfold errorbars. rewrite Hpbs.
  rewrite (rmapM_app_Raise _ _ _ _ (KeyError pb)); [done| |].
  - intros q Hq. eapply errorbars_step_Ok; try done.
    intros fr Hfr. by apply Hd.
  - unfold getattr_arrays. rewrite Ha. cbn [rbind].
    apply index_Ok in Hlc. rewrite Hlc. cbn [rbind]. rewrite Hpb.
    by rewrite marker_missing.
Qed.

End Drawn.

Lemma rmapM_ext {A B} (f g : A -> result B) (xs : list A) :
  (forall x, x ∈ xs -> f x = g x) -> rmapM f xs = rmapM g xs.
Proof.
  induction xs as [|x xs IH]; intros H; [done|].
  cbn [rmapM]. rewrite (H x) by left.
  rewrite IH; [done|]. intros z Hz. apply H. by right.
Qed.

Lemma interp_Ok_length (x xp fp r : list fl) :
  np.interp x xp fp = Ok r -> length r = length x.
Proof.
  unfold np.interp. destruct (Nat.eqb _ 0); [done|].
  destruct (negb _); [done|]. intros [= <-]. apply length_map.
Qed.

(** What a successful pass of the observation-native loop consists of. *)
Lemma predictions_at_obstime_inv (passbands : list string) (p : Prepared)
    (y : tensor3) (hs : list nat) (idx : nat) (curve : tensor2)
    (times : list fl) :
  predictions_at_obstime passbands p y hs idx = Ok (curve, times) ->
  exists lc obs_time cols trigger,
    p_orig_lc p !! idx = Some lc /\
    sorted_obs_time passbands lc = Ok obs_time /\
    rmapM
      (fun classnum =>
         rbind (index (p_timesX p) idx) (fun t =>
         rbind (index hs idx) (fun a =>
         rbind (index y idx) (fun yi =>
         rbind (np.column yi classnum) (fun col =>
         np.interp obs_time (take a t) (take a col))))))
      (seq 0 (length CLASS_NAMES)) = Ok cols /\
    p_trigger_mjds p !! idx = Some trigger /\
    curve = np.transpose (length obs_time) cols /\
    times = shift obs_time trigger.
Proof.
  unfold predictions_at_obstime.
  destruct (index (p_orig_lc p) idx) as [lc|] eqn:Hlc; cbn [rbind]; [|done].
  destruct (sorted_obs_time passbands lc) as [obs|] eqn:Hobs; cbn [rbind];
    [|done].
  destruct (rmapM _ (seq 0 (length CLASS_NAMES))) as [cols|] eqn:Hcols;
    cbn [rbind]; [|done].
  destruct (index (p_trigger_mjds p) idx) as [tr|] eqn:Htr; cbn [rbind];
    [|done].
  intros [= <- <-]. apply index_Ok in Hlc, Htr.
  by exists lc, obs, cols, tr.
Qed.

(** Column [c] of the stacked and transposed class curves is class curve
    [c]. *)
Lemma transpose_column (n : nat) (cols : tensor2) (c : nat) (col : list fl) :
  cols !! c = Some col ->
  length col = n ->
  map (fun vector => nth c vector NaN) (np.transpose n cols) = col.
Proof.
  intros Hc Hlen. unfold np.transpose. rewrite map_map, <- Hlen.
  etrans; [|apply (map_nth_seq col NaN)].
  apply map_ext. intros k.
  rewrite nth_lookup. change (map ?f ?l) with (f <$> l).
  by rewrite list_lookup_fmap, Hc.
Qed.

(** The smallest entry of an ascending array is its first. *)
Lemma py_min_ascending (x : fl) (l : list fl) :
  ascending (x :: l) -> Forall is_finite (x :: l) -> py_min (x :: l) = Ok x.
Proof.
  unfold ascending. intros Hs Hfin. unfold py_min. f_equal.
  apply StronglySorted_inv in Hs as [_ Hall].
  apply Forall_cons in Hfin as [Hx Hfin].
  apply is_finite_Fin in Hx as [q ->].
  induction l as [|z l IH]; [done|].
  apply Forall_cons in Hall as [Hz Hall].
  apply Forall_cons in Hfin as [Hfz Hfin].
  apply is_finite_Fin in Hfz as [qz ->]. apply fle_Fin in Hz.
  cbn [fold_left].
  assert (E : flt (Fin qz) (Fin q) = false) by (by apply flt_false_Fin).
  rewrite E. by apply IH.
Qed.

Section Shown.

Variable Processed : Type.
Variable read_multiple_light_curves :
  list LightCurve -> bool -> result Processed.
Variable prepare_input_arrays :
  list string -> list nat -> bool -> option fl -> Processed -> result Prepared.

Local Abbreviation plot :=
  (plot_light_curves_and_classifications Processed
     read_multiple_light_curves prepare_input_arrays).

(** X18: for an object that holds every configured passband, each with a
    marker, and has an observation, the default plot shows what
    observation-native mode returns. Whenever the pass of
    [get_predictions] for that object yields a curve and a time axis, the
    plot succeeds, and for every class it draws, under the class name, the
    column of that class in the curve against times that give the time
    axis when the trigger epoch is added; the time axis of the figure
    starts at the first of these times, and the file saved is named after
    the object. *)
Theorem X18_plot_shows_observation_native_curve (idx : nat) (step : bool)
    (st : state) (p : Prepared) (y : tensor3) (grid : list fl) (k : nat)
    (lc : gmap string Frame) (objid : string) (hs : list nat)
    (curve : tensor2) (times : list fl) :
  arrays (self st) = Some p ->
  y_predict (self st) = Some y ->
  p_timesX p !! idx = Some grid ->
  np.argmax grid = Ok k ->
  hs !! idx = Some (S k) ->
  p_orig_lc p !! idx = Some lc ->
  p_objids p !! idx = Some objid ->
  drawable (passbands (self st)) lc ->
  Forall (fun pb => is_Some (lc !! pb)) (passbands (self st)) ->
  predictions_at_obstime (passbands (self st)) p y hs idx
  = Ok (curve, times) ->
  times <> [] ->
  exists drawn new_t first trigger,
    plot (Some [idx]) step false st
    = Ok ((p_orig_lc p, p_timesX p, y, drawn), st) /\
    p_trigger_mjds p !! idx = Some trigger /\
    times = shift new_t trigger /\
    new_t !! 0 = Some first /\
    Xlim_left first ∈ drawn /\
    Savefig (savename objid step false) ∈ drawn /\
    forall classnum classname,
      CLASS_NAMES !! classnum = Some classname ->
      exists color,
        (if step
         then Step new_t (map (fun vector => nth classnum vector NaN) curve)
                classname color
         else Line new_t (map (fun vector => nth classnum vector NaN) curve)
                classname color) ∈ drawn.
Proof.
  intros Ha Hy Hgrid Hk Hhs Hlc Hobj Hd Hall Hpred Hne.
  destruct (predictions_at_obstime_inv _ _ _ _ _ _ _ Hpred)
    as (lc' & obs & cols & tr & Hlc' & Hobs & Hcols & Htr & -> & ->).
  assert (lc' = lc) as -> by congruence.
  destruct (sorted_obs_time_spec _ _ _ Hobs) as (_ & Hfin & Hasc).
  destruct obs as [|x0 obs0] eqn:Eobs; [done|]. rewrite <- Eobs in *.
  assert (Hlcols : length cols = length CLASS_NAMES).
  { apply rmapM_Ok_length in Hcols. by rewrite length_seq in Hcols. }
  assert (Hcol : forall c, c < length CLASS_NAMES ->
            exists col, cols !! c = Some col /\ length col = length obs).
  { intros c Hc.
    destruct (rmapM_Ok_lookup _ _ _ c c Hcols) as (col & Hcol & Hf).
    { by apply lookup_seq_lt. }
    exists col. split; [done|].
    destruct (index (p_timesX p) idx); cbn [rbind] in Hf; [|done].
    destruct (index hs idx); cbn [rbind] in Hf; [|done].
    destruct (index y idx); cbn [rbind] in Hf; [|done].
    destruct (np.column _ c); cbn [rbind] in Hf; [|done].
    by eapply interp_Ok_length. }
  set (line := fun c =>
         let name := nth c CLASS_NAMES "" in
         let color := default "" (CLASS_COLOR !! name) in
         if step then Step obs (nth c cols []) name color
         else Line obs (nth c cols []) name color).
  assert (Hplotted : plotted_predictions (self st) idx (S k) obs = Ok cols).
  { unfold plotted_predictions. rewrite <- Hcols. apply rmapM_ext.
    intros c _. unfold grid_curve, getattr_arrays, getattr_y_predict.
    rewrite Ha, Hy. cbn [rbind].
    apply index_Ok in Hhs. rewrite Hhs.
    destruct (index (p_timesX p) idx); cbn [rbind]; [|done].
    destruct (index y idx); cbn [rbind]; [|done].
    by destruct (np.column _ c). }
  assert (Hlines : class_lines (self st) idx (S k) step false obs cols
                   = Ok (map line (seq 0 (length CLASS_NAMES)))).
  { unfold class_lines. apply rmapM_Ok_fun. intros c Hc.
    apply elem_of_seq in Hc.
    destruct (lookup_lt_is_Some_2 CLASS_NAMES c) as [name Hname]; [lia|].
    destruct (Hcol c) as (col & Hcc & Hlen); [lia|].
    destruct (class_color_Ok c name Hname) as [color Hcolor].
    rewrite (proj2 (index_Ok _ _ _) Hname). cbn [rbind negb].
    rewrite (proj2 (index_Ok _ _ _) Hcc). cbn [rbind].
    rewrite Hcolor. cbn [rbind].
    unfold draw_line. rewrite Hlen, Nat.eqb_refl.
    unfold line. cbn zeta.
    rewrite (nth_lookup_Some _ _ _ _ Hname), (nth_lookup_Some _ _ _ _ Hcc).
    unfold getitem in Hcolor.
    destruct (CLASS_COLOR !! name); [|done]. by injection Hcolor as ->. }
  destruct (errorbars_Ok (self st) p idx lc) as [bars Hbars]; try done.
  assert (Hmin : py_min obs = Ok x0).
  { rewrite Eobs. apply py_min_ascending; by rewrite <- Eobs. }
  eexists _, obs, x0, tr.
  split.
  { rewrite (plot_cached _ _ _ _ _ _ _ p y) by done.
    cbn [rmapM]. unfold plot_one.
    unfold getattr_arrays. rewrite Ha. cbn [rbind].
    rewrite (proj2 (index_Ok _ _ _) Hgrid). cbn [rbind].
    rewrite Hk. cbn [rbind]. rewrite Hbars. cbn [rbind].
    rewrite (plotted_times_Ok (self st) p idx lc) by done.
    rewrite Hobs. cbn [rbind negb]. rewrite Hplotted. cbn [rbind].
    rewrite Hlines. cbn [rbind]. rewrite Hmin. cbn [rbind].
    rewrite (proj2 (index_Ok _ _ _) Hobj). cbn [rbind concat].
    reflexivity. }
  split; [done|]. split; [done|]. split; [by rewrite Eobs|].
  rewrite app_nil_r.
  split; [rewrite !elem_of_app; right; right; by left|].
  split; [rewrite !elem_of_app; right; right; right; by left|].
  intros c name Hname.
  assert (Hc : c < length CLASS_NAMES) by (by eapply lookup_lt_Some).
  destruct (Hcol c Hc) as (col & Hcc & Hlen).
  exists (default "" (CLASS_COLOR !! name)).
  rewrite (transpose_column _ _ _ col) by done.
  rewrite !elem_of_app. right. left.
  apply list_elem_of_fmap. exists c. split; [|apply elem_of_seq; lia].
  unfold line. cbn zeta.
  by rewrite (nth_lookup_Some _ _ _ _ Hname), (nth_lookup_Some _ _ _ _ Hcc).
Qed.

End Shown.

Section ShownOnGrid.

Variable Processed : Type.
Variable read_multiple_light_curves :
  list LightCurve -> bool -> result Processed.
Variable prepare_input_arrays :
  list string -> list nat -> bool -> option fl -> Processed -> result Prepared.

Local Abbreviation plot :=
  (plot_light_curves_and_classifications Processed
     read_multiple_light_curves prepare_input_arrays).

(** X19: with [use_interp_flux] the plot draws, for every class, the
    column of that class in the model output cut at the causal horizon
    against the time grid cut at the causal horizon, which is what
    grid-native mode returns before the trigger epoch is added; the [step]
    option changes the file name only. When the model returned fewer
    timesteps than the horizon, the plot raises [ValueError] instead. *)
Theorem X19_plot_on_grid (idx : nat) (step : bool) (st : state)
    (p : Prepared) (y : tensor3) (grid : list fl) (k : nat)
    (lc : gmap string Frame) (yi : tensor2) (objid : string)
    (first : fl) (later : list fl) :
  arrays (self st) = Some p ->
  y_predict (self st) = Some y ->
  p_timesX p !! idx = Some grid ->
  np.argmax grid = Ok k ->
  p_orig_lc p !! idx = Some lc ->
  y !! idx = Some yi ->
  p_objids p !! idx = Some objid ->
  drawable (passbands (self st)) lc ->
  Forall (fun pb => is_Some (lc !! pb)) (passbands (self st)) ->
  sorted_obs_time (passbands (self st)) lc = Ok (first :: later) ->
  Forall (fun row => length CLASS_NAMES <= length row) yi ->
  (S k <= length yi ->
   exists drawn,
     plot (Some [idx]) step true st
     = Ok ((p_orig_lc p, p_timesX p, y, drawn), st) /\
     Savefig (savename objid step true) ∈ drawn /\
     forall classnum classname,
       CLASS_NAMES !! classnum = Some classname ->
       exists color,
         Line (take (S k) grid)
           (map (fun row => nth classnum row NaN) (take (S k) yi))
           classname color ∈ drawn) /\
  (length yi < S k ->
   plot (Some [idx]) step true st = Raise ValueError).
Proof.
  intros Ha Hy Hgrid Hk Hlc Hyi Hobj Hd Hall Hobs Hrows.
  pose proof (argmax_lt _ _ Hk) as Hkg.
  destruct (sorted_obs_time_spec _ _ _ Hobs) as (_ & Hfin & Hasc).
  destruct (errorbars_Ok (self st) p idx lc) as [bars Hbars]; try done.
  assert (Hcurve : forall c, c < length CLASS_NAMES ->
            grid_curve (self st) idx (S k) c
            = Ok (take (S k) grid, take (S k) (class_curve yi c))).
  { intros c Hc. unfold grid_curve, getattr_arrays, getattr_y_predict.
    rewrite Ha, Hy. cbn [rbind].
    rewrite (proj2 (index_Ok _ _ _) Hgrid), (proj2 (index_Ok _ _ _) Hyi).
    cbn [rbind]. rewrite column_Ok; [done|].
    eapply Forall_impl; [exact Hrows|]. cbv beta. intros row Hrow. lia. }
  assert (Hstart : rmapM (plot_one (self st) step true) [idx]
                   = rbind (class_lines (self st) idx (S k) step true
                              (first :: later) [])
                       (fun lines =>
                          Ok [concat bars ++ lines
                              ++ [Xlim_left first;
                                  Savefig (savename objid step true)]])).
  { cbn [rmapM]. unfold plot_one.
    unfold getattr_arrays. rewrite Ha. cbn [rbind].
    rewrite (proj2 (index_Ok _ _ _) Hgrid). cbn [rbind].
    rewrite Hk. cbn [rbind]. rewrite Hbars. cbn [rbind].
    rewrite (plotted_times_Ok (self st) p idx lc) by done.
    rewrite Hobs. cbn [rbind negb].
    destruct (class_lines _ _ _ _ _ _ _) as [lines|]; cbn [rbind]; [|done].
    rewrite py_min_ascending by done. cbn [rbind].
    by rewrite (proj2 (index_Ok _ _ _) Hobj). }
  rewrite (plot_cached _ _ _ _ _ _ _ p y) by done. rewrite Hstart.
  set (line := fun c =>
         let name := nth c CLASS_NAMES "" in
         Line (take (S k) grid) (take (S k) (class_curve yi c)) name
           (default "" (CLASS_COLOR !! name))).
  split.
  - intros Hlong.
    assert (Hlines : class_lines (self st) idx (S k) step true
                       (first :: later) []
                     = Ok (map line (seq 0 (length CLASS_NAMES)))).
    { unfold class_lines. apply rmapM_Ok_fun. intros c Hc.
      apply elem_of_seq in Hc.
      destruct (lookup_lt_is_Some_2 CLASS_NAMES c) as [name Hname]; [lia|].
      destruct (class_color_Ok c name Hname) as [color Hcolor].
      rewrite (proj2 (index_Ok _ _ _) Hname). cbn [rbind negb].
      rewrite Hcurve by lia. cbn [rbind fst snd].
      rewrite Hcolor. cbn [rbind].
      unfold draw_line. rewrite !length_take. unfold class_curve.
      rewrite length_map.
      replace (S k `min` length grid) with (S k) by lia.
      replace (S k `min` length yi) with (S k) by lia.
      rewrite Nat.eqb_refl. unfold line. cbn zeta.
      rewrite (nth_lookup_Some _ _ _ _ Hname).
      unfold getitem in Hcolor.
      destruct (CLASS_COLOR !! name); [|done]. by injection Hcolor as ->. }
    rewrite Hlines. cbn [rbind concat]. eexists. split; [reflexivity|].
    rewrite app_nil_r.
    split; [rewrite !elem_of_app; right; right; right; by left|].
    intros c name Hname.
    assert (Hc : c < length CLASS_NAMES) by (by eapply lookup_lt_Some).
    exists (default "" (CLASS_COLOR !! name)).
    rewrite !elem_of_app. right. left.
    apply list_elem_of_fmap. exists c. split; [|apply elem_of_seq; lia].
    unfold line. cbn zeta. rewrite (nth_lookup_Some _ _ _ _ Hname).
    f_equal. unfold class_curve.
    change (map ?f ?l) with (f <$> l). by rewrite fmap_take.
  - intros Hshort.
    assert (Hlines : class_lines (self st) idx (S k) step true
                       (first :: later) [] = Raise ValueError).
    { unfold class_lines.
      change (seq 0 (length CLASS_NAMES)) with ([] ++ 0 :: seq 1 12).
      apply rmapM_app_Raise; [by intros z ?%elem_of_nil|].
      cbn [index lookup list_lookup CLASS_NAMES rbind negb].
      rewrite Hcurve by (simpl; lia). cbn [rbind fst snd].
      destruct (class_color_Ok 0 "Pre-explosion" eq_refl) as [color ->].
      cbn [rbind]. unfold draw_line. rewrite !length_take.
      unfold class_curve. rewrite length_map.
      destruct (Nat.eqb_spec (S k `min` length grid) (S k `min` length yi));
        [lia|done]. }
    by rewrite Hlines.
Qed.

End ShownOnGrid.

(** ** Further properties: the horizon in [plot_metrics] *)

(** The last entry of an increasing grid holds the first largest entry of
    the grid followed by entries that do not exceed it. *)
Lemma argmax_increasing_then_low (real low : list fl) (last : Q) :
  Forall is_finite real ->
  Forall is_finite low ->
  increasing real ->
  real !! (length real - 1) = Some (Fin last) ->
  Forall (fun x => fle x (Fin last) = true) low ->
  np.argmax (real ++ low) = Ok (length real - 1).
Proof.
  intros Hfin Hflow Hinc Hlast Hlow.
  assert (Hlen : length real - 1 < length real) by (by eapply lookup_lt_Some).
  apply argmax_of_first_max; [by apply Forall_app|].
  split; [rewrite length_app; lia|].
  rewrite (nth_lookup_Some _ _ NaN (Fin last))
    by (by rewrite lookup_app_l).
  intros j x Hx. apply lookup_app_Some in Hx as [Hx|[Hge Hx]].
  - destruct (Nat.lt_trichotomy j (length real - 1)) as [Hlt|[->|Hgt]].
    + assert (Hs : flt x (Fin last) = true)
        by (by eapply (increasing_lookup real j (length real - 1))).
      split; [|done]. destruct x as [q|]; [|done].
      apply flt_Fin in Hs. apply fle_Fin. lra.
    + assert (x = Fin last) as -> by congruence.
      split; [apply fle_Fin; lra|lia].
    + apply lookup_lt_Some in Hx. lia.
  - rewrite Forall_lookup in Hlow. split; [by eapply Hlow|lia].
Qed.

Lemma mask_plain (real : list fl) :
  Forall plain real ->
  map (fun t => if feqb t (Fin 0) then Fin (-200) else t) real = real.
Proof.
  induction 1 as [|x real [_ Hx] _ IH]; [done|].
  cbn [map]. by rewrite Hx, IH.
Qed.

Lemma mask_padding (n : nat) :
  map (fun t => if feqb t (Fin 0) then Fin (-200) else t) (padding n)
  = replicate n (Fin (-200)).
Proof.
  unfold padding. induction n as [|n IH]; [done|].
  cbn [replicate map]. by rewrite IH.
Qed.

Lemma plain_finite (real : list fl) : Forall plain real -> Forall is_finite real.
Proof.
  intros H. eapply Forall_impl; [exact H|].
  intros x [Hx _]. by destruct (flt_finite _ _ Hx).
Qed.

Lemma low_replacement (n : nat) (last : fl) :
  plain last ->
  exists q, last = Fin q /\
    Forall is_finite (replicate n (Fin (-200))) /\
    Forall (fun x => fle x (Fin q) = true) (replicate n (Fin (-200))).
Proof.
  intros [Hl _]. destruct last as [q|]; [|done]. exists q.
  split; [done|]. apply flt_Fin in Hl.
  split; apply Forall_replicate; [done|]. apply fle_Fin. lra.
Qed.

(** X20: in [plot_metrics], where the zeros of the time grids are first
    replaced by -200, the horizon of an object whose grid is an increasing
    run of non-zero observation times above -200 followed by zero padding
    is the number of its observations, also when all of them are before
    the trigger. *)
Theorem X20_metrics_horizon_skips_padding (timesX_test : tensor2)
    (idx : nat) (real : list fl) (n : nat) :
  timesX_test !! idx = Some (real ++ padding n) ->
  0 < length real ->
  Forall plain real ->
  increasing real ->
  metrics_horizon timesX_test idx = Ok (length real).
Proof.
  intros Hidx Hlen Hplain Hinc. unfold metrics_horizon, mask_zero_times.
  unfold index. change (map ?f ?l) with (f <$> l) at 1.
  rewrite list_lookup_fmap, Hidx. cbn [fmap option_fmap option_map rbind].
  rewrite map_app, mask_plain, mask_padding by done.
  destruct (lookup_lt_is_Some_2 real (length real - 1)) as [last Hlast];
    [lia|].
  assert (Hpl : plain last).
  { rewrite Forall_lookup in Hplain. by eapply Hplain. }
  destruct (low_replacement n last Hpl) as (q & -> & Hfin & Hlow).
  rewrite (argmax_increasing_then_low real _ q); try done;
    [|by apply plain_finite].
  cbn [rbind]. f_equal. lia.
Qed.

(** X21: in [plot_metrics] an observation made exactly at the trigger
    epoch is replaced like padding. For an object whose last observation is
    at relative time zero, preceded by an increasing run of earlier times
    above -200, the horizon is one less than the number of observations,
    while the horizon that [get_predictions] computes from the same grids
    is the number of observations. *)
Theorem X21_metrics_horizon_drops_trigger_time (timesX_test : tensor2)
    (idx : nat) (earlier : list fl) (n : nat) :
  timesX_test !! idx = Some ((earlier ++ [Fin 0]) ++ padding n) ->
  Forall (fun grid => 0 < length grid) timesX_test ->
  0 < length earlier ->
  Forall plain earlier ->
  Forall negative earlier ->
  increasing earlier ->
  metrics_horizon timesX_test idx = Ok (length earlier) /\
  exists hs,
    causal_horizon timesX_test = Ok hs /\
    hs !! idx = Some (length earlier + 1).
Proof.
  intros Hidx Hall Hlen Hplain Hneg Hinc. split.
  - unfold metrics_horizon, mask_zero_times.
    unfold index. change (map ?f ?l) with (f <$> l) at 1.
    rewrite list_lookup_fmap, Hidx. cbn [fmap option_fmap option_map rbind].
    rewrite <- app_assoc, map_app, mask_plain by done.
    change ([Fin 0] ++ padding n) with (padding (S n)).
    rewrite mask_padding.
    destruct (lookup_lt_is_Some_2 earlier (length earlier - 1))
      as [last Hlast]; [lia|].
    assert (Hpl : plain last).
    { rewrite Forall_lookup in Hplain. by eapply Hplain. }
    destruct (low_replacement (S n) last Hpl) as (q & -> & Hfin & Hlow).
    rewrite (argmax_increasing_then_low earlier _ q); try done;
      [|by apply plain_finite].
    cbn [rbind]. f_equal. lia.
  - assert (Hrow : np.argmax ((earlier ++ [Fin 0]) ++ padding n)
                   = Ok (length earlier)).
    { rewrite <- app_assoc.
      change ([Fin 0] ++ padding n) with (padding (S n)).
      apply argmax_padded_before_trigger; [done|lia]. }
    set (total := fun g =>
           match np.argmax g with Ok k => k | Raise _ => 0 end).
    assert (Ha : np.argmax_axis1 timesX_test = Ok (map total timesX_test)).
    { apply rmapM_Ok_fun. intros g Hin.
      rewrite Forall_forall in Hall.
      destruct (argmax_Ok g (Hall g Hin)) as (k & Hk & _).
      unfold total. by rewrite Hk. }
    exists (map S (map total timesX_test)).
    unfold causal_horizon. rewrite Ha. cbn [rbind]. split; [done|].
    change (map ?f ?l) with (f <$> l).
    rewrite !list_lookup_fmap, Hidx. cbn [fmap option_fmap option_map].
    unfold total. rewrite Hrow. f_equal. lia.
Qed.

(** ** The further properties on the batches *)

(** X1 on the worked batch. *)
Lemma X1_witness :
  exists ys ts st',
    get_predictions _ Ex.read Ex.prepare false (Ex.start Ex.keras)
    = Ok (Some (ys, ts), st') /\
    ys !! 0 = Some [Ex.one_hot 0; Ex.half_half; Ex.one_hot 1].
Proof.
  destruct (X1_padding_cut_off _ Ex.read Ex.prepare 4 (Ex.start Ex.keras)
              Ex.prepared Ex.y 0 [Fin 0; Fin 1; Fin 2] 1 2
              [Ex.one_hot 0; Ex.half_half; Ex.one_hot 1; Ex.one_hot 2]
              (Fin 58000))
    as (ys & ts & st' & Hrun & Hys & _).
  - reflexivity.
  - simpl. lia.
  - reflexivity.
  - lia.
  - apply ex_parallel.
  - apply ex_grids.
  - reflexivity.
  - reflexivity.
  - reflexivity.
  - reflexivity.
  - by repeat constructor.
  - unfold increasing. repeat constructor; by vm_compute.
  - reflexivity.
  - lra.
  - by exists ys, ts, st'.
Defined.

(** X2 on an object seen before the trigger only. *)
Lemma X2_witness :
  exists ys ts st',
    get_predictions _ Ex.read Ex2.prepare_early false
      (Ex.start Ex2.keras_early) = Ok (Some (ys, ts), st') /\
    ys !! 0 = Some [Ex.one_hot 0; Ex.one_hot 0; Ex.one_hot 1].
Proof.
  destruct (X2_padding_slot_reported _ Ex.read Ex2.prepare_early 4
              (Ex.start Ex2.keras_early) Ex2.early Ex2.y_early 0
              [Fin (-3); Fin (-1)] 2
              [Ex.one_hot 0; Ex.one_hot 0; Ex.one_hot 1; Ex.one_hot 2]
              (Fin 58200))
    as (ys & ts & st' & Hrun & Hys & _).
  - reflexivity.
  - simpl. lia.
  - reflexivity.
  - lia.
  - by split.
  - unfold grids. simpl. by repeat constructor.
  - reflexivity.
  - reflexivity.
  - reflexivity.
  - reflexivity.
  - unfold negative. repeat constructor; by vm_compute.
  - lia.
  - by exists ys, ts, st'.
Defined.

(** X3 on the worked batch with a model that returns two timesteps. *)
Lemma X3_witness :
  exists hs ys ts st',
    causal_horizon Ex.timesX = Ok hs /\
    get_predictions _ Ex.read Ex.prepare false (Ex.start Ex2.keras_short)
    = Ok (Some (ys, ts), st').
Proof.
  destruct (X3_short_model_output_not_detected _ Ex.read Ex.prepare 4
              (Ex.start Ex2.keras_short) Ex.prepared Ex2.y_short)
    as (hs & ys & ts & st' & Hh & Hrun & _).
  - reflexivity.
  - simpl. lia.
  - reflexivity.
  - lia.
  - apply ex_parallel.
  - apply ex_grids.
  - reflexivity.
  - by exists hs, ys, ts, st'.
Defined.

(** X4 on the worked batch with a model of twelve classes. *)
Lemma X4_witness :
  get_predictions _ Ex.read Ex.prepare true (Ex.start Ex2.keras_twelve)
  = Raise IndexError.
Proof.
  destruct (X4_missing_class_raises _ Ex.read Ex.prepare 4
              (Ex.start Ex2.keras_twelve) Ex.prepared Ex2.y_twelve 0
              (replicate 4 (Fin 1 :: replicate 11 (Fin 0)))
              (Fin 1 :: replicate 11 (Fin 0)))
    as [Hobs _].
  - reflexivity.
  - simpl. lia.
  - reflexivity.
  - lia.
  - apply ex_parallel.
  - apply ex_grids.
  - split; simpl; by repeat constructor.
  - apply ex_aligned.
  - reflexivity.
  - by left.
  - simpl. lia.
  - exact Hobs.
Defined.

(** X5 on the worked batch with a short [r] column. *)
Lemma X5_witness :
  get_predictions _ Ex.read Ex2.prepare_ragged true (Ex.start Ex.keras)
  = Raise np.inhomogeneous.
Proof.
  destruct (X5_ragged_columns_raise _ Ex.read Ex2.prepare_ragged 4
              (Ex.start Ex.keras) Ex2.ragged Ex.y 0
              {[ "g" := Ex.frame [Fin (-3); Fin (1 # 2); Fin 1];
                 "r" := Ex.frame [Fin 1; Fin 5] ]})
    as [Hobs _].
  - reflexivity.
  - simpl. lia.
  - reflexivity.
  - lia.
  - by split.
  - apply ex_grids.
  - split; simpl; by repeat constructor.
  - apply ex_classes. by left.
  - reflexivity.
  - unfold aligned. by vm_compute.
  - exact Hobs.
Defined.

Lemma ex_increasing_grids (i : nat) (grid : list fl) (h : nat) :
  Ex.timesX !! i = Some grid -> Ex.horizons !! i = Some h ->
  Forall is_finite (take h grid) /\ increasing (take h grid).
Proof.
  destruct i as [|[|i]]; simpl; try done; intros [= <-] [= <-]; simpl;
    (split; [by repeat constructor|]);
    unfold increasing; repeat constructor; by vm_compute.
Qed.

(** X6 on the worked batch. *)
Lemma X6_witness :
  exists ys ts st',
    get_predictions _ Ex.read Ex.prepare true (Ex.start Ex.keras)
    = Ok (Some (ys, ts), st').
Proof.
  destruct (X6_observation_on_grid_time _ Ex.read Ex.prepare 4
              (Ex.start Ex.keras) Ex.prepared Ex.y Ex.horizons)
    as (ys & ts & st' & Hrun & _).
  - reflexivity.
  - simpl. lia.
  - reflexivity.
  - lia.
  - apply ex_parallel.
  - apply ex_grids.
  - apply ex_curves. by left.
  - apply ex_classes. by left.
  - apply ex_aligned.
  - reflexivity.
  - apply ex_increasing_grids.
  - by exists ys, ts, st'.
Defined.

(** X7 on the worked batch. *)
Lemma X7_witness :
  exists ys ts st',
    get_predictions _ Ex.read Ex.prepare true (Ex.start Ex.keras)
    = Ok (Some (ys, ts), st') /\
    forall curve row, curve ∈ ys -> row ∈ curve -> distribution row.
Proof.
  apply (X7_distributions_preserved _ Ex.read Ex.prepare 4
           (Ex.start Ex.keras) Ex.prepared Ex.y Ex.horizons).
  - reflexivity.
  - simpl. lia.
  - reflexivity.
  - lia.
  - apply ex_parallel.
  - apply ex_grids.
  - apply ex_curves. by left.
  - apply ex_classes. by left.
  - apply ex_aligned.
  - reflexivity.
  - apply ex_truncated_grids.
  - apply ex_distributions.
Defined.

(** X8 on the worked batch. *)
Lemma X8_witness :
  exists ys ts st',
    get_predictions _ Ex.read Ex.prepare true (Ex.start Ex.keras)
    = Ok (Some (ys, ts), st').
Proof.
  destruct (X8_time_axis_sorted _ Ex.read Ex.prepare 4
              (Ex.start Ex.keras) Ex.prepared Ex.y)
    as (ys & ts & st' & Hrun & _).
  - reflexivity.
  - simpl. lia.
  - reflexivity.
  - lia.
  - apply ex_parallel.
  - apply ex_grids.
  - apply ex_curves. by left.
  - apply ex_classes. by left.
  - apply ex_aligned.
  - by exists ys, ts, st'.
Defined.

(** On the first object of the worked batch the pre-explosion class falls
    from 1 to 0 along the grid, half a unit a day. *)
Lemma ex_linear (grid : list fl) (yi : tensor2) (h j : nat) (t : Q)
    (row : list fl) :
  Ex.timesX !! 0 = Some grid -> Ex.y !! 0 = Some yi ->
  Ex.horizons !! 0 = Some h ->
  j < h -> grid !! j = Some (Fin t) -> yi !! j = Some row ->
  exists v, row !! 0 = Some (Fin v) /\ (v == - (1 # 2) * t + 1)%Q.
Proof.
  unfold Ex.timesX, Ex.y, Ex.horizons. cbn [lookup list_lookup].
  intros [= <-] [= <-] [= <-].
  destruct j as [|[|[|j]]]; cbn [lookup list_lookup]; try lia;
    intros _ [= <-] [= <-]; eexists; (split; [reflexivity|]); by vm_compute.
Qed.

(** X9 on the first object of the worked batch. *)
Lemma X9_witness :
  exists ys ts st',
    get_predictions _ Ex.read Ex.prepare true (Ex.start Ex.keras)
    = Ok (Some (ys, ts), st').
Proof.
  destruct (X9_linear_curve_reproduced _ Ex.read Ex.prepare 4
              (Ex.start Ex.keras) Ex.prepared Ex.y Ex.horizons 0 0
              (- (1 # 2)) 1)
    as (ys & ts & st' & lc & grid & h & obs & curve & Hrun & _).
  - reflexivity.
  - simpl. lia.
  - reflexivity.
  - lia.
  - apply ex_parallel.
  - apply ex_grids.
  - apply ex_curves. by left.
  - apply ex_classes. by left.
  - apply ex_aligned.
  - reflexivity.
  - apply ex_truncated_grids.
  - simpl. lia.
  - simpl. lia.
  - apply ex_linear.
  - by exists ys, ts, st'.
Defined.

(** X10 where no model file lies beside the module, with the flag off. *)
Lemma X10_witness :
  exists st,
    __init__ Ex.exists_nowhere Ex.join Ex.script_dir Ex.resource Ex.load
      [] false "" ["g"; "r"] false None None None = Ok st /\
    model_filepath (self st)
    = "/site-packages/astrorapid/keras_model_with_redshift.hdf5" /\
    contextual_info (self st) = [].
Proof.
  eexists. split; [reflexivity|].
  destruct (X10_fallback_ignores_flag Ex.exists_nowhere Ex.join
              Ex.script_dir Ex.resource Ex.load
              [] false "" ["g"; "r"] false None None None _ eq_refl)
    as (Hmf & Hci & _).
  - reflexivity.
  - reflexivity.
  - by split.
Defined.

(** X11 with a custom model file that exists. *)
Lemma X11_witness :
  exists st,
    __init__ Ex.exists_everywhere Ex.join Ex.script_dir Ex.resource Ex.load
      [] true "custom.hdf5" ["g"; "r"] false None None None = Ok st /\
    log st
    = [Print "custom.hdf5";
       Print "Invalid keras model. Using default model..."].
Proof.
  eexists. split; [reflexivity|].
  destruct (X11_notice_printed_with_custom_file Ex.exists_everywhere
              Ex.join Ex.script_dir Ex.resource Ex.load
              [] true "custom.hdf5" ["g"; "r"] false None None None _
              eq_refl)
    as [Hcustom _].
  destruct Hcustom as [_ Hlog]; [reflexivity|exact Hlog].
Defined.

(** X12 on the worked batch before any prediction. *)
Lemma X12_witness :
  plot_light_curves_and_classifications _ Ex.read Ex.prepare None true
    false (Ex.start Ex.keras)
  = Raise (AttributeError "y_predict").
Proof.
  apply (X12_default_indexes_before_predictions _ Ex.read Ex.prepare
           true false (Ex.start Ex.keras)).
  reflexivity.
Defined.

(** X13 on the worked batch with its predictions. *)
Lemma X13_witness :
  exists returned drawn st',
    plot_light_curves_and_classifications _ Ex.read Ex.prepare
      (Some [0]) true false Ex3.cached = Ok ((returned, drawn), st') /\
    st' = Ex3.cached.
Proof.
  eexists _, _, _. split; [by vm_compute|].
  eapply (X13_plot_uses_cached_predictions _ Ex.read Ex.prepare
            (Some [0]) true false Ex3.cached _ Ex.prepared Ex.y).
  - reflexivity.
  - reflexivity.
  - by vm_compute.
Defined.

(** X14 on the worked batch before any prediction. *)
Lemma X14_witness :
  plot_light_curves_and_classifications _ Ex.read Ex.prepare (Some [0])
    true false (Ex.start Ex.keras)
  = plot_light_curves_and_classifications _ Ex.read Ex.prepare (Some [0])
      true false Ex3.cached.
Proof.
  eapply (X14_plot_computes_missing_predictions _ Ex.read Ex.prepare [0]
            true false (Ex.start Ex.keras) Ex3.cached).
  - reflexivity.
  - by vm_compute.
Defined.

(** X15 on a batch without objects. *)
Lemma X15_witness :
  plot_light_curves_and_classifications _ Ex.read Ex.prepare_none
    (Some [0]) true false (Ex.start Ex.keras_broken)
  = Raise IndexError.
Proof.
  destruct (X15_plot_without_objects_raises _ Ex.read Ex.prepare_none [0]
              true false (Ex.start Ex.keras_broken)
              {| p_X := []; p_orig_lc := []; p_timesX := [];
                 p_objids := []; p_trigger_mjds := [] |})
    as [_ Hplot].
  - reflexivity.
  - reflexivity.
  - reflexivity.
  - reflexivity.
  - exact Hplot.
Defined.

Lemma ex_drawable (lc : gmap string Frame) :
  lc ∈ Ex.orig_lc -> drawable ["g"; "r"] lc.
Proof.
  intros Hlc pb frame Hpb Hf.
  split.
  { apply elem_of_cons in Hpb as [->|Hpb]; [by left|].
    apply elem_of_cons in Hpb as [->|Hpb]; [by right|].
    by apply elem_of_nil in Hpb. }
  unfold Ex.orig_lc in Hlc.
  apply elem_of_cons in Hlc as [->|Hlc];
    [|apply elem_of_cons in Hlc as [->|Hlc]; [|by apply elem_of_nil in Hlc]];
    apply elem_of_cons in Hpb as [->|Hpb];
    try (apply elem_of_cons in Hpb as [->|Hpb];
         [|by apply elem_of_nil in Hpb]);
    vm_compute in Hf; try done; injection Hf as <-; by split.
Qed.

(** X16 on the second object of the worked batch, which has no [g]
    passband. *)
Lemma X16_witness :
  plot_light_curves_and_classifications _ Ex.read Ex.prepare (Some [1])
    true false Ex3.cached
  = Raise (KeyError "g").
Proof.
  apply (X16_plot_needs_every_passband _ Ex.read Ex.prepare 1 [] true false
           Ex3.cached Ex.prepared Ex.y [Fin (-1); Fin 0; Fin 1; Fin 2]
           {[ "r" := Ex.frame [Fin 2; NaN] ]} [] ["r"] "g").
  - reflexivity.
  - reflexivity.
  - reflexivity.
  - simpl. lia.
  - reflexivity.
  - apply ex_drawable. right. by left.
  - reflexivity.
  - constructor.
  - reflexivity.
Defined.

(** X17 on an object seen in [g] and [i]. *)
Lemma X17_witness :
  plot_light_curves_and_classifications _ Ex.read Ex.prepare (Some [0])
    true false Ex3.cached_with_i
  = Raise (KeyError "i").
Proof.
  apply (X17_plot_needs_marker _ Ex.read Ex.prepare 0 [] true false
           Ex3.cached_with_i Ex3.with_i [replicate 4 (Ex.one_hot 1)]
           [Fin 0; Fin 1; Fin 2; Fin 0]
           {[ "g" := Ex.frame [Fin 0; Fin 1];
              "i" := Ex.frame [Fin 1; Fin 2] ]}
           ["g"] [] "i" (Ex.frame [Fin 1; Fin 2])).
  - reflexivity.
  - reflexivity.
  - reflexivity.
  - simpl. lia.
  - reflexivity.
  - reflexivity.
  - intros pb frame Hpb Hf.
    apply elem_of_cons in Hpb as [->|Hpb]; [|by apply elem_of_nil in Hpb].
    vm_compute in Hf. injection Hf as <-. split; [by left|by split].
  - by vm_compute.
  - done.
  - done.
Defined.

(** X18 on the first object of the worked batch. *)
Lemma X18_witness :
  exists drawn,
    plot_light_curves_and_classifications _ Ex.read Ex.prepare (Some [0])
      true false Ex3.cached
    = Ok ((Ex.orig_lc, Ex.timesX, Ex.y, drawn), Ex3.cached) /\
    Savefig "classification_vs_time_ZTF18aaaaaaa_step_no_interp.pdf" ∈ drawn.
Proof.
  destruct (predictions_at_obstime ["g"; "r"] Ex.prepared Ex.y Ex.horizons 0)
    as [[curve times]|] eqn:Hpred; [|by vm_compute in Hpred].
  destruct (X18_plot_shows_observation_native_curve _ Ex.read Ex.prepare 0
              true Ex3.cached Ex.prepared Ex.y [Fin 0; Fin 1; Fin 2; Fin 0]
              2 {[ "g" := Ex.frame [Fin (-3); Fin (1 # 2); Fin 1];
                   "r" := Ex.frame [Fin 1; Fin 5; NaN] ]}
              "ZTF18aaaaaaa" Ex.horizons curve times)
    as (drawn & new_t & first & trigger & Hplot & _ & _ & _ & _ & Hsave & _).
  - reflexivity.
  - reflexivity.
  - reflexivity.
  - reflexivity.
  - reflexivity.
  - reflexivity.
  - reflexivity.
  - apply ex_drawable. by left.
  - apply Forall_cons. split; [by eexists|].
    apply Forall_cons. split; [by eexists|]. constructor.
  - exact Hpred.
  - vm_compute in Hpred. by injection Hpred as <- <-.
  - by exists drawn.
Defined.

(** X19 on the first object of the worked batch. *)
Lemma X19_witness :
  exists drawn,
    plot_light_curves_and_classifications _ Ex.read Ex.prepare (Some [0])
      true true Ex3.cached
    = Ok ((Ex.orig_lc, Ex.timesX, Ex.y, drawn), Ex3.cached) /\
    Savefig "classification_vs_time_ZTF18aaaaaaa_step.pdf" ∈ drawn.
Proof.
  destruct (X19_plot_on_grid _ Ex.read Ex.prepare 0 true Ex3.cached
              Ex.prepared Ex.y [Fin 0; Fin 1; Fin 2; Fin 0] 2
              {[ "g" := Ex.frame [Fin (-3); Fin (1 # 2); Fin 1];
                 "r" := Ex.frame [Fin 1; Fin 5; NaN] ]}
              [Ex.one_hot 0; Ex.half_half; Ex.one_hot 1; Ex.one_hot 2]
              "ZTF18aaaaaaa" (Fin (-3))
              [Fin (1 # 2); Fin 1; Fin 1; Fin 5])
    as [Hlong _].
  - reflexivity.
  - reflexivity.
  - reflexivity.
  - reflexivity.
  - reflexivity.
  - reflexivity.
  - reflexivity.
  - apply ex_drawable. by left.
  - apply Forall_cons. split; [by eexists|].
    apply Forall_cons. split; [by eexists|]. constructor.
  - by vm_compute.
  - repeat constructor; simpl; lia.
  - destruct Hlong as (drawn & Hplot & Hsave & _); [simpl; lia|].
    by exists drawn.
Defined.

(** X20 on the grid of an object seen before the trigger only. *)
Lemma X20_witness :
  metrics_horizon [[Fin (-3); Fin (-1); Fin 0; Fin 0]] 0 = Ok 2.
Proof.
  apply (X20_metrics_horizon_skips_padding
           [[Fin (-3); Fin (-1); Fin 0; Fin 0]] 0 [Fin (-3); Fin (-1)] 2).
  - reflexivity.
  - simpl. lia.
  - unfold plain. repeat constructor; by vm_compute.
  - unfold increasing. repeat constructor; by vm_compute.
Defined.

(** X21 on the grid of an object last seen at the trigger epoch. *)
Lemma X21_witness :
  metrics_horizon [[Fin (-3); Fin (-1); Fin 0; Fin 0; Fin 0]] 0 = Ok 2 /\
  exists hs,
    causal_horizon [[Fin (-3); Fin (-1); Fin 0; Fin 0; Fin 0]] = Ok hs /\
    hs !! 0 = Some 3.
Proof.
  apply (X21_metrics_horizon_drops_trigger_time
           [[Fin (-3); Fin (-1); Fin 0; Fin 0; Fin 0]] 0
           [Fin (-3); Fin (-1)] 2).
  - reflexivity.
  - repeat constructor; simpl; lia.
  - simpl. lia.
  - unfold plain. repeat constructor; by vm_compute.
  - unfold negative. repeat constructor; by vm_compute.
  - unfold increasing. repeat constructor; by vm_compute.
Defined.

(** ** Further properties: objects without observations *)

Lemma filter_all_nan (l : list fl) :
  (forall x, x ∈ l -> isnan x = true) ->
  filter (fun x => negb (isnan x) = true) l = [].
Proof.
  induction l as [|x l IH]; intros H; [done|].
  rewrite filter_cons.
  destruct (decide (negb (isnan x) = true)) as [Hx|_].
  - rewrite (H x) in Hx by left. done.
  - apply IH. intros z Hz. apply H. by right.
Qed.

Section Unobserved.

Variable Processed : Type.
Variable read_multiple_light_curves :
  list LightCurve -> bool -> result Processed.
Variable prepare_input_arrays :
  list string -> list nat -> bool -> option fl -> Processed -> result Prepared.

Local Abbreviation process :=
  (process_light_curves Processed read_multiple_light_curves
     prepare_input_arrays).
Local Abbreviation run :=
  (get_predictions Processed read_multiple_light_curves prepare_input_arrays).
Local Abbreviation plot :=
  (plot_light_curves_and_classifications Processed
     read_multiple_light_curves prepare_input_arrays).

(** X23: an object whose configured passbands hold no time other than
    NaN, or none at all, does not make observation-native mode fail: its
    probability curve and its time axis are returned empty. *)
Theorem X23_no_observation_empty_curve (grid_size : nat) (st : state)
    (p : Prepared) (y : tensor3) (i : nat) (lc : gmap string Frame) :
  process (self st) = Ok p ->
  length (p_objids p) <> 0 ->
  predict (model (self st)) (p_X p) = Ok y ->
  0 < grid_size ->
  parallel p ->
  grids grid_size p ->
  curves grid_size p y ->
  classes y ->
  Forall (aligned (passbands (self st))) (p_orig_lc p) ->
  p_orig_lc p !! i = Some lc ->
  (forall pb frame x,
     pb ∈ passbands (self st) -> lc !! pb = Some frame -> x ∈ time frame ->
     isnan x = true) ->
  exists ys ts st',
    run true st = Ok (Some (ys, ts), st') /\
    ys !! i = Some [] /\
    ts !! i = Some [].
Proof.
  intros Hp Hn Hy Hgs Hpar Hg Hcur Hcl Hal Hlc Hnan.
  destruct (run_obstime_entries Processed read_multiple_light_curves
              prepare_input_arrays grid_size st p y)
    as (hs & ys & ts & Hh & Hrun & _ & _ & Hent); try done.
  exists ys, ts, (after_predict p y st). split; [done|].
  assert (Hi : i < length (p_objids p)).
  { destruct Hpar as [_ _ <-]. by eapply lookup_lt_Some. }
  destruct (Hent i Hi)
    as (lc' & grid & yi & tr & k & obs & Hlc' & _ & _ & _ & _ & _ & _
        & Hobs & Hys & Hts).
  assert (lc' = lc) as -> by congruence.
  assert (obs = []) as ->.
  { rewrite Forall_lookup in Hal. rewrite sorted_obs_time_Ok in Hobs
      by (by eapply Hal).
    injection Hobs as <-. rewrite filter_all_nan; [done|].
    intros x Hx. apply gather_obs_time_elem in Hx as (pb & fr & ? & ? & ?).
    by eapply Hnan. }
  done.
Qed.

(** X24: the plotting method raises [ValueError] for an object without
    any observation time, where observation-native mode returns an empty
    curve: the left limit of the time axis is the smallest of no times. *)
Theorem X24_plot_without_observation_raises (idx : nat) (rest : list nat)
    (step use_interp_flux : bool) (st : state) (p : Prepared) (y : tensor3)
    (grid : list fl) (k : nat) (lc : gmap string Frame) (yi : tensor2) :
  arrays (self st) = Some p ->
  y_predict (self st) = Some y ->
  p_timesX p !! idx = Some grid ->
  np.argmax grid = Ok k ->
  p_orig_lc p !! idx = Some lc ->
  y !! idx = Some yi ->
  S k <= length yi ->
  Forall (fun row => length CLASS_NAMES <= length row) yi ->
  drawable (passbands (self st)) lc ->
  Forall (fun pb => is_Some (lc !! pb)) (passbands (self st)) ->
  sorted_obs_time (passbands (self st)) lc = Ok [] ->
  plot (Some (idx :: rest)) step use_interp_flux st = Raise ValueError.
Proof.
  intros Ha Hy Hgrid Hk Hlc Hyi Hlong Hrows Hd Hall Hobs.
  pose proof (argmax_lt _ _ Hk) as Hkg.
  destruct (errorbars_Ok (self st) p idx lc) as [bars Hbars]; try done.
  assert (Hcurve : forall c, c < length CLASS_NAMES ->
            grid_curve (self st) idx (S k) c
            = Ok (take (S k) grid, take (S k) (class_curve yi c))).
  { intros c Hc. unfold grid_curve, getattr_arrays, getattr_y_predict.
    rewrite Ha, Hy. cbn [rbind].
    rewrite (proj2 (index_Ok _ _ _) Hgrid), (proj2 (index_Ok _ _ _) Hyi).
    cbn [rbind]. rewrite column_Ok; [done|].
    eapply Forall_impl; [exact Hrows|]. cbv beta. intros row Hrow. lia. }
  assert (Hlens : length (take (S k) grid) = S k /\
                  forall c, length (take (S k) (class_curve yi c)) = S k).
  { split; [rewrite length_take; lia|]. intros c. rewrite length_take.
    unfold class_curve. rewrite length_map. lia. }
  destruct Hlens as [Hlg Hlc'].
  assert (Hpred : plotted_predictions (self st) idx (S k) []
                  = Ok (map (fun _ => []) (seq 0 (length CLASS_NAMES)))).
  { unfold plotted_predictions. apply rmapM_Ok_fun. intros c Hc.
    apply elem_of_seq in Hc. rewrite Hcurve by lia. cbn [rbind fst snd].
    rewrite interp_Ok; [done|lia|]. by rewrite Hlg, Hlc'. }
  assert (Hlines : exists lines,
            class_lines (self st) idx (S k) step use_interp_flux []
              (if negb use_interp_flux
               then map (fun _ => []) (seq 0 (length CLASS_NAMES))
               else [])
            = Ok lines).
  { unfold class_lines. apply rmapM_Ok_exists. intros c Hc.
    apply elem_of_seq in Hc.
    destruct (lookup_lt_is_Some_2 CLASS_NAMES c) as [name Hname]; [lia|].
    destruct (class_color_Ok c name Hname) as [color Hcolor].
    rewrite (proj2 (index_Ok _ _ _) Hname). cbn [rbind].
    destruct use_interp_flux; cbn [negb].
    - rewrite Hcurve by lia. cbn [rbind fst snd]. rewrite Hcolor.
      cbn [rbind]. unfold draw_line. rewrite Hlg, Hlc', Nat.eqb_refl.
      by eexists.
    - unfold index. change (map ?f ?l) with (f <$> l).
      rewrite list_lookup_fmap, lookup_seq_lt by lia.
      cbn [fmap option_fmap option_map rbind]. rewrite Hcolor.
      cbn [rbind]. unfold draw_line. cbn [length Nat.eqb]. by eexists. }
  destruct Hlines as [lines Hlines].
  rewrite (plot_cached _ _ _ _ _ _ _ p y) by done.
  cbn [rmapM]. unfold plot_one at 1.
  unfold getattr_arrays at 1. rewrite Ha. cbn [rbind].
  rewrite (proj2 (index_Ok _ _ _) Hgrid). cbn [rbind].
  rewrite Hk. cbn [rbind]. rewrite Hbars. cbn [rbind].
  rewrite (plotted_times_Ok (self st) p idx lc) by done.
  rewrite Hobs. cbn [rbind].
  destruct use_interp_flux; cbn [negb] in *.
  - cbn [rbind]. rewrite Hlines. done.
  - rewrite Hpred. cbn [rbind]. rewrite Hlines. done.
Qed.

End Unobserved.

(** X23 on an object whose time columns hold NaN only. *)
Lemma X23_witness :
  exists ys ts st',
    get_predictions _ Ex.read Ex4.prepare_unseen true
      (Ex.start Ex4.keras_unseen) = Ok (Some (ys, ts), st') /\
    ys !! 0 = Some [] /\
    ts !! 0 = Some [].
Proof.
  apply (X23_no_observation_empty_curve _ Ex.read Ex4.prepare_unseen 4
           (Ex.start Ex4.keras_unseen) Ex4.unseen Ex4.y_unseen 0
           {[ "g" := Ex.frame [NaN; NaN]; "r" := Ex.frame [NaN; NaN] ]}).
  - reflexivity.
  - simpl. lia.
  - reflexivity.
  - lia.
  - by split.
  - unfold grids. simpl. by repeat constructor.
  - split; simpl; by repeat constructor.
  - unfold classes. simpl. by repeat constructor.
  - unfold aligned. repeat constructor; by vm_compute.
  - reflexivity.
  - intros pb frame x Hpb Hf Hx.
    apply elem_of_cons in Hpb as [->|Hpb];
      [|apply elem_of_cons in Hpb as [->|Hpb];
        [|by apply elem_of_nil in Hpb]];
      vm_compute in Hf; injection Hf as <-; simpl in Hx;
      apply elem_of_cons in Hx as [->|Hx]; try done;
      apply elem_of_cons in Hx as [->|Hx]; try done;
      by apply elem_of_nil in Hx.
Defined.

(** X24 on an object whose time columns hold NaN only. *)
Lemma X24_witness :
  plot_light_curves_and_classifications _ Ex.read Ex4.prepare_unseen
    (Some [0]) true false Ex4.cached_unseen
  = Raise ValueError.
Proof.
  apply (X24_plot_without_observation_raises _ Ex.read Ex4.prepare_unseen
           0 [] true false Ex4.cached_unseen Ex4.unseen Ex4.y_unseen
           [Fin 0; Fin 1; Fin 2; Fin 0] 2
           {[ "g" := Ex.frame [NaN; NaN]; "r" := Ex.frame [NaN; NaN] ]}
           (replicate 4 (Ex.one_hot 1))).
  - reflexivity.
  - reflexivity.
  - reflexivity.
  - reflexivity.
  - reflexivity.
  - reflexivity.
  - simpl. lia.
  - repeat constructor; simpl; lia.
  - intros pb frame Hpb Hf. split.
    + apply elem_of_cons in Hpb as [->|Hpb]; [by left|].
      apply elem_of_cons in Hpb as [->|Hpb]; [by right|].
      by apply elem_of_nil in Hpb.
    + apply elem_of_cons in Hpb as [->|Hpb];
        [|apply elem_of_cons in Hpb as [->|Hpb];
          [|by apply elem_of_nil in Hpb]];
        vm_compute in Hf; injection Hf as <-; by split.
  - apply Forall_cons. split; [by eexists|].
    apply Forall_cons. split; [by eexists|]. constructor.
  - by vm_compute.
Defined.
